(** * GBLM-Pruner: calibration sampling (lib/data.py) and the pruning
      driver (main.py)

    A shallow embedding of the two Python modules, with the properties of
    the calibration sampler and of the orchestration state machine proved
    over it.

    Conventions.
    - A Python [int] is a [Z]; a tensor of shape [1, L] is the [list Z] of
      its single row, so [t.shape[1]] is the length of that list.
    - The external collaborators (the datasets, the tokenizer, Python's
      [random] generator, the model and the pruning criteria) are taken as
      parameters.
    - Code that can raise or loop lives in a small state-and-exception
      monad; the [while True] loop of [get_c4] is given fuel. *)

From Stdlib Require Import ZArith QArith Ascii String.
From stdpp Require Import base list strings gmap.

Set Warnings "-notation-for-abbreviation".

Local Open Scope string_scope.
Local Open Scope list_scope.
Local Open Scope Z_scope.

(* ===================================================================== *)
(** * Python primitives *)
(* ===================================================================== *)

Module Py.

(** Exceptions raised by the modelled code. *)
Inductive exn : Type :=
| ValueError
| IndexError
| KeyError
| TypeError
| AttributeError
| AssertionError
| ImportError
| OSError
| FileNotFoundError
| RuntimeError.

(** The outcome of running a block: a value, an exception, or the fuel of
    an unbounded loop used up. *)
Inductive outcome (A : Type) : Type :=
| Ret (a : A)
| Raise (e : exn)
| OutOfFuel.
Arguments Ret {A} a.
Arguments Raise {A} e.
Arguments OutOfFuel {A}.

Definition terminated {A} (o : outcome A) : Prop :=
  match o with OutOfFuel => False | _ => True end.

Definition returned {A} (o : outcome A) : Prop :=
  match o with Ret _ => True | _ => False end.

(** [len(l)] *)
Definition len {A} (l : list A) : Z := Z.of_nat (length l).

(** Normalisation of one bound of a slice [l[i:j]] over a sequence of
    length [n]: a negative bound counts from the end, and every bound is
    clamped to [0..n]. *)
Definition slice_bound (n k : Z) : Z :=
  if k <? 0 then Z.max 0 (k + n) else Z.min k n.

(** [l[i:j]] *)
Definition slice {A} (l : list A) (i j : Z) : list A :=
  let n := len l in
  let lo := slice_bound n i in
  let hi := slice_bound n j in
  take (Z.to_nat (hi - lo)) (drop (Z.to_nat lo) l).

(** [l[:j]] *)
Definition slice_to {A} (l : list A) (j : Z) : list A := slice l 0 j.

(** [l[i]], with Python's negative indices and [IndexError]. *)
Definition getitem {A} (l : list A) (i : Z) : outcome A :=
  let k := if i <? 0 then i + len l else i in
  if k <? 0 then Raise IndexError
  else match l !! Z.to_nat k with
       | Some x => Ret x
       | None => Raise IndexError
       end.

(** [sep.join(l)] *)
Fixpoint join (sep : string) (l : list string) : string :=
  match l with
  | [] => ""
  | [x] => x
  | x :: rest => x +:+ sep +:+ join sep rest
  end.

(** [s.startswith(p)] *)
Fixpoint startswith (p s : string) : bool :=
  match p, s with
  | EmptyString, _ => true
  | String a p', String b s' => if Ascii.eqb a b then startswith p' s' else false
  | String _ _, EmptyString => false
  end.

(** [sub in s] on strings. *)
Fixpoint contains (sub s : string) : bool :=
  if startswith sub s then true
  else match s with
       | EmptyString => false
       | String _ s' => contains sub s'
       end.

(** [c.lower()] on one ASCII character. *)
Definition lower_ascii (c : ascii) : ascii :=
  let n := Ascii.nat_of_ascii c in
  if ((65 <=? n)%nat && (n <=? 90)%nat)%bool
  then Ascii.ascii_of_nat (n + 32) else c.

(** [s.lower()], on ASCII text. *)
Fixpoint lower (s : string) : string :=
  match s with
  | EmptyString => EmptyString
  | String c s' => String (lower_ascii c) (lower s')
  end.

(** [s.split(sep)] for a one-character separator: the pieces between the
    separators, never an empty list. *)
Fixpoint split (sep : ascii) (s : string) : list string :=
  match s with
  | EmptyString => [""]
  | String c s' =>
      if Ascii.eqb c sep then "" :: split sep s'
      else match split sep s' with
           | [] => [String c ""]
           | w :: ws => String c w :: ws
           end
  end.

(** [l[-1]] *)
Definition last_item {A} (l : list A) : outcome A := getitem l (-1).

Definition digit_of (c : ascii) : option Z :=
  let n := Ascii.nat_of_ascii c in
  if ((48 <=? n)%nat && (n <=? 57)%nat)%bool
  then Some (Z.of_nat (n - 48)) else None.

Fixpoint int_digits (acc : Z) (s : string) : option Z :=
  match s with
  | EmptyString => Some acc
  | String c s' =>
      match digit_of c with
      | Some d => int_digits (10 * acc + d) s'
      | None => None
      end
  end.

(** [int(s)] on a string of decimal digits; anything else is a
    [ValueError] (signs, blanks and underscores are not modelled). *)
Definition int (s : string) : outcome Z :=
  match s with
  | EmptyString => Raise ValueError
  | _ => match int_digits 0 s with
         | Some n => Ret n
         | None => Raise ValueError
         end
  end.

(** ** The state-and-exception monad

    A block of code is a function from the state before it to its outcome
    and the state after it. *)
Definition M (S A : Type) : Type := S -> outcome A * S.

Definition ret {S A} (a : A) : M S A := fun st => (Ret a, st).

Definition bind {S A B} (m : M S A) (k : A -> M S B) : M S B :=
  fun st =>
    match m st with
    | (Ret a, st') => k a st'
    | (Raise e, st') => (Raise e, st')
    | (OutOfFuel, st') => (OutOfFuel, st')
    end.

(** A pure computation that may raise. *)
Definition lift {S A} (o : outcome A) : M S A := fun st => (o, st).

Definition raise {S A} (e : exn) : M S A := fun st => (Raise e, st).

Definition out_of_fuel {S A} : M S A := fun st => (OutOfFuel, st).

Notation "'do' x <- m ; k" := (bind m (fun x => k))
  (at level 10, x name, m at level 100, k at level 200).

(** [for _ in range(n): acc.append(body)] *)
Fixpoint for_range {S A} (n : nat) (body : M S A) (acc : list A) : M S (list A) :=
  match n with
  | O => ret acc
  | S n' => do x <- body; for_range n' body (acc ++ [x])
  end.

End Py.

(* ===================================================================== *)
(** * lib/data.py *)
(* ===================================================================== *)

Module Data.
Import Py.

(** What a tokenizer call returns: the ids and the aligned attention mask
    (the single row of each [1 x L] tensor). *)
Record BatchEncoding : Type := {
  input_ids : list Z;
  attention_mask : list Z
}.

(** The tokenizer, an external collaborator: its optional
    [model_max_length] attribute and the call
    [tokenizer(text, return_tensors='pt', max_length=m, truncation=True)]. *)
Record Tokenizer : Type := {
  model_max_length : option Z;
  tok_call : string -> Z -> BatchEncoding
}.

(** [getattr(tokenizer, 'model_max_length', seqlen)] *)
Definition getattr_model_max_length (tokenizer : Tokenizer) (default : Z) : Z :=
  match model_max_length tokenizer with
  | Some m => m
  | None => default
  end.

(** [t.shape[1]] *)
Definition shape1 (t : list Z) : Z := len t.

(** [class TokenizerWrapper] *)
Record TokenizerWrapper : Type := { tw_input_ids : list Z }.

(** One calibration sample [(inp, attention_mask, tar)]. *)
Definition Sample : Type := (list Z * list Z * list Z)%type.

(** The second component of what a loader returns: [testenc] on the
    wikitext2 path, a [TokenizerWrapper] on the c4 path. *)
Inductive EvalEncoding : Type :=
| TestEnc (e : BatchEncoding)
| ValEnc (w : TokenizerWrapper).

(** Python's process-wide generator: the generator state and, as a ghost
    field, the values drawn so far. *)
Record RandomState (G : Type) : Type := {
  gen : G;
  draws : list Z
}.
Arguments gen {G} _.
Arguments draws {G} _.

Section Sampler.

(** Python's [random] module: [random.seed] and the draw behind
    [random.randint(a, b)] when [a <= b]. *)
Context {G : Type}.
Variable rng_seed : Z -> G.
Variable rng_draw : Z -> Z -> G -> Z * G.

(** What [load_dataset] returns: the ['text'] column of each split. *)
Variable wikitext_train : list string.
Variable wikitext_test : list string.
Variable c4_train : list string.
Variable c4_validation : list string.

Definition Sampling (A : Type) : Type := Py.M (RandomState G) A.

(** [random.seed(seed)] *)
Definition random_seed (seed : Z) : Sampling unit :=
  fun st => (Ret tt, {| gen := rng_seed seed; draws := draws st |}).

(** [random.randint(a, b)]: a [ValueError] on an empty range. *)
Definition randint (a b : Z) : Sampling Z :=
  fun st =>
    if b <? a then (Raise ValueError, st)
    else let (r, g') := rng_draw a b (gen st) in
         (Ret r, {| gen := g'; draws := draws st ++ [r] |}).

(** The statements that cut one sample, the same in both loaders
    (lines 39-45 of [get_wikitext2], lines 66-72 of [get_c4]): draw the
    start offset, slice the ids and the mask, clone the input as the
    target (the masking line [tar[:, :-1] = -100] is commented out). *)
Definition sample_window (trainenc : BatchEncoding) (seqlen : Z) : Sampling Sample :=
  do i <- randint 0 (shape1 (input_ids trainenc) - seqlen - 1);
  let j := i + seqlen in
  let inp := slice (input_ids trainenc) i j in
  let attention_mask := slice (attention_mask trainenc) i j in
  let tar := inp in
  ret (inp, attention_mask, tar).

(** [get_wikitext2(nsamples, seed, seqlen, tokenizer)] *)
Definition get_wikitext2 (nsamples seed seqlen : Z) (tokenizer : Tokenizer)
  : Sampling (list Sample * EvalEncoding) :=
  let traindata := wikitext_train in
  let testdata := wikitext_test in
  let max_length := getattr_model_max_length tokenizer seqlen in
  let train_text := join " " traindata in
  let trainenc := tok_call tokenizer train_text max_length in
  let test_text := join (String "010" (String "010" "")) testdata in
  let testenc := tok_call tokenizer test_text max_length in
  do _ <- random_seed seed;
  do trainloader <-
    for_range (Z.to_nat nsamples)
      (sample_window trainenc seqlen)
      [];
  ret (trainloader, TestEnc testenc).

(** The [while True] loop of [get_c4]: draw a record index, tokenize the
    record, leave the loop when it has more than [seqlen] tokens. *)
Fixpoint c4_draw_record (fuel : nat) (traindata : list string)
    (tokenizer : Tokenizer) (max_length seqlen : Z) : Sampling BatchEncoding :=
  match fuel with
  | O => out_of_fuel
  | S fuel' =>
      do i <- randint 0 (len traindata - 1);
      do text <- lift (getitem traindata i);
      let trainenc := tok_call tokenizer text max_length in
      if shape1 (input_ids trainenc) >? seqlen then ret trainenc
      else c4_draw_record fuel' traindata tokenizer max_length seqlen
  end.

(** [get_c4(nsamples, seed, seqlen, tokenizer)]; [fuel] bounds each run
    of the inner [while True] loop. *)
Definition get_c4 (fuel : nat) (nsamples seed seqlen : Z) (tokenizer : Tokenizer)
  : Sampling (list Sample * EvalEncoding) :=
  let traindata := c4_train in
  let valdata := c4_validation in
  let max_length := getattr_model_max_length tokenizer seqlen in
  do _ <- random_seed seed;
  do trainloader <-
    for_range (Z.to_nat nsamples)
      (do trainenc <- c4_draw_record fuel traindata tokenizer max_length seqlen;
       sample_window trainenc seqlen)
      [];
  let val_text := join " " (slice_to valdata 1100) in
  let valenc := tok_call tokenizer val_text max_length in
  let valenc := slice_to (input_ids valenc) (256 * seqlen) in
  let valenc := {| tw_input_ids := valenc |} in
  ret (trainloader, ValEnc valenc).

(** [get_loaders(name, nsamples, seed, seqlen, tokenizer)]; a name that
    matches neither corpus falls off the end and returns [None]. *)
Definition get_loaders (fuel : nat) (name : string) (nsamples seed seqlen : Z)
    (tokenizer : Tokenizer) : Sampling (option (list Sample * EvalEncoding)) :=
  if contains "wikitext2" name then
    do r <- get_wikitext2 nsamples seed seqlen tokenizer; ret (Some r)
  else if contains "c4" name then
    do r <- get_c4 fuel nsamples seed seqlen tokenizer; ret (Some r)
  else ret None.

(** One invocation, started in the ambient generator state [g]. *)
Definition run {A} (m : Sampling A) (g : G) : outcome A * RandomState G :=
  m {| gen := g; draws := [] |}.

End Sampler.

End Data.

(* ===================================================================== *)
(** * main.py *)
(* ===================================================================== *)

Module Main.
Import Py.

(** A Python [float] as far as [==] and [!=] see it: a finite value is the
  rational it denotes, and [nan] equals nothing. *)
Inductive pyfloat : Type :=
| Finite (q : Q)
| Inf (negative : bool)
| NaN.

(** [x == y] on floats. *)
Definition float_eqb (x y : pyfloat) : bool :=
match x, y with
| Finite a, Finite b => Qeq_bool a b
| Inf a, Inf b => Bool.eqb a b
| _, _ => false
end.

(** [o == lit] for an attribute that is a string or [None]. *)
Definition opt_eqb (o : option string) (lit : string) : bool :=
match o with
| Some s => String.eqb s lit
| None => false
end.

(** The namespace [parser.parse_args()] returns. An option without a
  default is [None] when it is not given on the command line. *)
Record Args : Type := {
model : option string;
gradient_path : option string;
grad_norm : string;
seed : Z;
nsamples : Z;
seq_length : Z;
sparsity_ratio : pyfloat;
layer_no : Z;
sparsity_type : option string;
prune_method : option string;
cache_dir : string;
use_variant : bool;
save : option string;
save_model : option string;
grad_exponent : bool;
gradient_inv : bool
}.

(** The classes whose [from_pretrained] loads a model. *)
Inductive ModelClass : Type :=
| LlavaForConditionalGeneration
| AutoModelForVision2Seq
| AutoModelForCausalLM.

(** The classes whose [from_pretrained] loads a tokenizer. *)
Inductive TokenizerClass : Type :=
| LlamaTokenizer
| AutoTokenizer.

(** The five pruning criteria of [lib.prune]. *)
Inductive Criterion : Type :=
| prune_wanda
| prune_gblm
| prune_magnitude
| prune_gradient
| prune_sparsegpt.

(** [os.path.join(a, b)] for a relative [b]. *)
Definition path_join (a b : string) : string :=
match a with
| EmptyString => b
| _ => if startswith "/" (String.substring (String.length a - 1) 1 a)
       then a +:+ b else a +:+ "/" +:+ b
end.

Section Driver.

(** The opaque collaborators: the weights of a model [W], an entry of a
    device map [D], a tokenizer [T], a processor [P], and the floats the
    audit and the evaluation return, [F]. *)
Context {W D T P F : Type}.

(** A loaded model: its weights, its device map, and the attributes the
    driver sets on it. *)
Record Model : Type := {
  weights : W;
  hf_device_map : gmap string D;
  seqlen : option Z;
  training : bool
}.

(** The value of the local [device]. *)
Inductive Device : Type :=
| TorchDevice (name : string)
| MapDevice (d : D).

(** The calls the driver makes to its collaborators, in order; a call
    that raises is recorded too, except [WriteFile], which records the
    log file once its two lines are written. Console output is not
    recorded. The loading calls of [get_llm] return; every call after
    the setup, and both seed calls, may raise. The [assert] statement is
    executed. *)
Inductive Event : Type :=
| NpRandomSeed (s : Z)
| TorchManualSeed (s : Z)
| ModelFromPretrained (cls : ModelClass) (name cache : string)
| ProcessorFromPretrained (name cache : string)
| TokenizerFromPretrained (cls : TokenizerClass) (path : string)
| Prune (c : Criterion) (prune_n prune_m layer_no : Z) (device : Device)
| CheckSparsity
| EvalPpl (device : Device)
| PathExists (path : string)
| Makedirs (path : string)
| WriteFile (path : string) (lines : list string)
| SaveModel (path : string)
| SaveTokenizer (path : string).

(** [cls.from_pretrained(model, torch_dtype=torch.float16, ...)]: the
    weights and the device map it returns. *)
Variable model_from_pretrained : ModelClass -> string -> string -> W * gmap string D.
(** Whether [from transformers import LlavaForConditionalGeneration]
    succeeds. *)
Variable llava_importable : bool.
Variable processor_from_pretrained : string -> string -> P.
(** [cls.from_pretrained(path, use_fast=False)]; [None] when it raises. *)
Variable tokenizer_from_pretrained : TokenizerClass -> string -> option T.
(** A criterion mutates the model in place and may raise: the model
    object after the call. *)
Variable prune :
  Criterion -> Args -> Model -> T -> Device -> Z -> Z -> Z -> outcome Model.
Variable check_sparsity : Model -> Args -> outcome F.
Variable eval_ppl : Model -> T -> Device -> outcome F.
(** The format [f"{x:.4f}"]. *)
Variable fmt4 : F -> string.
(** The file system: [os.path.exists] and [os.makedirs] on a non-empty
    path, the [with open(path, "w")] block with its two prints. *)
Variable path_exists : string -> bool.
Variable makedirs : string -> outcome unit.
Variable write_file : string -> list string -> outcome unit.
(** [model.save_pretrained(path)] and [tokenizer.save_pretrained(path)]. *)
Variable save_model_pretrained : Model -> string -> outcome unit.
Variable save_tokenizer_pretrained : T -> string -> outcome unit.

Definition IO (A : Type) : Type := Py.M (list Event) A.

Definition emit (e : Event) : IO unit := fun tr => (Ret tt, tr ++ [e]).

(** [np.random.seed(seed)]: numpy takes a seed between 0 and 2**32 - 1
    and raises [ValueError] on any other. *)
Definition np_random_seed (seed : Z) : IO unit :=
  do _ <- emit (NpRandomSeed seed);
  if ((seed <? 0) || (4294967295 <? seed))%bool then raise ValueError
  else ret tt.

(** [torch.random.manual_seed(seed)]: torch takes a seed between
    -2**63 and 2**64 - 1 and raises [RuntimeError] on any other. *)
Definition torch_manual_seed (seed : Z) : IO unit :=
  do _ <- emit (TorchManualSeed seed);
  if ((seed <? -9223372036854775808) || (18446744073709551615 <? seed))%bool
  then raise RuntimeError
  else ret tt.

(** [get_llm(model, cache_dir)] *)
Definition get_llm (model : string) (cache_dir : string) : IO (Model * option P) :=
  if contains "llava" (lower model) then
    do _ <- (if llava_importable then ret tt else raise ImportError);
    do _ <- emit (ModelFromPretrained LlavaForConditionalGeneration model cache_dir);
    let '(w, dm) := model_from_pretrained LlavaForConditionalGeneration model cache_dir in
    let llava_model := {| weights := w; hf_device_map := dm;
                          seqlen := Some 2048; training := true |} in
    ret (llava_model, None)
  else if (contains "qwen2.5-vl" (lower model) || contains "vl" (lower model))%bool then
    do _ <- emit (ModelFromPretrained AutoModelForVision2Seq model cache_dir);
    let '(w, dm) := model_from_pretrained AutoModelForVision2Seq model cache_dir in
    let vlm_model := {| weights := w; hf_device_map := dm;
                        seqlen := Some 2048; training := true |} in
    do _ <- emit (ProcessorFromPretrained model cache_dir);
    let vlm_processor := processor_from_pretrained model cache_dir in
    ret (vlm_model, Some vlm_processor)
  else
    do _ <- emit (ModelFromPretrained AutoModelForCausalLM model cache_dir);
    let '(w, dm) := model_from_pretrained AutoModelForCausalLM model cache_dir in
    let model := {| weights := w; hf_device_map := dm;
                    seqlen := Some 2048; training := true |} in
    ret (model, None).

(** [model.eval()] *)
Definition model_eval (m : Model) : Model :=
  {| weights := weights m; hf_device_map := hf_device_map m;
     seqlen := seqlen m; training := false |}.

(** [cls.from_pretrained(path, use_fast=False)] as a call that may raise. *)
Definition load_tokenizer (cls : TokenizerClass) (path : string) : IO T :=
  do _ <- emit (TokenizerFromPretrained cls path);
  match tokenizer_from_pretrained cls path with
  | Some t => ret t
  | None => raise OSError
  end.

(** [try: a except Exception: b] *)
Definition try_except {A} (a b : IO A) : IO A :=
  fun tr =>
    match a tr with
    | (Raise _, tr') => b tr'
    | r => r
    end.

(** Lines 91-94: the handling of n:m sparsity. *)
Definition handle_nm (args : Args) : outcome (Z * Z) :=
  let '(prune_n, prune_m) := (0, 0) in
  if negb (opt_eqb (sparsity_type args) "unstructured") then
    if float_eqb (sparsity_ratio args) (Finite (1 # 2)) then
      match sparsity_type args with
      | None => Raise AttributeError
      | Some s =>
          match split ":" s with
          | [a; b] =>
              match int a with
              | Ret n => match int b with
                         | Ret m => Ret (n, m)
                         | Raise e => Raise e
                         | OutOfFuel => OutOfFuel
                         end
              | Raise e => Raise e
              | OutOfFuel => OutOfFuel
              end
          | _ => Raise ValueError
          end
      end
    else Raise AssertionError
  else Ret (prune_n, prune_m).

(** The locals of [main] that are live after line 132. *)
Record Locals : Type := {
  l_args : Args;
  l_prune_n : Z;
  l_prune_m : Z;
  l_model : Model;
  l_tokenizer : T;
  l_device : Device;
  l_idx : Z;
  l_dataset_name : string
}.

(** Lines 86-132 of [main]: seeds, configuration, loading, device and
    corpus selection. *)
Definition main_setup (args : Args) : IO Locals :=
  do _ <- np_random_seed (seed args);
  do _ <- torch_manual_seed (seed args);
  do nm <- lift (handle_nm args);
  let '(prune_n, prune_m) := nm in
  do args_model <- lift (match model args with
                         | Some s => Ret s
                         | None => Raise AttributeError
                         end);
  do model_name <- lift (last_item (split "/" args_model));
  do mp <- get_llm args_model (cache_dir args);
  let '(model, processor) := mp in
  let model := model_eval model in
  do tokenizer <-
    match processor with
    | Some _ =>
        try_except
          (load_tokenizer AutoTokenizer (path_join args_model "language_model"))
          (load_tokenizer AutoTokenizer args_model)
    | None =>
        if contains "llava" (lower args_model) then
          try_except
            (load_tokenizer LlamaTokenizer args_model)
            (load_tokenizer AutoTokenizer args_model)
        else load_tokenizer AutoTokenizer args_model
    end;
  let device := TorchDevice "cuda:0" in
  do device <-
    (if (contains "30b" args_model || contains "65b" args_model
         || contains "70b" args_model)%bool
     then match hf_device_map model !! "lm_head" with
          | Some d => ret (MapDevice d)
          | None => raise KeyError
          end
     else ret device);
  let idx := layer_no args in
  let dataset_name := "c4" in
  let dataset_name :=
    if (contains "qwen2.5-vl" (lower args_model) || contains "vl" (lower args_model))%bool
    then "qwen2.5-vl" else dataset_name in
  ret {| l_args := args; l_prune_n := prune_n; l_prune_m := prune_m;
         l_model := model; l_tokenizer := tokenizer; l_device := device;
         l_idx := idx; l_dataset_name := dataset_name |}.

(** One call [prune_x(args, model, tokenizer, device, prune_n=..,
    prune_m=.., layer_no=idx)]: the event and the model object as the
    criterion leaves it. *)
Definition call_prune (c : Criterion) (l : Locals) : IO Model :=
  do _ <- emit (Prune c (l_prune_n l) (l_prune_m l) (l_idx l) (l_device l));
  lift (prune c (l_args l) (l_model l) (l_tokenizer l) (l_device l)
          (l_prune_n l) (l_prune_m l) (l_idx l)).

(** Lines 133-144 of [main]: the dispatch to one criterion. Returns the
    model as the criterion leaves it. *)
Definition dispatch (l : Locals) : IO Model :=
  let args := l_args l in
  if negb (float_eqb (sparsity_ratio args) (Finite 0)) then
    if opt_eqb (prune_method args) "wanda" then call_prune prune_wanda l
    else if opt_eqb (prune_method args) "gblm" then call_prune prune_gblm l
    else if opt_eqb (prune_method args) "magnitude" then call_prune prune_magnitude l
    else if opt_eqb (prune_method args) "gradient" then call_prune prune_gradient l
    else if opt_eqb (prune_method args) "sparsegpt" then call_prune prune_sparsegpt l
    else ret (l_model l)
  else ret (l_model l).

(** [os.path.exists(path)] on a string: the empty path never exists. *)
Definition os_path_exists (path : string) : IO bool :=
  do _ <- emit (PathExists path);
  ret (negb (String.eqb path "") && path_exists path)%bool.

(** [os.makedirs(path)]: [FileNotFoundError] on the empty path. *)
Definition os_makedirs (path : string) : IO unit :=
  do _ <- emit (Makedirs path);
  if String.eqb path "" then raise FileNotFoundError
  else lift (makedirs path).

(** Lines 148-165 of [main]: audit, evaluation, persistence. *)
Definition audit_evaluate_persist (l : Locals) (model : Model) : IO Model :=
  let args := l_args l in
  let tokenizer := l_tokenizer l in
  do _ <- emit CheckSparsity;
  do sparsity_ratio <- lift (check_sparsity model args);
  do _ <- emit (EvalPpl (l_device l));
  do ppl <- lift (eval_ppl model tokenizer (l_device l));
  do args_save <- lift (match save args with
                        | Some s => Ret s
                        | None => Raise TypeError
                        end);
  do found <- os_path_exists args_save;
  do _ <- (if negb found then os_makedirs args_save else ret tt);
  let save_filepath := path_join args_save "log.txt" in
  let lines := ["actual_sparsity" +:+ String "009" "ppl";
                fmt4 sparsity_ratio +:+ String "009" (fmt4 ppl)] in
  do _ <- lift (write_file save_filepath lines);
  do _ <- emit (WriteFile save_filepath lines);
  do _ <- (match save_model args with
           | Some p =>
               if negb (String.eqb p "") then
                 do _ <- emit (SaveModel p);
                 do _ <- lift (save_model_pretrained model p);
                 do _ <- emit (SaveTokenizer p);
                 lift (save_tokenizer_pretrained tokenizer p)
               else ret tt
           | None => ret tt
           end);
  ret model.

(** Lines 133-165 of [main]. *)
Definition main_run (l : Locals) : IO Model :=
  do model <- dispatch l; audit_evaluate_persist l model.

(** [main()] *)
Definition main (args : Args) : IO Model :=
  do l <- main_setup args; main_run l.

(** ** What a run is expected to show *)

(** The criterion a method name stands for. *)
Definition criterion_named (name : string) : option Criterion :=
  if String.eqb name "wanda" then Some prune_wanda
  else if String.eqb name "gblm" then Some prune_gblm
  else if String.eqb name "magnitude" then Some prune_magnitude
  else if String.eqb name "gradient" then Some prune_gradient
  else if String.eqb name "sparsegpt" then Some prune_sparsegpt
  else None.

(** The criteria a trace invoked, in order. *)
Definition prune_calls (tr : list Event) : list Criterion :=
  omap (fun e => match e with
                 | Prune c _ _ _ _ => Some c
                 | _ => None
                 end) tr.

(** The model loads a trace made. *)
Definition load_calls (tr : list Event) : list (ModelClass * string) :=
  omap (fun e => match e with
                 | ModelFromPretrained cls name _ => Some (cls, name)
                 | _ => None
                 end) tr.

(** What criterion [c] does to the model of the locals [l]. *)
Definition pruned (c : Criterion) (l : Locals) : outcome Model :=
  prune c (l_args l) (l_model l) (l_tokenizer l) (l_device l)
    (l_prune_n l) (l_prune_m l) (l_idx l).

(** A block of the driver that invokes no criterion. *)
Definition quiet {A} (m : IO A) : Prop :=
  forall tr o tr', m tr = (o, tr') -> prune_calls tr' = prune_calls tr.

(** The identifier carries one of the markers the driver looks for. *)
Definition has_size_marker (id : string) : bool :=
  (contains "30b" id || contains "65b" id || contains "70b" id)%bool.

(** Two sets of locals that differ at most in [dataset_name]. *)
Definition agree_but_dataset_name (l1 l2 : Locals) : Prop :=
  l_args l1 = l_args l2 /\ l_prune_n l1 = l_prune_n l2
  /\ l_prune_m l1 = l_prune_m l2 /\ l_model l1 = l_model l2
  /\ l_tokenizer l1 = l_tokenizer l2 /\ l_device l1 = l_device l2
  /\ l_idx l1 = l_idx l2.

End Driver.

(** [sub] occurs in [s]. *)
Definition occurs_in (sub s : string) : Prop :=
  exists pre post, s = pre +:+ sub +:+ post.

End Main.

(* ===================================================================== *)
(** * Contracts of the collaborators of lib/data.py *)
(* ===================================================================== *)

Module Contracts.
Import Py Data.

(** Python documents [random.randint(a, b)] as an integer [N] with
  [a <= N <= b]. *)
Definition randint_contract {G} (rng_draw : Z -> Z -> G -> Z * G) : Prop :=
forall a b g, a <= b -> a <= fst (rng_draw a b g) <= b.

(** A tokenizer returns an attention mask aligned with the ids. *)
Definition aligned (tokenizer : Tokenizer) : Prop :=
forall text m,
  length (attention_mask (tok_call tokenizer text m))
  = length (input_ids (tok_call tokenizer text m)).

(** A sample is the window of [enc] that starts at offset [i]. *)
Definition window_of (enc : BatchEncoding) (seqlen i : Z) (s : Sample) : Prop :=
s = (slice (input_ids enc) i (i + seqlen),
     slice (attention_mask enc) i (i + seqlen),
     slice (input_ids enc) i (i + seqlen)).

(** An offset from which [seqlen] tokens can be read inside [enc]. *)
Definition offset_in_range (enc : BatchEncoding) (seqlen i : Z) : Prop :=
0 <= i <= shape1 (input_ids enc) - seqlen - 1.

(** The shape a calibration sample must have: three windows of [seqlen]
    tokens, the target equal to the input. *)
Definition sample_shape (seqlen : Z) (s : Sample) : Prop :=
  let '(inp, attention_mask, tar) := s in
  len inp = seqlen /\ len attention_mask = seqlen /\ len tar = seqlen
  /\ tar = inp.

(** A c4 sample is a window of one record of the train split whose
    encoding has more than [seqlen] tokens. *)
Definition cut_from_long_record (traindata : list string)
    (tokenizer : Tokenizer) (max_length seqlen : Z) (s : Sample) : Prop :=
  exists (k : nat) (text : string) (i : Z),
    traindata !! k = Some text
    /\ shape1 (input_ids (tok_call tokenizer text max_length)) > seqlen
    /\ offset_in_range (tok_call tokenizer text max_length) seqlen i
    /\ window_of (tok_call tokenizer text max_length) seqlen i s.

(** What one invocation lets its caller observe: the outcome and the
    values it drew, in order. *)
Definition observable {G A} (r : outcome A * RandomState G) : outcome A * list Z :=
  (fst r, draws (snd r)).

(** ** The record draws of the c4 rejection loop, as a sequence

    Started in generator state [g] over a train split of [n] records, the
    loop draws [randint(0, n - 1)] again and again. *)
Section RecordDraws.

Context {G : Type}.
Variable rng_draw : Z -> Z -> G -> Z * G.
Variable traindata : list string.
Variable tokenizer : Tokenizer.
Variable max_length seqlen : Z.

(** The generator state after [k] record draws. *)
Fixpoint gen_after (g : G) (k : nat) : G :=
  match k with
  | O => g
  | S k' => gen_after (snd (rng_draw 0 (len traindata - 1) g)) k'
  end.

(** The state after one record draw. *)
Definition after_draw (st : RandomState G) : RandomState G :=
  {| gen := snd (rng_draw 0 (len traindata - 1) (gen st));
     draws := draws st ++ [fst (rng_draw 0 (len traindata - 1) (gen st))] |}.

(** The record index of draw number [k] (counting from 0). *)
Definition record_draw (g : G) (k : nat) : Z :=
  fst (rng_draw 0 (len traindata - 1) (gen_after g k)).

(** The encoding of record [i] of the train split. *)
Definition record_encoding (i : Z) : option BatchEncoding :=
  match traindata !! Z.to_nat i with
  | Some text => Some (tok_call tokenizer text max_length)
  | None => None
  end.

(** Record [i] tokenizes, under the cap, to more than [seqlen] tokens. *)
Definition is_long (i : Z) : bool :=
  match record_encoding i with
  | Some enc => shape1 (input_ids enc) >? seqlen
  | None => false
  end.

(** The sequence of record draws from [g] eventually reaches a long
    record. *)
Definition reaches_long_record (g : G) : Prop :=
  exists k, is_long (record_draw g k) = true.

(** Draw [k] is the first that reaches a long record; [enc] is its
    encoding. *)
Definition first_long_draw (g : G) (k : nat) (enc : BatchEncoding) : Prop :=
  (forall j, (j < k)%nat -> is_long (record_draw g j) = false)
  /\ record_encoding (record_draw g k) = Some enc
  /\ shape1 (input_ids enc) > seqlen.

(** Each of [n] successive iterations reaches a long record, the next
    iteration starting from the generator state the previous one left
    (after its record draws and its offset draw). *)
Fixpoint iterations_reach (n : nat) (g : G) : Prop :=
  match n with
  | O => True
  | S n' =>
      exists k enc,
        first_long_draw g k enc
        /\ iterations_reach n'
             (snd (rng_draw 0 (shape1 (input_ids enc) - seqlen - 1)
                     (gen_after g (S k))))
  end.

(** The samples and the draws of [n] successive iterations from [g]:
    each iteration draws record indices until the first long record, the
    short ones before it being dropped, then draws the offset of its
    window in that record. *)
Fixpoint rejection_sampled (n : nat) (g : G) (loader : list Sample)
    (log : list Z) : Prop :=
  match n with
  | O => loader = [] /\ log = []
  | S n' =>
      exists k enc rest log',
        first_long_draw g k enc
        /\ let hi := shape1 (input_ids enc) - seqlen - 1 in
           let i := fst (rng_draw 0 hi (gen_after g (S k))) in
           loader = (slice (input_ids enc) i (i + seqlen),
                     slice (attention_mask enc) i (i + seqlen),
                     slice (input_ids enc) i (i + seqlen)) :: rest
           /\ log = map (record_draw g) (seq 0 (S k)) ++ i :: log'
           /\ rejection_sampled n' (snd (rng_draw 0 hi (gen_after g (S k))))
                rest log'
  end.

End RecordDraws.

End Contracts.

(* ===================================================================== *)
(** * A small concrete instance, used to run the definitions *)
(* ===================================================================== *)

Module Toy.
Import Py Data.

(** A linear congruential generator standing for Python's generator. *)
Definition toy_seed (seed : Z) : Z := seed.

Definition toy_draw (a b : Z) (g : Z) : Z * Z :=
(a + g mod (b - a + 1), (g * 1103515245 + 12345) mod 2147483648).

Fixpoint codes (s : string) : list Z :=
match s with
| EmptyString => []
| String c s' => Z.of_nat (Ascii.nat_of_ascii c) :: codes s'
end.

(** One token per character, cut at [max_length], mask all ones. *)
Definition toy_call (text : string) (max_length : Z) : BatchEncoding :=
let ids := take (Z.to_nat max_length) (codes text) in
{| input_ids := ids; attention_mask := map (fun _ => 1) ids |}.

Definition toy_tokenizer : Tokenizer :=
{| model_max_length := Some 64; tok_call := toy_call |}.

Definition toy_wikitext_train : list string :=
["the quick brown fox"; "jumps over"; "the lazy dog"].
Definition toy_wikitext_test : list string := ["hello"; "world"].
Definition toy_c4_train : list string :=
["ab"; "a much longer record"; "xyz"; "another long enough record"].
Definition toy_c4_validation : list string := ["lorem ipsum"; "dolor sit amet"].

(** A train split in which no record is long enough for [seqlen = 4]. *)
Definition toy_c4_short : list string := ["ab"; "xyz"].

(** The runs of the two loaders used below: three samples, seed 7,
    windows of 4 tokens, the generator left in state 99 by earlier code. *)
Definition toy_wikitext_result
  : outcome (list Sample * EvalEncoding) * RandomState Z :=
  Eval vm_compute in
    run (get_wikitext2 toy_seed toy_draw toy_wikitext_train toy_wikitext_test
           3 7 4 toy_tokenizer) 99.

Definition toy_c4_result
  : outcome (list Sample * EvalEncoding) * RandomState Z :=
  Eval vm_compute in
    run (get_c4 toy_seed toy_draw toy_c4_train toy_c4_validation
           5 3 7 4 toy_tokenizer) 99.

(** The same loader from seed 0: the first record drawn is too short and
    is drawn again. *)
Definition toy_c4_retry_result
  : outcome (list Sample * EvalEncoding) * RandomState Z :=
  Eval vm_compute in
    run (get_c4 toy_seed toy_draw toy_c4_train toy_c4_validation
           5 1 0 4 toy_tokenizer) 99.

Definition loader_of (r : outcome (list Sample * EvalEncoding) * RandomState Z)
  : list Sample :=
  match fst r with
  | Ret (l, _) => l
  | _ => []
  end.

Definition eval_of (r : outcome (list Sample * EvalEncoding) * RandomState Z)
  : EvalEncoding :=
  match fst r with
  | Ret (_, e) => e
  | _ => ValEnc {| tw_input_ids := [] |}
  end.

Definition toy_wikitext_loader : list Sample :=
  Eval vm_compute in loader_of toy_wikitext_result.
Definition toy_wikitext_eval : EvalEncoding :=
  Eval vm_compute in eval_of toy_wikitext_result.
Definition toy_c4_loader : list Sample :=
  Eval vm_compute in loader_of toy_c4_result.
Definition toy_c4_eval : EvalEncoding :=
  Eval vm_compute in eval_of toy_c4_result.

(** ** A driver instance: weights are a counter the criteria bump, the
    device map puts the output head on device 3. *)

Definition toy_model_from_pretrained (cls : Main.ModelClass) (name cache : string)
  : Z * gmap string Z :=
  (0, <["lm_head" := 3]> (<["model.embed_tokens" := 0]> ∅)).

Definition toy_tokenizer_from_pretrained (cls : Main.TokenizerClass)
    (path : string) : option string :=
  Some path.

Definition toy_prune (c : Main.Criterion) (args : Main.Args)
    (m : @Main.Model Z Z) (t : string) (d : @Main.Device Z)
    (prune_n prune_m layer_no : Z) : outcome (@Main.Model Z Z) :=
  Ret {| Main.weights := Main.weights m + 1;
         Main.hf_device_map := Main.hf_device_map m;
         Main.seqlen := Main.seqlen m;
         Main.training := Main.training m |}.

Definition toy_check_sparsity (m : @Main.Model Z Z) (args : Main.Args)
  : outcome Z :=
  Ret (Main.weights m).

Definition toy_eval_ppl (m : @Main.Model Z Z) (t : string) (d : @Main.Device Z)
  : outcome Z :=
  Ret 7.

(** An empty disk on which every call succeeds. *)
Definition toy_path_exists (path : string) : bool := false.
Definition toy_makedirs (path : string) : outcome unit := Ret tt.
Definition toy_write_file (path : string) (lines : list string)
  : outcome unit := Ret tt.
Definition toy_save_model (m : @Main.Model Z Z) (path : string)
  : outcome unit := Ret tt.
Definition toy_save_tokenizer (t : string) (path : string)
  : outcome unit := Ret tt.

Definition toy_fmt4 (x : Z) : string :=
  if x =? 0 then "0.0000" else if x =? 1 then "1.0000" else "7.0000".

Definition toy_main (args : Main.Args) :=
  Main.main (P := unit) toy_model_from_pretrained true (fun _ _ => tt)
    toy_tokenizer_from_pretrained toy_prune toy_check_sparsity toy_eval_ppl
    toy_fmt4 toy_path_exists toy_makedirs toy_write_file toy_save_model
    toy_save_tokenizer args.

Definition toy_main_setup (args : Main.Args) :=
  Main.main_setup (P := unit) toy_model_from_pretrained true (fun _ _ => tt)
    toy_tokenizer_from_pretrained args.

Definition toy_main_run (l : @Main.Locals Z Z string) :=
  Main.main_run toy_prune toy_check_sparsity toy_eval_ppl toy_fmt4
    toy_path_exists toy_makedirs toy_write_file toy_save_model
    toy_save_tokenizer l.

(** [python main.py --model facebook/opt-125m --sparsity_ratio r
    --sparsity_type t --prune_method m --save out] *)
Definition toy_args (model : string) (ratio : Main.pyfloat)
    (sparsity_type prune_method : option string) : Main.Args :=
  {| Main.model := Some model;
     Main.gradient_path := None;
     Main.grad_norm := "none";
     Main.seed := 0;
     Main.nsamples := 128;
     Main.seq_length := 2048;
     Main.sparsity_ratio := ratio;
     Main.layer_no := -1;
     Main.sparsity_type := sparsity_type;
     Main.prune_method := prune_method;
     Main.cache_dir := "./llm_weights";
     Main.use_variant := false;
     Main.save := Some "out";
     Main.save_model := None;
     Main.grad_exponent := false;
     Main.gradient_inv := false |}.

(** The locals of a run on a text model, with the corpus name left open. *)
Definition toy_locals (dataset_name : string) : @Main.Locals Z Z string :=
  {| Main.l_args := toy_args "facebook/opt-125m" (Main.Finite (1 # 2))
                      (Some "unstructured") (Some "wanda");
     Main.l_prune_n := 0;
     Main.l_prune_m := 0;
     Main.l_model := {| Main.weights := 0;
                        Main.hf_device_map := ∅;
                        Main.seqlen := Some 2048;
                        Main.training := false |};
     Main.l_tokenizer := "facebook/opt-125m";
     Main.l_device := Main.TorchDevice "cuda:0";
     Main.l_idx := -1;
     Main.l_dataset_name := dataset_name |}.

End Toy.

(* ===================================================================== *)
(** * Further vocabulary for the behaviour of both files *)
(* ===================================================================== *)

Module Behaviour.
Import Py Data Main.

(** The sample cut from [enc] at offset [i]. *)
Definition window_at (enc : BatchEncoding) (seqlen i : Z) : Sample :=
  (slice (input_ids enc) i (i + seqlen),
   slice (attention_mask enc) i (i + seqlen),
   slice (input_ids enc) i (i + seqlen)).

(** A tokenizer that keeps to the [max_length] it is called with. *)
Definition honours_cap (tokenizer : Tokenizer) : Prop :=
  forall text m, 0 <= m -> len (input_ids (tok_call tokenizer text m)) <= m.

(** [w] is the part of [l] that starts at position [i]. *)
Definition segment_at {A} (l w : list A) (i : Z) : Prop :=
  exists pre post, l = pre ++ w ++ post /\ len pre = i.

Section Offsets.

Context {G : Type}.
Variable rng_draw : Z -> Z -> G -> Z * G.

(** The values of [n] successive calls [randint(0, hi)] from [g]. *)
Fixpoint offsets_from (hi : Z) (n : nat) (g : G) : list Z :=
  match n with
  | O => []
  | S n' => fst (rng_draw 0 hi g) :: offsets_from hi n' (snd (rng_draw 0 hi g))
  end.

(** The generator state those calls leave. *)
Fixpoint gen_after_offsets (hi : Z) (n : nat) (g : G) : G :=
  match n with
  | O => g
  | S n' => gen_after_offsets hi n' (snd (rng_draw 0 hi g))
  end.

End Offsets.

Section Traces.

Context {D : Type}.

(** [set_seed(seed)] of lib/data.py, in the vocabulary of the driver's
    calls. *)
Definition set_seed (seed : Z) : IO (D := D) unit :=
  do _ <- np_random_seed seed; torch_manual_seed seed.

(** The files a trace wrote, in order. *)
Definition log_writes (tr : list (@Event D)) : list string :=
  omap (fun e => match e with
                 | WriteFile path _ => Some path
                 | _ => None
                 end) tr.

(** The tokenizer loads of a trace, in order. *)
Definition tokenizer_loads (tr : list (@Event D)) : list (TokenizerClass * string) :=
  omap (fun e => match e with
                 | TokenizerFromPretrained cls path => Some (cls, path)
                 | _ => None
                 end) tr.

(** The directories a trace created. *)
Definition makedirs_calls (tr : list (@Event D)) : list string :=
  omap (fun e => match e with
                 | Makedirs path => Some path
                 | _ => None
                 end) tr.

(** The paths a trace saved the model and the tokenizer to. *)
Definition save_calls (tr : list (@Event D)) : list (bool * string) :=
  omap (fun e => match e with
                 | SaveModel path => Some (true, path)
                 | SaveTokenizer path => Some (false, path)
                 | _ => None
                 end) tr.

(** A block of the driver makes none of the calls that [f] selects. *)
Definition silent {X A} (f : @Event D -> option X) (m : IO (D := D) A) : Prop :=
  forall tr o tr', m tr = (o, tr') -> omap f tr' = omap f tr.

(** A block of the driver only appends to the trace. *)
Definition appends {A} (m : IO (D := D) A) : Prop :=
  forall tr o tr', m tr = (o, tr') -> exists evs, tr' = tr ++ evs.

End Traces.

(** The class [get_llm] loads an identifier with. *)
Definition model_class_of (id : string) : ModelClass :=
  if contains "llava" (lower id) then LlavaForConditionalGeneration
  else if contains "vl" (lower id) then AutoModelForVision2Seq
  else AutoModelForCausalLM.

(** The tokenizer loads the driver tries for an identifier, in order. *)
Definition tokenizer_chain (id : string) : list (TokenizerClass * string) :=
  match model_class_of id with
  | AutoModelForVision2Seq =>
      [(AutoTokenizer, path_join id "language_model"); (AutoTokenizer, id)]
  | LlavaForConditionalGeneration => [(LlamaTokenizer, id); (AutoTokenizer, id)]
  | AutoModelForCausalLM => [(AutoTokenizer, id)]
  end.

(** The first load of a chain that succeeds, with the attempts made. *)
Fixpoint first_success {T} (load : TokenizerClass -> string -> option T)
    (chain : list (TokenizerClass * string))
  : option T * list (TokenizerClass * string) :=
  match chain with
  | [] => (None, [])
  | (cls, path) :: rest =>
      match load cls path with
      | Some t => (Some t, [(cls, path)])
      | None => let '(r, tried) := first_success load rest in
                (r, (cls, path) :: tried)
      end
  end.

(** A tokenizer without [model_max_length], otherwise like the toy one. *)
Definition uncapped_tokenizer : Tokenizer :=
  {| model_max_length := None; tok_call := Toy.toy_call |}.

(** Tokenizer loads that fail in a sub-folder and succeed elsewhere. *)
Definition no_subfolder_tokenizer (cls : TokenizerClass) (path : string)
  : option string :=
  if contains "language_model" path then None else Some path.

(** A device map without an entry for the output head. *)
Definition single_device_model (cls : ModelClass) (name cache : string)
  : Z * gmap string Z :=
  (0, <["" := 0]> ∅).

(** [python main.py --sparsity_type unstructured --save out], no
    [--model]. *)
Definition no_model_args : Args :=
  {| model := None;
     gradient_path := None;
     grad_norm := "none";
     seed := 0;
     nsamples := 128;
     seq_length := 2048;
     sparsity_ratio := Finite 0;
     layer_no := -1;
     sparsity_type := Some "unstructured";
     prune_method := None;
     cache_dir := "./llm_weights";
     use_variant := false;
     save := Some "out";
     save_model := None;
     grad_exponent := false;
     gradient_inv := false |}.

(** [python main.py --model facebook/opt-125m --seed 4294967296
    --sparsity_ratio 0.3 --sparsity_type 2:4 --prune_method wanda
    --save out] *)
Definition large_seed_args : Args :=
  {| model := Some "facebook/opt-125m";
     gradient_path := None;
     grad_norm := "none";
     seed := 4294967296;
     nsamples := 128;
     seq_length := 2048;
     sparsity_ratio := Finite (3 # 10);
     layer_no := -1;
     sparsity_type := Some "2:4";
     prune_method := Some "wanda";
     cache_dir := "./llm_weights";
     use_variant := false;
     save := Some "out";
     save_model := None;
     grad_exponent := false;
     gradient_inv := false |}.

(** [python main.py --model facebook/opt-125m --sparsity_ratio 0.5
    --sparsity_type unstructured --prune_method wanda --save out
    --save_model pruned] *)
Definition save_model_args : Args :=
  {| model := Some "facebook/opt-125m";
     gradient_path := None;
     grad_norm := "none";
     seed := 0;
     nsamples := 128;
     seq_length := 2048;
     sparsity_ratio := Finite (1 # 2);
     layer_no := -1;
     sparsity_type := Some "unstructured";
     prune_method := Some "wanda";
     cache_dir := "./llm_weights";
     use_variant := false;
     save := Some "out";
     save_model := Some "pruned";
     grad_exponent := false;
     gradient_inv := false |}.

End Behaviour.

(* ===================================================================== *)
(** * Properties of lib/data.py *)
(* ===================================================================== *)

Module DataProofs.
Import Py Data Contracts.

Lemma len_nonneg {A} (l : list A) : 0 <= len l.
Proof. unfold len. lia. Qed.

(** A slice whose bounds lie inside the sequence is the segment itself. *)
Lemma slice_inside {A} (l : list A) (i n : Z) :
0 <= i -> 0 <= n -> i + n <= len l ->
slice l i (i + n) = take (Z.to_nat n) (drop (Z.to_nat i) l)
/\ len (slice l i (i + n)) = n.
Proof.
intros Hi Hn Hle.
assert (E : slice l i (i + n) = take (Z.to_nat n) (drop (Z.to_nat i) l)).
{ unfold slice, slice_bound.
  destruct (Z.ltb_spec i 0) as [?|_]; [lia|].
  destruct (Z.ltb_spec (i + n) 0) as [?|_]; [lia|].
  rewrite (Z.min_l i) by lia. rewrite (Z.min_l (i + n)) by lia.
  replace (i + n - i) with n by lia. reflexivity. }
split; [exact E|].
rewrite E. unfold len in *. rewrite length_take, length_drop. lia.
Qed.

(** A slice is never longer than the distance between its bounds. *)
Lemma slice_to_bound {A} (l : list A) (j : Z) :
0 <= j -> len (slice_to l j) <= j.
Proof.
intros Hj. unfold slice_to, slice, slice_bound, len.
rewrite length_take.
destruct (Z.ltb_spec j 0) as [?|_]; [lia|].
change (0 <? 0) with false. cbv iota.
rewrite (Z.min_l 0) by lia. lia.
Qed.

(** Invariant rule for the sampling loop: a state invariant [I] and a
  property [Q] of every appended element. *)
Lemma for_range_inv {S A} (I : S -> Prop) (Q : A -> Prop) (body : Py.M S A) :
(forall st a st', I st -> body st = (Ret a, st') -> I st' /\ Q a) ->
forall n acc st r st',
  I st -> Forall Q acc ->
  for_range n body acc st = (Ret r, st') ->
  I st' /\ Forall Q r /\ length r = (length acc + n)%nat.
Proof.
intros Hbody. induction n as [|n IH]; intros acc st r st' HI Hacc Hrun.
- cbn in Hrun. injection Hrun as <- <-. repeat split; auto.
- cbn [for_range] in Hrun. unfold bind at 1 in Hrun.
  destruct (body st) as [[a|e|] st1] eqn:Eb; try discriminate.
  destruct (Hbody _ _ _ HI Eb) as [HI1 HQ].
  destruct (IH (acc ++ [a]) st1 r st' HI1) as (H1 & H2 & H3); auto.
  + apply Forall_app; split; auto.
  + repeat split; auto. rewrite H3, length_app. simpl. lia.
Qed.

(** A loop whose body is replaced by one that agrees with it wherever it
    terminates runs the same, wherever it terminates. *)
Lemma for_range_mono {S A} (b1 b2 : Py.M S A) :
  (forall st, terminated (fst (b1 st)) -> b2 st = b1 st) ->
  forall n acc st,
    terminated (fst (for_range n b1 acc st)) ->
    for_range n b2 acc st = for_range n b1 acc st.
Proof.
  intros Hb. induction n as [|n IH]; intros acc st Ht.
  - reflexivity.
  - cbn [for_range] in *. unfold bind in *.
    destruct (b1 st) as [[a|e|] st1] eqn:E.
    + rewrite (Hb st) by (rewrite E; exact I). rewrite E. apply IH. exact Ht.
    + rewrite (Hb st) by (rewrite E; exact I). rewrite E. reflexivity.
    + destruct Ht.
Qed.

(** Below a bound, a boolean predicate is false everywhere or true
    somewhere. *)
Lemma bounded_search (P : nat -> bool) (k : nat) :
  (forall j, (j < k)%nat -> P j = false)
  \/ (exists j, (j < k)%nat /\ P j = true).
Proof.
  induction k as [|k [IH|(j & Hj & HP)]].
  - left. intros j Hj. lia.
  - destruct (P k) eqn:Ek.
    + right. exists k. split; [lia|exact Ek].
    + left. intros j Hj. destruct (Nat.eq_dec j k) as [->|Hne]; [exact Ek|].
      apply IH. lia.
  - right. exists j. split; [lia|exact HP].
Qed.

(** A predicate that holds somewhere holds at a first place. *)
Lemma first_true (P : nat -> bool) (k : nat) :
  P k = true ->
  exists k0, P k0 = true /\ forall j, (j < k0)%nat -> P j = false.
Proof.
  induction k as [k IH] using lt_wf_ind. intros Hk.
  destruct (bounded_search P k) as [Hall|(j & Hj & HP)].
  - exists k. auto.
  - exact (IH j Hj HP).
Qed.

Section SamplerProofs.

Context {G : Type}.
Variable rng_seed : Z -> G.
Variable rng_draw : Z -> Z -> G -> Z * G.
Variables wikitext_train wikitext_test c4_train c4_validation : list string.

Local Notation randint := (randint rng_draw).
Local Notation sample_window := (sample_window rng_draw).
Local Notation c4_draw_record := (c4_draw_record rng_draw).
Local Notation get_wikitext2 :=
  (get_wikitext2 rng_seed rng_draw wikitext_train wikitext_test).
Local Notation get_c4 := (get_c4 rng_seed rng_draw c4_train c4_validation).
Local Notation get_loaders :=
  (get_loaders rng_seed rng_draw wikitext_train wikitext_test
     c4_train c4_validation).

(** [randint] on a non-empty range draws once and logs the value. *)
Lemma randint_ok (a b : Z) (st : RandomState G) :
  a <= b ->
  randint a b st
  = (Ret (fst (rng_draw a b (gen st))),
     {| gen := snd (rng_draw a b (gen st));
        draws := draws st ++ [fst (rng_draw a b (gen st))] |}).
Proof.
  intros Hab. unfold Data.randint.
  destruct (Z.ltb_spec b a) as [?|_]; [lia|].
  destruct (rng_draw a b (gen st)); reflexivity.
Qed.

(** [randint] on an empty range raises and leaves the generator alone. *)
Lemma randint_empty (a b : Z) (st : RandomState G) :
  b < a -> randint a b st = (Raise ValueError, st).
Proof.
  intros Hab. unfold Data.randint.
  destruct (Z.ltb_spec b a) as [_|?]; [reflexivity|lia].
Qed.

(** Whatever [randint] returns was drawn from a non-empty range. *)
Lemma randint_ret (a b r : Z) (st st' : RandomState G) :
  randint a b st = (Ret r, st') ->
  a <= b /\ r = fst (rng_draw a b (gen st))
  /\ gen st' = snd (rng_draw a b (gen st))
  /\ draws st' = draws st ++ [r].
Proof.
  intros H. destruct (Z.lt_ge_cases b a) as [Hlt|Hge].
  - rewrite randint_empty in H by exact Hlt. discriminate.
  - rewrite randint_ok in H by lia. injection H as <- <-. auto.
Qed.

(** A sample that [sample_window] returns is the window at the drawn
    offset, and that offset is the one value appended to the log. *)
Lemma sample_window_ret (enc : BatchEncoding) (seqlen : Z)
    (st st' : RandomState G) (s : Sample) :
  randint_contract rng_draw ->
  sample_window enc seqlen st = (Ret s, st') ->
  exists i,
    offset_in_range enc seqlen i /\ window_of enc seqlen i s
    /\ draws st' = draws st ++ [i]
    /\ rng_draw 0 (shape1 (input_ids enc) - seqlen - 1) (gen st) = (i, gen st').
Proof.
  intros Hrng H. unfold Data.sample_window, bind in H.
  destruct (randint _ _ st) as [[i|e|] st1] eqn:Er; try discriminate.
  apply randint_ret in Er as (Hab & Hi & Hg & Hd).
  unfold ret in H. injection H as <- <-.
  exists i. unfold offset_in_range, window_of.
  repeat split; auto.
  - rewrite Hi. apply Hrng; lia.
  - rewrite Hi. apply Hrng; lia.
  - rewrite Hi, Hg. destruct (rng_draw _ _ (gen st)); reflexivity.
Qed.

(** A window cut at an offset in range has [seqlen] tokens in each of its
    three parts. *)
Lemma window_shape (enc : BatchEncoding) (seqlen i : Z) (s : Sample) :
  0 <= seqlen ->
  length (attention_mask enc) = length (input_ids enc) ->
  offset_in_range enc seqlen i ->
  window_of enc seqlen i s ->
  sample_shape seqlen s.
Proof.
  intros Hs Hal [Hlo Hhi] ->. unfold sample_shape, shape1 in *.
  destruct (slice_inside (input_ids enc) i seqlen) as [_ E1]; [lia..|].
  destruct (slice_inside (attention_mask enc) i seqlen) as [_ E2];
    [lia|lia|unfold len in *; lia|].
  auto.
Qed.

(** What the rejection loop returns is the encoding of a record of the
    train split, and it has more than [seqlen] tokens. *)
Lemma c4_draw_record_ret (fuel : nat) (traindata : list string)
    (tokenizer : Tokenizer) (max_length seqlen : Z)
    (st st' : RandomState G) (enc : BatchEncoding) :
  c4_draw_record fuel traindata tokenizer max_length seqlen st = (Ret enc, st') ->
  exists (k : nat) (text : string),
    traindata !! k = Some text
    /\ enc = tok_call tokenizer text max_length
    /\ shape1 (input_ids enc) > seqlen.
Proof.
  revert st. induction fuel as [|fuel IH]; intros st H.
  - discriminate.
  - cbn [Data.c4_draw_record] in H. unfold bind at 1 in H.
    destruct (randint _ _ st) as [[i|e|] st1]; try discriminate.
    unfold bind at 1 in H. unfold lift in H.
    destruct (getitem traindata i) as [text|e|] eqn:Eg; try discriminate.
    destruct (Z.gtb_spec
                (shape1 (input_ids (tok_call tokenizer text max_length))) seqlen)
      as [Hlong|Hshort].
    + unfold ret in H. injection H as <- <-.
      unfold getitem in Eg.
      destruct (_ <? 0); [discriminate|].
      destruct (traindata !! _) as [t|] eqn:El; [|discriminate].
      injection Eg as ->. eexists _, text. repeat split; eauto. lia.
    + eapply IH; eauto.
Qed.

(** The samples of the wikitext2 loader are windows of the encoded train
    split at offsets in range; there are [nsamples] of them. *)
Lemma get_wikitext2_windows (nsamples seed seqlen : Z) (tokenizer : Tokenizer)
    (st st' : RandomState G) (loader : list Sample) (ev : EvalEncoding) :
  randint_contract rng_draw ->
  get_wikitext2 nsamples seed seqlen tokenizer st = (Ret (loader, ev), st') ->
  let enc := tok_call tokenizer (join " " wikitext_train)
               (getattr_model_max_length tokenizer seqlen) in
  Forall (fun s => exists i, offset_in_range enc seqlen i /\ window_of enc seqlen i s)
         loader
  /\ length loader = Z.to_nat nsamples.
Proof.
  intros Hrng H enc. unfold Data.get_wikitext2 in H.
  unfold bind at 1 in H. unfold random_seed in H.
  unfold bind at 1 in H.
  match type of H with
  | context [for_range ?n ?b ?a ?s] =>
      destruct (for_range n b a s) as [[r|e|] st1] eqn:Ef; try discriminate
  end.
  unfold ret in H. injection H as <- <- <-.
  eapply (for_range_inv (fun _ => True)) in Ef as (_ & HQ & Hlen); eauto.
  intros st0 a st0' _ Hb.
  destruct (sample_window_ret _ _ _ _ _ Hrng Hb) as (i & Hi & Hw & _).
  split; eauto.
Qed.

(** The samples of the c4 loader are windows of long records; there are
    [nsamples] of them; the evaluation encoding is the truncated
    encoding of the joined validation records. *)
Lemma get_c4_windows (fuel : nat) (nsamples seed seqlen : Z)
    (tokenizer : Tokenizer) (st st' : RandomState G)
    (loader : list Sample) (ev : EvalEncoding) :
  randint_contract rng_draw ->
  get_c4 fuel nsamples seed seqlen tokenizer st = (Ret (loader, ev), st') ->
  let max_length := getattr_model_max_length tokenizer seqlen in
  Forall (cut_from_long_record c4_train tokenizer max_length seqlen) loader
  /\ length loader = Z.to_nat nsamples
  /\ ev = ValEnc {| tw_input_ids :=
                     slice_to (input_ids
                                 (tok_call tokenizer
                                    (join " " (slice_to c4_validation 1100))
                                    max_length))
                              (256 * seqlen) |}.
Proof.
  intros Hrng H max_length. unfold Data.get_c4 in H.
  unfold bind at 1 in H. unfold random_seed in H.
  unfold bind at 1 in H.
  match type of H with
  | context [for_range ?n ?b ?a ?s] =>
      destruct (for_range n b a s) as [[r|e|] st1] eqn:Ef; try discriminate
  end.
  unfold ret in H. injection H as <- <- <-.
  eapply (for_range_inv (fun _ => True)) in Ef as (_ & HQ & Hlen); eauto.
  intros st0 a st0' _ Hb. unfold bind at 1 in Hb.
  destruct (c4_draw_record _ _ _ _ _ st0) as [[enc|e|] st2] eqn:Ed;
    try discriminate.
  apply c4_draw_record_ret in Ed as (k & text & Hk & -> & Hlong).
  destruct (sample_window_ret _ _ _ _ _ Hrng Hb) as (i & Hi & Hw & _).
  split; [exact I|]. exists k, text, i. auto.
Qed.

(** The evaluation encoding of the c4 loader, whatever the sampling drew. *)
Lemma get_c4_eval (fuel : nat) (nsamples seed seqlen : Z)
    (tokenizer : Tokenizer) (st st' : RandomState G)
    (loader : list Sample) (ev : EvalEncoding) :
  get_c4 fuel nsamples seed seqlen tokenizer st = (Ret (loader, ev), st') ->
  ev = ValEnc {| tw_input_ids :=
                   slice_to (input_ids
                               (tok_call tokenizer
                                  (join " " (slice_to c4_validation 1100))
                                  (getattr_model_max_length tokenizer seqlen)))
                            (256 * seqlen) |}.
Proof.
  intros H. unfold Data.get_c4 in H.
  unfold bind at 1 in H. unfold random_seed in H.
  unfold bind at 1 in H.
  match type of H with
  | context [for_range ?n ?b ?a ?s] =>
      destruct (for_range n b a s) as [[r|e|] st1]; try discriminate
  end.
  unfold ret in H. injection H as <- <- <-. reflexivity.
Qed.

(** [l[:j]] for a non-negative [j] is the first [j] elements. *)
Lemma slice_to_take {A} (l : list A) (j : Z) :
  0 <= j -> slice_to l j = take (Z.to_nat j) l.
Proof.
  intros Hj. unfold slice_to, slice, slice_bound.
  destruct (Z.ltb_spec j 0) as [?|_]; [lia|].
  change (0 <? 0) with false. cbv iota.
  rewrite (Z.min_l 0) by apply len_nonneg.
  change (Z.to_nat 0) with 0%nat. rewrite drop_0, Z.sub_0_r.
  destruct (Z.le_ge_cases j (len l)) as [Hle|Hge].
  - rewrite Z.min_l by lia. reflexivity.
  - rewrite Z.min_r by lia. unfold len in *. rewrite Nat2Z.id.
    rewrite !take_ge; auto; lia.
Qed.

(** C3. Every calibration sample that either loader returns has an input
    window, an attention window and a target window of exactly [seqlen]
    tokens, and its target equals its input. The tokenizer returns aligned
    masks, [randint] keeps to its range, and [seqlen] is a length. *)
Theorem calibration_sample_shape (nsamples seed seqlen : Z)
    (tokenizer : Tokenizer) :
  randint_contract rng_draw -> aligned tokenizer -> 0 <= seqlen ->
  (forall st st' loader ev,
      get_wikitext2 nsamples seed seqlen tokenizer st = (Ret (loader, ev), st') ->
      Forall (sample_shape seqlen) loader)
  /\ (forall fuel st st' loader ev,
        get_c4 fuel nsamples seed seqlen tokenizer st = (Ret (loader, ev), st') ->
        Forall (sample_shape seqlen) loader).
Proof.
  intros Hrng Hal Hs. split.
  - intros st st' loader ev H.
    apply get_wikitext2_windows in H as [HF _]; [|exact Hrng].
    eapply Forall_impl; [exact HF|].
    intros s (i & Hi & Hw). eapply window_shape; eauto.
  - intros fuel st st' loader ev H.
    apply get_c4_windows in H as (HF & _); [|exact Hrng].
    eapply Forall_impl; [exact HF|].
    intros s (k & text & i & _ & _ & Hi & Hw). eapply window_shape; eauto.
Qed.

(** C4. Over an encoding of [L > seqlen] tokens one sampling iteration
    draws its start offset with [randint(0, L - seqlen - 1)], so the offset
    lies in that inclusive range and the window [offset, offset + seqlen)
    ends inside the encoding; with [L <= seqlen] the draw is undefined and
    raises. In both loaders every returned sample is such a window. *)
Theorem offset_drawn_in_range (seqlen : Z) :
  randint_contract rng_draw ->
  (forall enc st,
      shape1 (input_ids enc) > seqlen ->
      exists i st',
        sample_window enc seqlen st
        = (Ret (slice (input_ids enc) i (i + seqlen),
                slice (attention_mask enc) i (i + seqlen),
                slice (input_ids enc) i (i + seqlen)), st')
        /\ rng_draw 0 (shape1 (input_ids enc) - seqlen - 1) (gen st) = (i, gen st')
        /\ draws st' = draws st ++ [i]
        /\ 0 <= i <= shape1 (input_ids enc) - seqlen - 1
        /\ i + seqlen <= shape1 (input_ids enc)
        /\ (0 <= seqlen ->
            slice (input_ids enc) i (i + seqlen)
            = take (Z.to_nat seqlen) (drop (Z.to_nat i) (input_ids enc))))
  /\ (forall enc st,
        shape1 (input_ids enc) <= seqlen ->
        sample_window enc seqlen st = (Raise ValueError, st))
  /\ (forall nsamples seed tokenizer st st' loader ev,
        get_wikitext2 nsamples seed seqlen tokenizer st = (Ret (loader, ev), st') ->
        Forall (fun s => exists enc i,
                    offset_in_range enc seqlen i /\ window_of enc seqlen i s)
               loader)
  /\ (forall fuel nsamples seed tokenizer st st' loader ev,
        get_c4 fuel nsamples seed seqlen tokenizer st = (Ret (loader, ev), st') ->
        Forall (fun s => exists enc i,
                    offset_in_range enc seqlen i /\ window_of enc seqlen i s)
               loader).
Proof.
  intros Hrng. repeat split.
  - intros enc st HL.
    destruct (sample_window enc seqlen st) as [[s|e|] st'] eqn:E.
    + destruct (sample_window_ret _ _ _ _ _ Hrng E) as (i & Hi & Hw & Hd & Hg).
      exists i, st'. rewrite Hw. destruct Hi as [Hlo Hhi].
      repeat split; auto; try lia.
      intros Hs. apply slice_inside; unfold shape1 in *; lia.
    + exfalso. unfold Data.sample_window, bind in E.
      rewrite randint_ok in E by lia. discriminate.
    + exfalso. unfold Data.sample_window, bind in E.
      rewrite randint_ok in E by lia. discriminate.
  - intros enc st HL. unfold Data.sample_window, bind.
    rewrite randint_empty by lia. reflexivity.
  - intros nsamples seed tokenizer st st' loader ev H.
    apply get_wikitext2_windows in H as [HF _]; [|exact Hrng].
    eapply Forall_impl; [exact HF|]. intros s (i & Hi & Hw). eauto.
  - intros fuel nsamples seed tokenizer st st' loader ev H.
    apply get_c4_windows in H as (HF & _); [|exact Hrng].
    eapply Forall_impl; [exact HF|].
    intros s (k & text & i & _ & _ & Hi & Hw). eauto.
Qed.

(** C7. On the c4 path the evaluation encoding is the encoding of the
    first 1100 validation records joined with single spaces, tokenized
    once under the [max_length] cap and cut to its first [256 * seqlen]
    tokens; it never has more than [256 * seqlen] tokens. *)
Theorem c4_eval_encoding_capped (fuel : nat) (nsamples seed seqlen : Z)
    (tokenizer : Tokenizer) (st st' : RandomState G)
    (loader : list Sample) (ev : EvalEncoding) :
  0 <= seqlen ->
  get_c4 fuel nsamples seed seqlen tokenizer st = (Ret (loader, ev), st') ->
  exists w,
    ev = ValEnc w
    /\ tw_input_ids w
       = take (Z.to_nat (256 * seqlen))
           (input_ids (tok_call tokenizer (join " " (take 1100 c4_validation))
                         (getattr_model_max_length tokenizer seqlen)))
    /\ len (tw_input_ids w) <= 256 * seqlen.
Proof.
  intros Hs H. apply get_c4_eval in H. subst ev.
  eexists. split; [reflexivity|]. cbn [tw_input_ids]. split.
  - rewrite (slice_to_take c4_validation 1100) by lia.
    rewrite slice_to_take by lia. reflexivity.
  - apply slice_to_bound. lia.
Qed.

(** More fuel does not change a run of the rejection loop that ended. *)
Lemma c4_draw_record_mono (f1 f2 : nat) (traindata : list string)
    (tokenizer : Tokenizer) (max_length seqlen : Z) (st : RandomState G) :
  (f1 <= f2)%nat ->
  terminated (fst (c4_draw_record f1 traindata tokenizer max_length seqlen st)) ->
  c4_draw_record f2 traindata tokenizer max_length seqlen st
  = c4_draw_record f1 traindata tokenizer max_length seqlen st.
Proof.
  revert f2 st. induction f1 as [|f1 IH]; intros f2 st Hle Ht.
  - destruct Ht.
  - destruct f2 as [|f2]; [lia|].
    cbn [Data.c4_draw_record] in *. unfold bind in *.
    destruct (randint _ _ st) as [[i|e|] st1]; try reflexivity.
    unfold lift in *.
    destruct (getitem traindata i) as [text|e|]; try reflexivity.
    destruct (_ >? seqlen); [reflexivity|].
    apply IH; [lia|exact Ht].
Qed.

(** More fuel does not change a run of [get_c4] that ended. *)
Lemma get_c4_mono (f1 f2 : nat) (nsamples seed seqlen : Z)
    (tokenizer : Tokenizer) (st : RandomState G) :
  (f1 <= f2)%nat ->
  terminated (fst (get_c4 f1 nsamples seed seqlen tokenizer st)) ->
  get_c4 f2 nsamples seed seqlen tokenizer st
  = get_c4 f1 nsamples seed seqlen tokenizer st.
Proof.
  intros Hle Ht. unfold Data.get_c4 in *.
  unfold bind at 1. unfold bind at 1 in Ht. unfold random_seed in *.
  unfold bind at 1. unfold bind at 1 in Ht.
  match type of Ht with
  | context [for_range ?n ?b ?a ?s] =>
      assert (Hf : terminated (fst (for_range n b a s)))
  end.
  { match type of Ht with
    | context [for_range ?n ?b ?a ?s] =>
        destruct (for_range n b a s) as [[r|e|] st1]; simpl in *; auto
    end. }
  erewrite for_range_mono; [reflexivity| |exact Hf].
  intros st0 Hb. unfold bind in *.
  destruct (c4_draw_record f1 _ _ _ _ st0) as [o st1] eqn:E1.
  rewrite (c4_draw_record_mono f1 f2) by (try rewrite E1; auto;
    destruct o; simpl in *; auto).
  rewrite E1. reflexivity.
Qed.

(** More fuel does not change a run of [get_loaders] that ended. *)
Lemma get_loaders_mono (f1 f2 : nat) (name : string) (nsamples seed seqlen : Z)
    (tokenizer : Tokenizer) (st : RandomState G) :
  (f1 <= f2)%nat ->
  terminated (fst (get_loaders f1 name nsamples seed seqlen tokenizer st)) ->
  get_loaders f2 name nsamples seed seqlen tokenizer st
  = get_loaders f1 name nsamples seed seqlen tokenizer st.
Proof.
  intros Hle Ht. unfold Data.get_loaders in *.
  destruct (contains "wikitext2" name); [reflexivity|].
  destruct (contains "c4" name); [|reflexivity].
  unfold bind in *.
  rewrite (get_c4_mono f1 f2); auto.
  destruct (get_c4 f1 _ _ _ _ st) as [[r|e|] st1]; simpl in *; auto.
Qed.

(** A loader starts by reseeding the generator, so what its run lets
    observe does not depend on the state the generator was in. *)
Lemma get_loaders_reseeds (fuel : nat) (name : string)
    (nsamples seed seqlen : Z) (tokenizer : Tokenizer) (g1 g2 : G) :
  observable (run (get_loaders fuel name nsamples seed seqlen tokenizer) g1)
  = observable (run (get_loaders fuel name nsamples seed seqlen tokenizer) g2).
Proof.
  unfold run, Data.get_loaders.
  destruct (contains "wikitext2" name).
  - unfold Data.get_wikitext2, bind, random_seed. reflexivity.
  - destruct (contains "c4" name); [|reflexivity].
    unfold Data.get_c4, bind, random_seed. reflexivity.
Qed.

(** C1. Two invocations of [get_loaders] on the same
    [(name, nsamples, seed, seqlen, tokenizer)], over the same corpora,
    started in any two states of the process-wide generator, run alike:
    the same outcome (the same samples in the same order, the same
    evaluation encoding) and the same log of draws (record choices and
    start offsets). The fuel given to the retry loop does not matter once
    both runs end. *)
Theorem calibration_deterministic (name : string) (nsamples seed seqlen : Z)
    (tokenizer : Tokenizer) :
  (forall fuel g1 g2,
      observable (run (get_loaders fuel name nsamples seed seqlen tokenizer) g1)
      = observable (run (get_loaders fuel name nsamples seed seqlen tokenizer) g2))
  /\ (forall f1 f2 g1 g2,
        terminated (fst (run (get_loaders f1 name nsamples seed seqlen tokenizer) g1)) ->
        terminated (fst (run (get_loaders f2 name nsamples seed seqlen tokenizer) g2)) ->
        observable (run (get_loaders f1 name nsamples seed seqlen tokenizer) g1)
        = observable (run (get_loaders f2 name nsamples seed seqlen tokenizer) g2)).
Proof.
  split; [intros; apply get_loaders_reseeds|].
  intros f1 f2 g1 g2 H1 H2.
  rewrite (get_loaders_reseeds f2 name nsamples seed seqlen tokenizer g2 g1).
  assert (H2' : terminated
                  (fst (run (get_loaders f2 name nsamples seed seqlen tokenizer) g1))).
  { pose proof (get_loaders_reseeds f2 name nsamples seed seqlen tokenizer g2 g1) as E.
    unfold observable in E. injection E as E _. rewrite <- E. exact H2. }
  unfold run in *.
  destruct (Nat.le_ge_cases f1 f2) as [Hle|Hle].
  - rewrite (get_loaders_mono f1 f2); auto.
  - rewrite (get_loaders_mono f2 f1); auto.
Qed.

(** ** The rejection loop of [get_c4] against the sequence of draws *)
Section RejectionLoop.

Variable tokenizer : Tokenizer.
Variable max_length seqlen : Z.
Hypothesis Hrng : randint_contract rng_draw.
Hypothesis Hnonempty : c4_train <> [].

Local Notation loop fuel :=
  (c4_draw_record fuel c4_train tokenizer max_length seqlen).
Local Notation rdraw := (record_draw rng_draw c4_train).
Local Notation gafter := (gen_after rng_draw c4_train).
Local Notation renc := (record_encoding c4_train tokenizer max_length).
Local Notation long := (is_long c4_train tokenizer max_length seqlen).
Local Notation first_long :=
  (first_long_draw rng_draw c4_train tokenizer max_length seqlen).
Local Notation after_draw := (after_draw rng_draw c4_train).

Lemma train_len_pos : 0 <= len c4_train - 1.
Proof. unfold len. destruct c4_train; [congruence|]. simpl length. lia. Qed.

(** A record draw names a record of the train split. *)
Lemma drawn_record_exists (g : G) :
  exists enc, renc (fst (rng_draw 0 (len c4_train - 1) g)) = Some enc.
Proof.
  pose proof (Hrng 0 (len c4_train - 1) g train_len_pos) as [Hlo Hhi].
  unfold record_encoding.
  destruct (lookup_lt_is_Some_2 c4_train
              (Z.to_nat (fst (rng_draw 0 (len c4_train - 1) g)))) as [t Ht].
  { unfold len in *. lia. }
  rewrite Ht. eauto.
Qed.

(** One turn of the loop: draw, look at the record, leave or go on. *)
Lemma loop_step (fuel : nat) (st : RandomState G) :
  exists enc,
    renc (rdraw (gen st) 0) = Some enc
    /\ loop (S fuel) st
       = if shape1 (input_ids enc) >? seqlen then (Ret enc, after_draw st)
         else loop fuel (after_draw st).
Proof.
  destruct (drawn_record_exists (gen st)) as [enc He].
  exists enc. split; [exact He|].
  cbn [Data.c4_draw_record]. unfold bind at 1.
  rewrite randint_ok by apply train_len_pos.
  unfold bind at 1. unfold lift, getitem.
  pose proof (Hrng 0 (len c4_train - 1) (gen st) train_len_pos) as [Hlo _].
  destruct (Z.ltb_spec (fst (rng_draw 0 (len c4_train - 1) (gen st))) 0)
    as [?|_]; [lia|].
  destruct (Z.ltb_spec (fst (rng_draw 0 (len c4_train - 1) (gen st))) 0)
    as [?|_]; [lia|].
  unfold record_encoding in He.
  destruct (c4_train !! _) as [text|]; [|discriminate].
  injection He as <-.
  destruct (_ >? seqlen); reflexivity.
Qed.

Lemma long_of_encoding (i : Z) (enc : BatchEncoding) :
  renc i = Some enc -> long i = (shape1 (input_ids enc) >? seqlen).
Proof. intros H. unfold is_long. rewrite H. reflexivity. Qed.

(** While every draw is short the loop uses up any fuel. *)
Lemma loop_out_of_fuel (fuel : nat) :
  forall st,
    (forall j, (j < fuel)%nat -> long (rdraw (gen st) j) = false) ->
    fst (loop fuel st) = OutOfFuel.
Proof.
  induction fuel as [|fuel IH]; intros st Hshort.
  - reflexivity.
  - destruct (loop_step fuel st) as (enc & He & ->).
    rewrite <- (long_of_encoding _ _ He), (Hshort 0%nat) by lia.
    apply IH. intros j Hj. apply (Hshort (S j)). lia.
Qed.

(** If draw [k] is the first long one the loop leaves with its encoding
    after exactly [k + 1] draws, all of them logged. *)
Lemma loop_exits_at (k : nat) :
  forall st enc,
    first_long (gen st) k enc ->
    exists st',
      loop (S k) st = (Ret enc, st')
      /\ gen st' = gafter (gen st) (S k)
      /\ draws st' = draws st ++ map (rdraw (gen st)) (seq 0 (S k)).
Proof.
  induction k as [|k IH]; intros st enc (Hshort & He & Hlong).
  - destruct (loop_step 0 st) as (enc0 & He0 & ->).
    rewrite He in He0. injection He0 as <-.
    destruct (Z.gtb_spec (shape1 (input_ids enc)) seqlen) as [_|?]; [|lia].
    eexists. split; [reflexivity|]. split; reflexivity.
  - destruct (loop_step (S k) st) as (enc0 & He0 & ->).
    rewrite <- (long_of_encoding _ _ He0), (Hshort 0%nat) by lia.
    destruct (IH (after_draw st) enc) as (st' & Hrun & Hg & Hd).
    { split; [|split; auto].
      intros j Hj. apply (Hshort (S j)). lia. }
    exists st'. split; [exact Hrun|]. split; [exact Hg|].
    rewrite Hd. cbn [after_draw draws gen]. rewrite <- app_assoc.
    f_equal. change (seq 0 (S (S k))) with (0%nat :: seq 1 (S k)).
    rewrite <- seq_shift. rewrite (map_cons (rdraw (gen st))).
    rewrite map_map. reflexivity.
Qed.

(** A run of the loop that ended left with the encoding of the first
    long draw; the loop never raises. *)
Lemma loop_terminated_inv (fuel : nat) :
  forall st,
    terminated (fst (loop fuel st)) ->
    exists enc st' k,
      loop fuel st = (Ret enc, st')
      /\ (k < fuel)%nat
      /\ first_long (gen st) k enc
      /\ gen st' = gafter (gen st) (S k).
Proof.
  induction fuel as [|fuel IH]; intros st Ht.
  - destruct Ht.
  - destruct (loop_step fuel st) as (enc0 & He0 & E). rewrite E in *.
    destruct (Z.gtb_spec (shape1 (input_ids enc0)) seqlen) as [Hlong|Hshort].
    + exists enc0, (after_draw st), 0%nat.
      split; [reflexivity|]. split; [lia|]. split; [|reflexivity].
      split; [intros j Hj; lia|]. split; [exact He0|lia].
    + destruct (IH _ Ht) as (enc & st' & k & Hrun & Hk & (Hs & He & Hl) & Hg).
      exists enc, st', (S k). split; [exact Hrun|]. split; [lia|].
      split; [|exact Hg].
      split; [|split; [exact He|exact Hl]].
      intros [|j] Hj.
      * rewrite (long_of_encoding _ _ He0).
        destruct (Z.gtb_spec (shape1 (input_ids enc0)) seqlen); [lia|reflexivity].
      * apply (Hs j). lia.
Qed.

Local Notation body fuel :=
  (bind (loop fuel) (fun trainenc => sample_window trainenc seqlen)).

(** Over a long encoding the window is cut without raising. *)
Lemma sample_window_long (enc : BatchEncoding) (st : RandomState G) :
  shape1 (input_ids enc) > seqlen ->
  exists s st',
    sample_window enc seqlen st = (Ret s, st')
    /\ gen st' = snd (rng_draw 0 (shape1 (input_ids enc) - seqlen - 1) (gen st)).
Proof.
  intros Hlong. unfold Data.sample_window, bind.
  rewrite randint_ok by lia. unfold ret. eexists _, _.
  split; reflexivity.
Qed.

(** One iteration that ended returned a sample and left the generator
    where the first long draw and the offset draw put it. *)
Lemma body_terminated_inv (fuel : nat) (st : RandomState G) :
  terminated (fst (body fuel st)) ->
  exists s st' k enc,
    body fuel st = (Ret s, st')
    /\ first_long (gen st) k enc
    /\ gen st' = snd (rng_draw 0 (shape1 (input_ids enc) - seqlen - 1)
                        (gafter (gen st) (S k))).
Proof.
  intros Ht.
  assert (Hl : terminated (fst (loop fuel st))).
  { unfold bind in Ht. destruct (loop fuel st) as [[enc|e|] st0]; simpl; auto. }
  destruct (loop_terminated_inv fuel st Hl)
    as (enc & st0 & k & Hrun & _ & Hfl & Hg).
  destruct (sample_window_long enc st0) as (s & st' & Hs & Hg').
  { destruct Hfl as (_ & _ & Hlong). exact Hlong. }
  exists s, st', k, enc. unfold bind. rewrite Hrun, Hs.
  split; [reflexivity|]. split; [exact Hfl|]. rewrite Hg', Hg. reflexivity.
Qed.

(** One iteration whose draws reach a long record returns. *)
Lemma body_exits (k : nat) (st : RandomState G) (enc : BatchEncoding) :
  first_long (gen st) k enc ->
  exists s st',
    body (S k) st = (Ret s, st')
    /\ gen st' = snd (rng_draw 0 (shape1 (input_ids enc) - seqlen - 1)
                        (gafter (gen st) (S k))).
Proof.
  intros Hfl.
  destruct (loop_exits_at k st enc Hfl) as (st0 & Hrun & Hg & _).
  destruct (sample_window_long enc st0) as (s & st' & Hs & Hg').
  { destruct Hfl as (_ & _ & Hlong). exact Hlong. }
  exists s, st'. unfold bind. rewrite Hrun, Hs.
  split; [reflexivity|]. rewrite Hg', Hg. reflexivity.
Qed.

Lemma body_mono (f1 f2 : nat) (st : RandomState G) :
  (f1 <= f2)%nat ->
  terminated (fst (body f1 st)) ->
  body f2 st = body f1 st.
Proof.
  intros Hle Ht. unfold bind in *.
  destruct (loop f1 st) as [o st1] eqn:E1.
  rewrite (c4_draw_record_mono f1 f2) by
    (try rewrite E1; auto; destruct o; simpl in *; auto).
  rewrite E1. reflexivity.
Qed.

(** The sampling loop ends, for some fuel, exactly when each of its
    iterations reaches a long record. *)
Lemma iterations_terminate_iff (n : nat) :
  forall acc st,
    (exists fuel, terminated (fst (for_range n (body fuel) acc st)))
    <-> iterations_reach rng_draw c4_train tokenizer max_length seqlen n (gen st).
Proof.
  induction n as [|n IH]; intros acc st.
  - split; [intros _; exact I|]. intros _. exists 0%nat. exact I.
  - split.
    + intros [fuel Ht]. cbn [for_range] in Ht. unfold bind at 1 in Ht.
      destruct (body fuel st) as [[s|e|] st1] eqn:Eb.
      * destruct (body_terminated_inv fuel st) as (s' & st1' & k & enc & E & Hfl & Hg).
        { rewrite Eb. exact I. }
        rewrite Eb in E. injection E as <- <-.
        cbn [iterations_reach]. exists k, enc. split; [exact Hfl|].
        rewrite <- Hg. apply (IH (acc ++ [s]) st1). exists fuel. exact Ht.
      * destruct (body_terminated_inv fuel st) as (s' & st1' & k & enc & E & _).
        { rewrite Eb. exact I. }
        rewrite Eb in E. discriminate.
      * destruct Ht.
    + intros (k & enc & Hfl & Hrest).
      destruct (body_exits k st enc Hfl) as (s & st1 & Hb & Hg).
      rewrite <- Hg in Hrest.
      destruct (proj2 (IH (acc ++ [s]) st1) Hrest) as [fuel2 Ht2].
      exists (Nat.max (S k) fuel2). cbn [for_range]. unfold bind at 1.
      rewrite (body_mono (S k) (Nat.max (S k) fuel2)); [|lia|rewrite Hb; exact I].
      rewrite Hb.
      rewrite (for_range_mono (body fuel2) (body (Nat.max (S k) fuel2)));
        [exact Ht2| |exact Ht2].
      intros st0 Ht0. apply body_mono; [lia|exact Ht0].
Qed.

(** One iteration over a split without a long record uses up any fuel. *)
Lemma iteration_starves (fuel : nat) (n : nat) (acc : list Sample)
    (st : RandomState G) :
  (forall i, long i = false) ->
  fst (for_range (S n) (body fuel) acc st) = OutOfFuel.
Proof.
  intros Hshort. cbn [for_range]. unfold bind.
  pose proof (loop_out_of_fuel fuel st (fun j _ => Hshort _)) as E.
  destruct (loop fuel st) as [o st1]. simpl in E. subst o. reflexivity.
Qed.

(** The loop ends, for some fuel, exactly when its draws reach a long
    record. *)
Lemma loop_terminates_iff (st : RandomState G) :
  (exists fuel, terminated (fst (loop fuel st)))
  <-> reaches_long_record rng_draw c4_train tokenizer max_length seqlen (gen st).
Proof.
  split.
  - intros [fuel Ht].
    destruct (loop_terminated_inv fuel st Ht) as (enc & st' & k & _ & _ & Hfl & _).
    destruct Hfl as (_ & He & Hlong). exists k.
    rewrite (long_of_encoding _ _ He).
    destruct (Z.gtb_spec (shape1 (input_ids enc)) seqlen); [reflexivity|lia].
  - intros [k Hk].
    destruct (first_true (fun j => long (rdraw (gen st) j)) k Hk)
      as (k0 & Hk0 & Hfirst).
    assert (exists enc, renc (rdraw (gen st) k0) = Some enc) as [enc He].
    { unfold is_long in Hk0. destruct (renc _); [eauto|discriminate]. }
    destruct (loop_exits_at k0 st enc) as (st' & Hrun & _).
    { split; [exact Hfirst|]. split; [exact He|].
      rewrite (long_of_encoding _ _ He) in Hk0.
      destruct (Z.gtb_spec (shape1 (input_ids enc)) seqlen); [lia|discriminate]. }
    exists (S k0). rewrite Hrun. exact I.
Qed.

(** The iterations that returned: each kept the first long record of
    its draws and cut its window there; every draw is in the log. *)
Lemma iterations_sampled (n : nat) :
  forall fuel acc st l st',
    for_range n (body fuel) acc st = (Ret l, st') ->
    exists loader log,
      l = acc ++ loader
      /\ rejection_sampled rng_draw c4_train tokenizer max_length seqlen n
           (gen st) loader log
      /\ draws st' = draws st ++ log.
Proof.
  induction n as [|n IH]; intros fuel acc st l st' H.
  - cbn [for_range] in H. unfold ret in H. injection H as <- <-.
    exists [], []. rewrite !app_nil_r. repeat split.
  - cbn [for_range] in H. unfold bind at 1 in H.
    destruct (body fuel st) as [[s|e|] st1] eqn:Eb; try discriminate.
    unfold bind in Eb.
    destruct (loop fuel st) as [[enc|e|] st0] eqn:El; try discriminate.
    destruct (loop_terminated_inv fuel st) as (enc' & st0' & k & Hrun & Hk & Hfl & _).
    { rewrite El. exact I. }
    rewrite El in Hrun. injection Hrun as <- <-.
    destruct (loop_exits_at k st enc Hfl) as (st2 & Hrun2 & Hg2 & Hd2).
    assert (E : loop fuel st = loop (S k) st).
    { apply c4_draw_record_mono; [lia|]. rewrite Hrun2. exact I. }
    rewrite El, Hrun2 in E. injection E as ->.
    destruct (sample_window_ret _ _ _ _ _ Hrng Eb) as (i & _ & Hw & Hd & Hi).
    rewrite Hg2 in Hi.
    destruct (IH fuel (acc ++ [s]) st1 l st' H) as (loader & log & -> & Hrest & Hdr).
    exists (s :: loader),
      (map (rdraw (gen st)) (seq 0 (S k)) ++ i :: log).
    split; [rewrite <- app_assoc; reflexivity|]. split.
    + cbn [rejection_sampled]. exists k, enc, loader, log.
      split; [exact Hfl|]. cbv zeta. rewrite Hi. cbn [fst snd].
      split; [rewrite Hw; reflexivity|]. split; [reflexivity|exact Hrest].
    + rewrite Hdr, Hd, Hd2. rewrite <- !app_assoc. reflexivity.
Qed.

End RejectionLoop.

(** [get_c4] is its sampling loop run from the reseeded generator,
    followed by the evaluation encoding. *)
Lemma get_c4_run (fuel : nat) (nsamples seed seqlen : Z)
    (tokenizer : Tokenizer) (g : G) :
  terminated (fst (run (get_c4 fuel nsamples seed seqlen tokenizer) g))
  <-> terminated
        (fst (for_range (Z.to_nat nsamples)
                (bind (c4_draw_record fuel c4_train tokenizer
                         (getattr_model_max_length tokenizer seqlen) seqlen)
                      (fun trainenc => sample_window trainenc seqlen))
                [] {| gen := rng_seed seed; draws := [] |})).
Proof.
  unfold run, Data.get_c4. unfold bind at 1. unfold random_seed.
  unfold bind at 1. cbn [draws].
  match goal with
  | |- context [for_range ?n ?b ?a ?s] =>
      destruct (for_range n b a s) as [[r|e|] st1]
  end; simpl; tauto.
Qed.

(** C5. Every sample the c4 loader returns was cut from a record of the
    train split whose encoding, truncated to [max_length], has strictly
    more than [seqlen] tokens: the window is a slice of that encoding at
    an offset in range, so it is not shorter than [seqlen]. The loop gets
    there by drawing again: in each iteration the record indices drawn
    before the first long record name short records, which are dropped;
    the sample is cut from that first long record, and the log of the run
    holds every index drawn, the dropped ones included, followed by the
    offset. *)
Theorem c4_sample_from_long_record (fuel : nat) (nsamples seed seqlen : Z)
    (tokenizer : Tokenizer) (st st' : RandomState G)
    (loader : list Sample) (ev : EvalEncoding) :
  randint_contract rng_draw ->
  get_c4 fuel nsamples seed seqlen tokenizer st = (Ret (loader, ev), st') ->
  Forall (fun s =>
            cut_from_long_record c4_train tokenizer
              (getattr_model_max_length tokenizer seqlen) seqlen s
            /\ seqlen <= len (fst (fst s))
            /\ (0 <= seqlen -> len (fst (fst s)) = seqlen))
         loader
  /\ exists log,
      rejection_sampled rng_draw c4_train tokenizer
        (getattr_model_max_length tokenizer seqlen) seqlen
        (Z.to_nat nsamples) (rng_seed seed) loader log
      /\ draws st' = draws st ++ log.
Proof.
  intros Hrng H. split.
  - apply get_c4_windows in H as (HF & _); [|exact Hrng].
    eapply Forall_impl; [exact HF|].
    intros s Hs. split; [exact Hs|].
    destruct Hs as (k & text & i & _ & _ & [Hlo Hhi] & ->). cbn [fst].
    assert (Hlen : 0 <= seqlen ->
                   len (slice (input_ids (tok_call tokenizer text
                          (getattr_model_max_length tokenizer seqlen)))
                          i (i + seqlen)) = seqlen).
    { intros Hs. apply slice_inside; unfold shape1 in *; lia. }
    split; [|exact Hlen].
    destruct (Z.le_gt_cases 0 seqlen) as [Hs|Hs].
    + rewrite Hlen by exact Hs. lia.
    + pose proof (len_nonneg (slice (input_ids (tok_call tokenizer text
                    (getattr_model_max_length tokenizer seqlen))) i (i + seqlen))).
      lia.
  - unfold Data.get_c4 in H.
    unfold bind at 1 in H. unfold random_seed in H.
    unfold bind at 1 in H.
    match type of H with
    | context [for_range ?n ?b ?a ?s] =>
        destruct (for_range n b a s) as [[r|e|] st1] eqn:Ef; try discriminate
    end.
    unfold ret in H. injection H as <- _ <-.
    destruct (Z.to_nat nsamples) as [|n] eqn:En.
    + cbn [for_range] in Ef. unfold ret in Ef. injection Ef as <- <-.
      exists []. cbn [draws]. rewrite app_nil_r. repeat split.
    + assert (Hne : c4_train <> []).
      { cbn [for_range] in Ef. unfold bind at 1 in Ef. unfold bind at 1 in Ef.
        match type of Ef with
        | context [c4_draw_record ?f ?d ?t ?m ?q ?s] =>
            destruct (c4_draw_record f d t m q s) as [[enc|e|] st0] eqn:El;
              try discriminate
        end.
        apply c4_draw_record_ret in El as (k & text & Hk & _).
        intros Hnil. rewrite Hnil in Hk. discriminate. }
      destruct (iterations_sampled tokenizer
                  (getattr_model_max_length tokenizer seqlen) seqlen Hrng Hne
                  (S n) fuel [] _ _ _ Ef)
        as (loader & log & -> & Hs & Hd).
      exists log. split; [exact Hs|exact Hd].
Qed.

(** C6, as the code has it. Over a non-empty train split the rejection
    loop of [get_c4] has no retry bound: if the first long record comes
    at draw [k], the loop makes exactly [k + 1] draws, for any [k]. The
    loop ends exactly when its draws reach a long record, and [get_c4]
    ends exactly when each of its [nsamples] iterations does. With
    [nsamples >= 1] and no long record in the split, [get_c4] ends for no
    amount of fuel. With [nsamples <= 0] no record is drawn and [get_c4]
    returns an empty list of samples, whatever the records are. *)
Theorem c4_loop_unbounded (nsamples seed seqlen : Z) (tokenizer : Tokenizer) :
  let max_length := getattr_model_max_length tokenizer seqlen in
  (randint_contract rng_draw ->
   c4_train <> [] ->
   (forall k st enc,
       first_long_draw rng_draw c4_train tokenizer max_length seqlen (gen st) k enc ->
       exists st',
         c4_draw_record (S k) c4_train tokenizer max_length seqlen st = (Ret enc, st')
         /\ draws st'
            = draws st ++ map (record_draw rng_draw c4_train (gen st)) (seq 0 (S k))
         /\ fst (c4_draw_record k c4_train tokenizer max_length seqlen st) = OutOfFuel)
   /\ (forall st,
         (exists fuel,
             terminated
               (fst (c4_draw_record fuel c4_train tokenizer max_length seqlen st)))
         <-> reaches_long_record rng_draw c4_train tokenizer max_length seqlen (gen st))
   /\ (forall g,
         (exists fuel,
             terminated (fst (run (get_c4 fuel nsamples seed seqlen tokenizer) g)))
         <-> iterations_reach rng_draw c4_train tokenizer max_length seqlen
               (Z.to_nat nsamples) (rng_seed seed))
   /\ (1 <= nsamples ->
       (forall text, text ∈ c4_train ->
                     shape1 (input_ids (tok_call tokenizer text max_length)) <= seqlen) ->
       forall fuel g,
         fst (run (get_c4 fuel nsamples seed seqlen tokenizer) g) = OutOfFuel))
  /\ (nsamples <= 0 ->
      forall fuel st,
        get_c4 fuel nsamples seed seqlen tokenizer st
        = (Ret ([], ValEnc {| tw_input_ids :=
                               slice_to (input_ids
                                           (tok_call tokenizer
                                              (join " " (slice_to c4_validation 1100))
                                              max_length))
                                        (256 * seqlen) |}),
           {| gen := rng_seed seed; draws := draws st |})).
Proof.
  intros max_length. split.
  - intros Hrng Hne. split; [|split; [|split]].
    + intros k st enc Hfl.
      destruct (loop_exits_at tokenizer max_length seqlen Hrng Hne k st enc Hfl)
        as (st' & Hrun & _ & Hd).
      exists st'. split; [exact Hrun|]. split; [exact Hd|].
      apply (loop_out_of_fuel tokenizer max_length seqlen Hrng Hne).
      intros j Hj. destruct Hfl as (Hshort & _). apply Hshort. exact Hj.
    + intros st. apply loop_terminates_iff; assumption.
    + intros g. split.
      * intros [fuel Ht]. apply get_c4_run in Ht.
        apply (proj1 (iterations_terminate_iff tokenizer max_length seqlen
                        Hrng Hne (Z.to_nat nsamples) []
                        {| gen := rng_seed seed; draws := [] |})).
        exists fuel. exact Ht.
      * intros Hreach.
        destruct (proj2 (iterations_terminate_iff tokenizer max_length seqlen
                           Hrng Hne (Z.to_nat nsamples) []
                           {| gen := rng_seed seed; draws := [] |}) Hreach)
          as [fuel Ht].
        exists fuel. apply get_c4_run. exact Ht.
    + intros Hn Hshort fuel g.
      assert (Hall : forall i,
                 is_long c4_train tokenizer max_length seqlen i = false).
      { intros i. unfold is_long, record_encoding.
        destruct (c4_train !! Z.to_nat i) as [text|] eqn:El; [|reflexivity].
        apply list_elem_of_lookup_2 in El. apply Hshort in El.
        destruct (Z.gtb_spec (shape1 (input_ids (tok_call tokenizer text max_length)))
                    seqlen); [lia|reflexivity]. }
      destruct (Z.to_nat nsamples) as [|n] eqn:En; [lia|].
      pose proof (iteration_starves tokenizer max_length seqlen Hrng Hne fuel n []
                    {| gen := rng_seed seed; draws := [] |} Hall) as E.
      unfold run, Data.get_c4. unfold bind at 1. unfold random_seed.
      unfold bind at 1. cbn [draws]. rewrite En.
      unfold max_length in E.
      match type of E with
      | fst ?t = _ => destruct t as [o st1]
      end.
      simpl in E. subst o. reflexivity.
  - intros Hn fuel st. unfold Data.get_c4, bind, random_seed, ret.
    replace (Z.to_nat nsamples) with 0%nat by lia. reflexivity.
Qed.

End SamplerProofs.

(** ** The definitions at work on the small instance *)

Import Toy.

Lemma toy_draw_contract : randint_contract toy_draw.
Proof.
  intros a b g Hab. unfold toy_draw. cbn [fst].
  pose proof (Z.mod_pos_bound g (b - a + 1)). lia.
Qed.

Lemma toy_aligned : aligned toy_tokenizer.
Proof. intros text m. cbn. apply length_map. Qed.

Lemma toy_wikitext_run :
  get_wikitext2 toy_seed toy_draw toy_wikitext_train toy_wikitext_test
    3 7 4 toy_tokenizer {| gen := 99; draws := [] |}
  = (Ret (toy_wikitext_loader, toy_wikitext_eval), snd toy_wikitext_result).
Proof. vm_compute. reflexivity. Qed.

Lemma toy_c4_run :
  get_c4 toy_seed toy_draw toy_c4_train toy_c4_validation
    5 3 7 4 toy_tokenizer {| gen := 99; draws := [] |}
  = (Ret (toy_c4_loader, toy_c4_eval), snd toy_c4_result).
Proof. vm_compute. reflexivity. Qed.

Lemma calibration_deterministic_witness :
  observable
    (run (get_loaders toy_seed toy_draw toy_wikitext_train toy_wikitext_test
            toy_c4_train toy_c4_validation 5 "c4" 3 7 4 toy_tokenizer) 99)
  = observable
      (run (get_loaders toy_seed toy_draw toy_wikitext_train toy_wikitext_test
              toy_c4_train toy_c4_validation 9 "c4" 3 7 4 toy_tokenizer) 2024).
Proof.
  apply (proj2 (calibration_deterministic toy_seed toy_draw toy_wikitext_train
                  toy_wikitext_test toy_c4_train toy_c4_validation
                  "c4" 3 7 4 toy_tokenizer)).
  - vm_compute. exact I.
  - vm_compute. exact I.
Defined.

Lemma calibration_sample_shape_witness :
  Forall (sample_shape 4) toy_wikitext_loader
  /\ Forall (sample_shape 4) toy_c4_loader.
Proof.
  destruct (calibration_sample_shape toy_seed toy_draw toy_wikitext_train
              toy_wikitext_test toy_c4_train toy_c4_validation
              3 7 4 toy_tokenizer toy_draw_contract toy_aligned)
    as [Hw Hc]; [lia|].
  split.
  - exact (Hw _ _ _ _ toy_wikitext_run).
  - exact (Hc _ _ _ _ _ toy_c4_run).
Defined.

Lemma offset_drawn_in_range_witness :
  exists i st',
    sample_window toy_draw (toy_call "the lazy dog" 64) 4
      {| gen := 99; draws := [] |}
    = (Ret (slice (input_ids (toy_call "the lazy dog" 64)) i (i + 4),
            slice (attention_mask (toy_call "the lazy dog" 64)) i (i + 4),
            slice (input_ids (toy_call "the lazy dog" 64)) i (i + 4)), st')
    /\ 0 <= i <= 12 - 4 - 1
    /\ i + 4 <= 12.
Proof.
  destruct (proj1 (offset_drawn_in_range toy_seed toy_draw toy_wikitext_train
                     toy_wikitext_test toy_c4_train toy_c4_validation
                     4 toy_draw_contract)
              (toy_call "the lazy dog" 64) {| gen := 99; draws := [] |})
    as (i & st' & Hrun & _ & _ & Hi & Hend & _).
  - vm_compute. reflexivity.
  - exists i, st'. split; [exact Hrun|]. split; [exact Hi|exact Hend].
Defined.

(** From seed 0 the first index drawn is 0, a record of two tokens: it is
    dropped and index 1, a record of twenty tokens, is drawn; the window
    is cut there at offset 14. *)
Lemma toy_c4_retry_run :
  get_c4 toy_seed toy_draw toy_c4_train toy_c4_validation
    5 1 0 4 toy_tokenizer {| gen := 99; draws := [] |}
  = (Ret (loader_of toy_c4_retry_result, eval_of toy_c4_retry_result),
     {| gen := 654583775; draws := [0; 1; 14] |}).
Proof. vm_compute. reflexivity. Qed.

Lemma c4_sample_from_long_record_witness :
  Forall (fun s =>
            cut_from_long_record toy_c4_train toy_tokenizer 64 4 s
            /\ 4 <= len (fst (fst s))
            /\ (0 <= 4 -> len (fst (fst s)) = 4))
         (loader_of toy_c4_retry_result)
  /\ is_long toy_c4_train toy_tokenizer 64 4 0 = false
  /\ exists log,
      rejection_sampled toy_draw toy_c4_train toy_tokenizer 64 4 1 0
        (loader_of toy_c4_retry_result) log
      /\ [0; 1; 14] = log.
Proof.
  destruct (c4_sample_from_long_record toy_seed toy_draw toy_c4_train
              toy_c4_validation 5 1 0 4 toy_tokenizer _ _ _ _
              toy_draw_contract toy_c4_retry_run) as [HF (log & Hs & Hd)].
  split; [exact HF|]. split; [reflexivity|].
  exists log. split; [exact Hs|exact Hd].
Defined.

Lemma c4_eval_encoding_capped_witness :
  exists w,
    toy_c4_eval = ValEnc w
    /\ tw_input_ids w
       = take (Z.to_nat (256 * 4))
           (input_ids (toy_call (join " " (take 1100 toy_c4_validation)) 64))
    /\ len (tw_input_ids w) <= 256 * 4.
Proof.
  apply (c4_eval_encoding_capped toy_seed toy_draw toy_c4_train
           toy_c4_validation 5 3 7 4 toy_tokenizer
           {| gen := 99; draws := [] |} (snd toy_c4_result) toy_c4_loader).
  - lia.
  - exact toy_c4_run.
Defined.

Lemma toy_c4_short_all_short :
  forall text, text ∈ toy_c4_short ->
    shape1 (input_ids (tok_call toy_tokenizer text
                         (getattr_model_max_length toy_tokenizer 4))) <= 4.
Proof.
  intros text Hin. apply list_elem_of_In in Hin. simpl in Hin.
  destruct Hin as [<-|[<-|[]]]; vm_compute; discriminate.
Qed.

Lemma c4_loop_unbounded_witness :
  fst (run (get_c4 toy_seed toy_draw toy_c4_short toy_c4_validation
              1000 1 7 4 toy_tokenizer) 99) = OutOfFuel.
Proof.
  destruct (c4_loop_unbounded toy_seed toy_draw toy_c4_short toy_c4_validation
              1 7 4 toy_tokenizer) as [H _].
  apply H.
  - exact toy_draw_contract.
  - discriminate.
  - lia.
  - exact toy_c4_short_all_short.
Defined.

(** With [nsamples = 0] no record is drawn: [get_c4] returns although no
    record of the split is long enough. *)
Lemma c4_returns_without_long_record :
  (forall text, text ∈ toy_c4_short ->
     shape1 (input_ids (tok_call toy_tokenizer text
                          (getattr_model_max_length toy_tokenizer 4))) <= 4)
  /\ fst (run (get_c4 toy_seed toy_draw toy_c4_short toy_c4_validation
                 0 0 7 4 toy_tokenizer) 99)
     = Ret ([], toy_c4_eval).
Proof.
  split; [exact toy_c4_short_all_short|]. vm_compute. reflexivity.
Qed.

End DataProofs.

(* ===================================================================== *)
(** * Properties of main.py *)
(* ===================================================================== *)

Module MainProofs.
Import Py Main.

(** A block that returned was run to its end: its first part returned and
    the rest returned from there. *)
Lemma bind_ret_inv {S A B} (m : Py.M S A) (k : A -> Py.M S B)
    (st st' : S) (b : B) :
  bind m k st = (Ret b, st') ->
  exists a st1, m st = (Ret a, st1) /\ k a st1 = (Ret b, st').
Proof.
  unfold bind. destruct (m st) as [[a|e|] st1]; try discriminate. eauto.
Qed.

Lemma lift_ret_inv {S A} (o : outcome A) (st st' : S) (a : A) :
  lift o st = (Ret a, st') -> o = Ret a /\ st' = st.
Proof. unfold lift. intros [= -> ->]. auto. Qed.

Lemma append_cons (c : ascii) (p q : string) :
  String c p +:+ q = String c (p +:+ q).
Proof. reflexivity. Qed.

Lemma append_empty (q : string) : "" +:+ q = q.
Proof. reflexivity. Qed.

(** [startswith] decides being a prefix. *)
Lemma startswith_spec (p s : string) :
  startswith p s = true <-> exists post, s = p +:+ post.
Proof.
  revert s. induction p as [|a p IH]; intros s.
  - split; [intros _; exists s; reflexivity|]. intros _. destruct s; reflexivity.
  - destruct s as [|b s]; cbn [startswith].
    + split; [discriminate|]. intros [post H].
      rewrite append_cons in H. discriminate.
    + destruct (Ascii.eqb_spec a b) as [->|Hne].
      * rewrite IH. split; intros [post H]; exists post.
        -- rewrite append_cons. congruence.
        -- rewrite append_cons in H. congruence.
      * split; [discriminate|]. intros [post H].
        rewrite append_cons in H. congruence.
Qed.

Lemma contains_unfold (sub s : string) :
  contains sub s
  = if startswith sub s then true
    else match s with
         | EmptyString => false
         | String _ s' => contains sub s'
         end.
Proof. destruct s; reflexivity. Qed.

(** [contains] decides occurrence as a substring. *)
Lemma contains_spec (sub s : string) :
  contains sub s = true <-> occurs_in sub s.
Proof.
  unfold occurs_in. induction s as [|c s IH]; rewrite contains_unfold.
  - destruct (startswith sub "") eqn:E.
    + apply startswith_spec in E as [post E].
      split; [|reflexivity]. intros _. exists "", post. exact E.
    + split; [discriminate|]. intros (pre & post & H).
      destruct pre; [|rewrite append_cons in H; discriminate].
      rewrite append_empty in H.
      assert (startswith sub "" = true) by (apply startswith_spec; eauto).
      congruence.
  - destruct (startswith sub (String c s)) eqn:E.
    + apply startswith_spec in E as [post E].
      split; [|reflexivity]. intros _. exists "", post. exact E.
    + rewrite IH. split.
      * intros (pre & post & H). exists (String c pre), post.
        rewrite append_cons. congruence.
      * intros (pre & post & H). destruct pre as [|c' pre].
        -- rewrite append_empty in H.
           assert (startswith sub (String c s) = true)
             by (apply startswith_spec; eauto).
           congruence.
        -- rewrite append_cons in H. injection H as _ H. eauto.
Qed.

(** One step of a block whose first part returned, or raised. *)
Lemma bind_ret_step {S A B} (m : Py.M S A) (k : A -> Py.M S B)
    (st st1 : S) (a : A) :
  m st = (Ret a, st1) -> bind m k st = k a st1.
Proof. intros H. unfold bind. rewrite H. reflexivity. Qed.

Lemma bind_raise_step {S A B} (m : Py.M S A) (k : A -> Py.M S B)
    (st st1 : S) (e : exn) :
  m st = (Raise e, st1) -> bind m k st = (Raise e, st1).
Proof. intros H. unfold bind. rewrite H. reflexivity. Qed.

(** The seeds numpy accepts pass both range checks. *)
Lemma seed_in_range (s : Z) :
  0 <= s <= 4294967295 ->
  ((s <? 0) || (4294967295 <? s))%bool = false
  /\ ((s <? -9223372036854775808) || (18446744073709551615 <? s))%bool = false.
Proof.
  intros Hs. split; apply orb_false_iff; split; apply Z.ltb_ge; lia.
Qed.

Lemma seed_out_of_range (s : Z) :
  ~ 0 <= s <= 4294967295 ->
  ((s <? 0) || (4294967295 <? s))%bool = true.
Proof. intros Hs. apply orb_true_iff. rewrite !Z.ltb_lt. lia. Qed.

Lemma seed_range_dec (s : Z) :
  {0 <= s <= 4294967295} + {~ 0 <= s <= 4294967295}.
Proof.
  destruct (Z_le_dec 0 s); destruct (Z_le_dec s 4294967295);
    first [left; lia | right; lia].
Defined.

Section DriverProofs.

Context {W D T P F : Type}.
Variable model_from_pretrained : ModelClass -> string -> string -> W * gmap string D.
Variable llava_importable : bool.
Variable processor_from_pretrained : string -> string -> P.
Variable tokenizer_from_pretrained : TokenizerClass -> string -> option T.
Variable prune :
  Criterion -> Args -> @Model W D -> T -> @Device D -> Z -> Z -> Z
  -> outcome (@Model W D).
Variable check_sparsity : @Model W D -> Args -> outcome F.
Variable eval_ppl : @Model W D -> T -> @Device D -> outcome F.
Variable fmt4 : F -> string.
Variable path_exists : string -> bool.
Variable makedirs : string -> outcome unit.
Variable write_file : string -> list string -> outcome unit.
Variable save_model_pretrained : @Model W D -> string -> outcome unit.
Variable save_tokenizer_pretrained : T -> string -> outcome unit.

Local Notation get_llm :=
  (get_llm model_from_pretrained llava_importable processor_from_pretrained).
Local Notation load_tokenizer :=
  (load_tokenizer (D := D) tokenizer_from_pretrained).
Local Notation main_setup :=
  (main_setup model_from_pretrained llava_importable processor_from_pretrained
     tokenizer_from_pretrained).
Local Notation dispatch := (dispatch prune).
Local Notation audit_evaluate_persist :=
  (audit_evaluate_persist check_sparsity eval_ppl fmt4 path_exists makedirs
     write_file save_model_pretrained save_tokenizer_pretrained).
Local Notation main_run :=
  (main_run prune check_sparsity eval_ppl fmt4 path_exists makedirs write_file
     save_model_pretrained save_tokenizer_pretrained).
Local Notation main :=
  (main model_from_pretrained llava_importable processor_from_pretrained
     tokenizer_from_pretrained prune check_sparsity eval_ppl fmt4 path_exists
     makedirs write_file save_model_pretrained save_tokenizer_pretrained).
Local Notation pruned := (pruned prune).

(** ** The seed calls *)

Lemma np_random_seed_ret (s : Z) (tr : list (@Event D)) :
  0 <= s <= 4294967295 ->
  np_random_seed s tr = (Ret tt, tr ++ [NpRandomSeed s]).
Proof.
  intros Hs. unfold np_random_seed, bind, emit.
  destruct (seed_in_range s Hs) as [-> _]. reflexivity.
Qed.

Lemma np_random_seed_raises (s : Z) (tr : list (@Event D)) :
  ~ 0 <= s <= 4294967295 ->
  np_random_seed s tr = (Raise ValueError, tr ++ [NpRandomSeed s]).
Proof.
  intros Hs. unfold np_random_seed, bind, emit.
  rewrite (seed_out_of_range s Hs). reflexivity.
Qed.

Lemma torch_manual_seed_ret (s : Z) (tr : list (@Event D)) :
  0 <= s <= 4294967295 ->
  torch_manual_seed s tr = (Ret tt, tr ++ [TorchManualSeed s]).
Proof.
  intros Hs. unfold torch_manual_seed, bind, emit.
  destruct (seed_in_range s Hs) as [_ ->]. reflexivity.
Qed.

(** A numpy seed call that returned was given a seed in range. *)
Lemma np_random_seed_inv (s : Z) (tr tr1 : list (@Event D)) (u : unit) :
  np_random_seed s tr = (Ret u, tr1) ->
  0 <= s <= 4294967295 /\ tr1 = tr ++ [NpRandomSeed s].
Proof.
  intros H. destruct (seed_range_dec s) as [Hs|Hs].
  - rewrite np_random_seed_ret in H by exact Hs. injection H as _ <-. auto.
  - rewrite np_random_seed_raises in H by exact Hs. discriminate.
Qed.

(** A seed numpy rejects ends the run at line 87. *)
Lemma setup_bad_seed (args : Args) (tr : list Event) :
  ~ 0 <= seed args <= 4294967295 ->
  main_setup args tr = (Raise ValueError, tr ++ [NpRandomSeed (seed args)]).
Proof.
  intros Hs. unfold Main.main_setup.
  apply bind_raise_step, np_random_seed_raises, Hs.
Qed.

Lemma main_bad_seed (args : Args) (tr : list Event) :
  ~ 0 <= seed args <= 4294967295 ->
  main args tr = (Raise ValueError, tr ++ [NpRandomSeed (seed args)]).
Proof.
  intros Hs. unfold Main.main. apply bind_raise_step, setup_bad_seed, Hs.
Qed.

(** With a seed in range, a failure of the configuration step ends the
    run right after the two seed calls. *)
Lemma main_aborts_in_config (args : Args) (tr : list Event) (e : exn) :
  0 <= seed args <= 4294967295 ->
  handle_nm args = Raise e ->
  main args tr
  = (Raise e, tr ++ [NpRandomSeed (seed args); TorchManualSeed (seed args)]).
Proof.
  intros Hs Hnm. unfold Main.main. apply bind_raise_step.
  unfold Main.main_setup.
  rewrite (bind_ret_step _ _ _ _ _ (np_random_seed_ret _ tr Hs)).
  rewrite (bind_ret_step _ _ _ _ _ (torch_manual_seed_ret _ _ Hs)).
  rewrite Hnm. rewrite <- app_assoc. reflexivity.
Qed.

(** ** Blocks that invoke no criterion *)

Lemma prune_calls_app (a b : list (@Event D)) :
  prune_calls (a ++ b) = prune_calls a ++ prune_calls b.
Proof. apply omap_app. Qed.

Lemma quiet_ret {A} (a : A) : quiet (D := D) (ret a).
Proof. intros tr o tr' [= <- <-]. reflexivity. Qed.

Lemma quiet_raise {A} (e : exn) : quiet (D := D) (A := A) (raise e).
Proof. intros tr o tr' [= <- <-]. reflexivity. Qed.

Lemma quiet_lift {A} (o : outcome A) : quiet (D := D) (lift o).
Proof. intros tr o' tr' [= <- <-]. reflexivity. Qed.

Lemma quiet_emit (e : @Event D) : prune_calls [e] = [] -> quiet (emit e).
Proof.
  intros He tr o tr' [= <- <-]. rewrite prune_calls_app, He.
  apply app_nil_r.
Qed.

Lemma quiet_bind {A B} (m : IO (D := D) A) (k : A -> IO (D := D) B) :
  quiet m -> (forall a, quiet (k a)) -> quiet (bind m k).
Proof.
  intros Hm Hk tr o tr' H. unfold bind in H.
  destruct (m tr) as [[a|e|] tr1] eqn:Em.
  - rewrite (Hk a _ _ _ H). exact (Hm _ _ _ Em).
  - injection H as <- <-. exact (Hm _ _ _ Em).
  - injection H as <- <-. exact (Hm _ _ _ Em).
Qed.

Lemma quiet_try_except {A} (a b : IO (D := D) A) :
  quiet a -> quiet b -> quiet (try_except a b).
Proof.
  intros Ha Hb tr o tr' H. unfold try_except in H.
  destruct (a tr) as [[x|e|] tr1] eqn:Ea.
  - injection H as <- <-. exact (Ha _ _ _ Ea).
  - rewrite (Hb _ _ _ H). exact (Ha _ _ _ Ea).
  - injection H as <- <-. exact (Ha _ _ _ Ea).
Qed.

Ltac quiet_step :=
  first
    [ apply quiet_ret
    | apply quiet_raise
    | apply quiet_lift
    | apply quiet_emit; reflexivity
    | apply quiet_try_except
    | apply quiet_bind; [|intros ?]
    | match goal with
      | |- quiet (if ?c then _ else _) => destruct c
      | |- quiet (match ?x with _ => _ end) => destruct x
      end ].

Lemma quiet_get_llm (model cache_dir : string) : quiet (get_llm model cache_dir).
Proof. unfold Main.get_llm. repeat quiet_step. Qed.

Lemma quiet_load_tokenizer (cls : TokenizerClass) (path : string) :
  quiet (load_tokenizer cls path).
Proof. unfold Main.load_tokenizer. repeat quiet_step. Qed.

(** Lines 86-132 invoke no criterion, however they end. *)
Lemma quiet_main_setup (args : Args) : quiet (main_setup args).
Proof.
  unfold Main.main_setup, np_random_seed, torch_manual_seed.
  repeat first [ apply quiet_get_llm | apply quiet_load_tokenizer | quiet_step ].
Qed.

(** Nor do lines 148-165. *)
Lemma quiet_finish (l : Locals) (m : Model) : quiet (audit_evaluate_persist l m).
Proof.
  unfold Main.audit_evaluate_persist, os_path_exists, os_makedirs.
  repeat quiet_step.
Qed.

(** ** What the setup leaves in the locals *)

Lemma main_setup_ret (args : Args) (tr tr' : list Event) (l : Locals) :
  main_setup args tr = (Ret l, tr') ->
  exists id,
    model args = Some id
    /\ l_args l = args
    /\ handle_nm args = Ret (l_prune_n l, l_prune_m l)
    /\ l_idx l = layer_no args
    /\ (if has_size_marker id
        then exists d, hf_device_map (l_model l) !! "lm_head" = Some d
                       /\ l_device l = MapDevice d
        else l_device l = TorchDevice "cuda:0")
    /\ l_dataset_name l
       = (if (contains "qwen2.5-vl" (lower id) || contains "vl" (lower id))%bool
          then "qwen2.5-vl" else "c4").
Proof.
  intros H. unfold Main.main_setup in H.
  apply bind_ret_inv in H as (_ & tr1 & _ & H).
  apply bind_ret_inv in H as (_ & tr2 & _ & H).
  apply bind_ret_inv in H as ([n m] & tr3 & Hnm & H).
  apply lift_ret_inv in Hnm as [Hnm _].
  apply bind_ret_inv in H as (id & tr4 & Hid & H).
  apply lift_ret_inv in Hid as [Hid _].
  apply bind_ret_inv in H as (name & tr5 & _ & H).
  apply bind_ret_inv in H as ([m0 proc] & tr6 & _ & H).
  apply bind_ret_inv in H as (tok & tr7 & _ & H).
  apply bind_ret_inv in H as (dev & tr8 & Hdev & H).
  unfold ret in H. injection H as <- _.
  exists id. cbn [l_args l_prune_n l_prune_m l_idx l_device l_model l_dataset_name].
  split; [destruct (model args); congruence|].
  split; [reflexivity|]. split; [exact Hnm|]. split; [reflexivity|].
  split; [|reflexivity].
  unfold has_size_marker.
  destruct (contains "30b" id || contains "65b" id || contains "70b" id)%bool.
  - cbn [model_eval hf_device_map] in *.
    destruct (hf_device_map m0 !! "lm_head") as [d|]; [|discriminate].
    unfold ret in Hdev. injection Hdev as <- _. eauto.
  - unfold ret in Hdev. injection Hdev as <- _. reflexivity.
Qed.

(** A run whose setup returned goes on with lines 133-165. *)
Lemma main_after_setup (args : Args) (tr tr1 : list Event) (l : Locals) :
  main_setup args tr = (Ret l, tr1) ->
  l_args l = args /\ main args tr = main_run l tr1.
Proof.
  intros Hs. pose proof (main_setup_ret _ _ _ _ Hs) as (id & _ & Ha & _).
  split; [exact Ha|]. unfold Main.main. apply bind_ret_step, Hs.
Qed.

(** ** The dispatch and the steps after it *)

Lemma dispatch_zero (l : Locals) (tr : list Event) :
  float_eqb (sparsity_ratio (l_args l)) (Finite 0) = true ->
  dispatch l tr = (Ret (l_model l), tr).
Proof. intros H. unfold Main.dispatch. rewrite H. reflexivity. Qed.

Lemma dispatch_unnamed (l : Locals) (tr : list Event) :
  prune_method (l_args l) = None ->
  dispatch l tr = (Ret (l_model l), tr).
Proof.
  intros H. unfold Main.dispatch. rewrite H. cbn [opt_eqb].
  destruct (negb _); reflexivity.
Qed.

Lemma dispatch_named (l : Locals) (tr : list Event) (name : string)
    (c : Criterion) :
  float_eqb (sparsity_ratio (l_args l)) (Finite 0) = false ->
  prune_method (l_args l) = Some name ->
  criterion_named name = Some c ->
  dispatch l tr
  = (pruned c l,
     tr ++ [Prune c (l_prune_n l) (l_prune_m l) (l_idx l) (l_device l)]).
Proof.
  intros Hr Hm Hc. unfold Main.dispatch. rewrite Hr, Hm. cbn [negb opt_eqb].
  unfold criterion_named in Hc.
  repeat match type of Hc with
         | (if ?b then _ else _) = _ => destruct b
         end;
    try discriminate; injection Hc as <-; reflexivity.
Qed.

(** The steps after the dispatch invoke no criterion: the criteria a run
    invoked are those of its trace up to the end of the dispatch. *)
Lemma main_run_calls (l : Locals) (tr : list Event) (o : outcome Model)
    (tr' : list Event) :
  main_run l tr = (o, tr') ->
  prune_calls tr' = prune_calls (snd (dispatch l tr)).
Proof.
  unfold Main.main_run, bind.
  destruct (dispatch l tr) as [[m|e|] tr2]; cbn [snd].
  - apply quiet_finish.
  - intros [= <- <-]. reflexivity.
  - intros [= <- <-]. reflexivity.
Qed.

(** Taking lines 148-165 apart, one call at a time. *)
Ltac finish_cases H :=
  unfold Main.audit_evaluate_persist, os_path_exists, os_makedirs, bind, emit,
    lift, ret, raise in H;
  repeat match type of H with
         | context [String.eqb ?p ""] =>
             destruct (String.eqb_spec p ""); cbn [negb andb] in H
         | context [path_exists ?p] =>
             destruct (path_exists p) eqn:?; cbn [negb andb] in H
         | context [match ?x with _ => _ end] =>
             lazymatch x with
             | context [match _ with _ => _ end] => fail
             | _ => destruct x eqn:?
             end
         end.

(** A run of lines 148-165 that returned: the audit and the evaluation
    returned, [--save] was given, and the log holds their two values. *)
Lemma finish_ret (l : Locals) (m m' : Model) (tr tr' : list Event) :
  audit_evaluate_persist l m tr = (Ret m', tr') ->
  m' = m
  /\ exists p s ppl,
      save (l_args l) = Some p
      /\ check_sparsity m (l_args l) = Ret s
      /\ eval_ppl m (l_tokenizer l) (l_device l) = Ret ppl
      /\ In CheckSparsity tr'
      /\ In (EvalPpl (l_device l)) tr'
      /\ In (WriteFile (path_join p "log.txt")
               ["actual_sparsity" +:+ String "009" "ppl";
                fmt4 s +:+ String "009" (fmt4 ppl)]) tr'.
Proof.
  intros H. finish_cases H; try discriminate;
    injection H as <- <-; (split; [reflexivity|]);
    eexists _, _, _; repeat split; try reflexivity;
    repeat rewrite in_app_iff; cbn [In]; tauto.
Qed.

(** C2. A run whose sparsity type is not ["unstructured"] (so ["4:8"] or
    ["2:4"]) and whose ratio is not 0.5 is rejected before any model is
    loaded: whatever the seed, [main] raises and its trace holds no model
    load; with a seed numpy accepts (0 to 2**32 - 1) it is the assertion
    of the configuration step that raises, right after the two seed
    calls. With ratio 0.5 the pattern is parsed into [(prune_n,
    prune_m)]; for ["unstructured"] both are 0. The locals of a run that
    passes the step carry these values. *)
Theorem structured_ratio_checked (args : Args) :
  (opt_eqb (sparsity_type args) "unstructured" = false ->
   float_eqb (sparsity_ratio args) (Finite (1 # 2)) = false ->
   forall tr,
     (exists e tr',
         main args tr = (Raise e, tr') /\ load_calls tr' = load_calls tr)
     /\ (0 <= seed args <= 4294967295 ->
         main args tr
         = (Raise AssertionError,
            tr ++ [NpRandomSeed (seed args); TorchManualSeed (seed args)])))
  /\ (float_eqb (sparsity_ratio args) (Finite (1 # 2)) = true ->
      (sparsity_type args = Some "4:8" -> handle_nm args = Ret (4, 8))
      /\ (sparsity_type args = Some "2:4" -> handle_nm args = Ret (2, 4)))
  /\ (sparsity_type args = Some "unstructured" -> handle_nm args = Ret (0, 0))
  /\ (forall tr l tr',
        main_setup args tr = (Ret l, tr') ->
        handle_nm args = Ret (l_prune_n l, l_prune_m l)).
Proof.
  split; [|split; [|split]].
  - intros Ht Hr tr.
    assert (Hnm : handle_nm args = Raise AssertionError).
    { unfold handle_nm. rewrite Ht, Hr. reflexivity. }
    split.
    + destruct (seed_range_dec (seed args)) as [Hs|Hs].
      * eexists _, _. split; [apply main_aborts_in_config; eassumption|].
        unfold load_calls. rewrite omap_app. apply app_nil_r.
      * eexists _, _. split; [apply main_bad_seed; exact Hs|].
        unfold load_calls. rewrite omap_app. apply app_nil_r.
    + intros Hs. apply main_aborts_in_config; assumption.
  - intros Hr. split; intros Ht; unfold handle_nm; rewrite Ht, Hr; reflexivity.
  - intros Ht. unfold handle_nm. rewrite Ht. reflexivity.
  - intros tr l tr' H. apply main_setup_ret in H as (id & _ & _ & H & _).
    exact H.
Qed.

(** C8, what the code does. In a run that reaches the dispatch: with
    [sparsity_ratio == 0] no criterion is invoked and the model is left
    as loaded; with [sparsity_ratio != 0] and [prune_method] naming one
    of the five criteria, that criterion is invoked, once, and no other;
    with [--prune_method] not given the dispatch matches no branch,
    whatever the ratio: no criterion is invoked and the audit, the
    evaluation and the log go on with the model as loaded. A run that
    returns made the audit and the evaluation and wrote their two values
    to [<save>/log.txt]. *)
Theorem dispatch_by_method (args : Args) (tr tr1 : list Event) (l : Locals) :
  main_setup args tr = (Ret l, tr1) ->
  (float_eqb (sparsity_ratio args) (Finite 0) = true ->
   dispatch l tr1 = (Ret (l_model l), tr1)
   /\ forall o tr', main args tr = (o, tr') -> prune_calls tr' = prune_calls tr)
  /\ (forall name c,
        float_eqb (sparsity_ratio args) (Finite 0) = false ->
        prune_method args = Some name ->
        criterion_named name = Some c ->
        dispatch l tr1
        = (pruned c l,
           tr1 ++ [Prune c (l_prune_n l) (l_prune_m l) (l_idx l) (l_device l)])
        /\ forall o tr',
            main args tr = (o, tr') -> prune_calls tr' = prune_calls tr ++ [c])
  /\ (prune_method args = None ->
      dispatch l tr1 = (Ret (l_model l), tr1)
      /\ main args tr = audit_evaluate_persist l (l_model l) tr1
      /\ forall o tr', main args tr = (o, tr') -> prune_calls tr' = prune_calls tr)
  /\ (forall m tr',
        main args tr = (Ret m, tr') ->
        exists p s ppl,
          save args = Some p
          /\ check_sparsity m args = Ret s
          /\ eval_ppl m (l_tokenizer l) (l_device l) = Ret ppl
          /\ In CheckSparsity tr'
          /\ In (EvalPpl (l_device l)) tr'
          /\ In (WriteFile (path_join p "log.txt")
                   ["actual_sparsity" +:+ String "009" "ppl";
                    fmt4 s +:+ String "009" (fmt4 ppl)]) tr').
Proof.
  intros Hsetup.
  pose proof (quiet_main_setup args _ _ _ Hsetup) as Hq.
  destruct (main_after_setup _ _ _ _ Hsetup) as [Hargs Hmain].
  rewrite Hmain. rewrite <- Hargs.
  split; [|split; [|split]].
  - intros Hr. pose proof (dispatch_zero l tr1 Hr) as Hd.
    split; [exact Hd|]. intros o tr' H.
    rewrite (main_run_calls _ _ _ _ H), Hd. exact Hq.
  - intros name c Hr Hm Hc.
    pose proof (dispatch_named l tr1 name c Hr Hm Hc) as Hd.
    split; [exact Hd|]. intros o tr' H.
    rewrite (main_run_calls _ _ _ _ H), Hd. cbn [snd].
    rewrite prune_calls_app, Hq. reflexivity.
  - intros Hm. pose proof (dispatch_unnamed l tr1 Hm) as Hd.
    split; [exact Hd|]. split.
    + unfold Main.main_run. apply bind_ret_step, Hd.
    + intros o tr' H. rewrite (main_run_calls _ _ _ _ H), Hd. exact Hq.
  - intros m tr' H. unfold Main.main_run in H.
    apply bind_ret_inv in H as (m0 & tr2 & _ & H).
    apply finish_ret in H as (-> & H). exact H.
Qed.

(** C9, what the code does. After the setup the device is the entry of
    the model's device map for ["lm_head"] when the identifier contains
    one of the strings ["30b"], ["65b"], ["70b"] as written, in lower
    case, and [cuda:0] otherwise: a marker in upper case is not seen. *)
Theorem device_follows_size_marker (args : Args) (tr tr' : list Event)
    (l : Locals) :
  main_setup args tr = (Ret l, tr') ->
  exists id,
    model args = Some id
    /\ (occurs_in "30b" id \/ occurs_in "65b" id \/ occurs_in "70b" id ->
        exists d, hf_device_map (l_model l) !! "lm_head" = Some d
                  /\ l_device l = MapDevice d)
    /\ (~ (occurs_in "30b" id \/ occurs_in "65b" id \/ occurs_in "70b" id) ->
        l_device l = TorchDevice "cuda:0").
Proof.
  clear prune check_sparsity eval_ppl fmt4 path_exists makedirs write_file
    save_model_pretrained save_tokenizer_pretrained.
  intros H. apply main_setup_ret in H as (id & Hid & _ & _ & _ & Hdev & _).
  exists id. split; [exact Hid|].
  assert (Hm : has_size_marker id = true
               <-> occurs_in "30b" id \/ occurs_in "65b" id \/ occurs_in "70b" id).
  { unfold has_size_marker. rewrite !orb_true_iff, !contains_spec. tauto. }
  destruct (has_size_marker id).
  - split; [intros _; exact Hdev|]. intros Hn. exfalso. apply Hn, Hm. reflexivity.
  - split; [|intros _; exact Hdev]. intros Ho. apply Hm in Ho. discriminate.
Qed.

(** C10. The steps after the corpus selection do not read
    [dataset_name]: two runs whose locals differ at most in it make the
    same calls, in the same order, with the same outcome. *)
Theorem dataset_name_unused (l1 l2 : Locals) (tr : list Event) :
  agree_but_dataset_name l1 l2 ->
  main_run l1 tr = main_run l2 tr.
Proof.
  destruct l1, l2. unfold agree_but_dataset_name. cbn.
  intros (-> & -> & -> & -> & -> & -> & ->). reflexivity.
Qed.

End DriverProofs.

(** ** The driver at work on the small instance *)

Import Toy.

Lemma structured_ratio_checked_witness :
  toy_main (toy_args "facebook/opt-125m" (Finite (3 # 10)) (Some "2:4")
              (Some "wanda")) []
  = (Raise AssertionError, [NpRandomSeed 0; TorchManualSeed 0]).
Proof.
  destruct (proj1 (structured_ratio_checked (P := unit)
                     toy_model_from_pretrained true (fun _ _ => tt)
                     toy_tokenizer_from_pretrained toy_prune toy_check_sparsity
                     toy_eval_ppl toy_fmt4 toy_path_exists toy_makedirs
                     toy_write_file toy_save_model toy_save_tokenizer
                     (toy_args "facebook/opt-125m" (Finite (3 # 10))
                        (Some "2:4") (Some "wanda")))
              eq_refl eq_refl []) as [_ H].
  apply H. cbn. lia.
Defined.

(** [python main.py --model facebook/opt-125m --sparsity_ratio 0.5
    --sparsity_type unstructured --save out], no [--prune_method]: the
    run invokes no criterion and ends normally. *)
Lemma dispatch_by_method_witness :
  float_eqb (Finite (1 # 2)) (Finite 0) = false
  /\ exists l tr1 m tr',
      toy_main_setup (toy_args "facebook/opt-125m" (Finite (1 # 2))
                        (Some "unstructured") None) []
      = (Ret l, tr1)
      /\ Main.dispatch toy_prune l tr1 = (Ret (l_model l), tr1)
      /\ toy_main (toy_args "facebook/opt-125m" (Finite (1 # 2))
                     (Some "unstructured") None) []
         = (Ret m, tr')
      /\ m = l_model l
      /\ prune_calls tr' = [].
Proof.
  split; [reflexivity|].
  destruct (toy_main_setup (toy_args "facebook/opt-125m" (Finite (1 # 2))
                              (Some "unstructured") None) [])
    as [[l|e|] tr1] eqn:E;
    [|vm_compute in E; discriminate|vm_compute in E; discriminate].
  destruct (dispatch_by_method (P := unit)
              toy_model_from_pretrained true (fun _ _ => tt)
              toy_tokenizer_from_pretrained toy_prune toy_check_sparsity
              toy_eval_ppl toy_fmt4 toy_path_exists toy_makedirs
              toy_write_file toy_save_model toy_save_tokenizer _ _ _ _ E)
    as (_ & _ & H & _).
  destruct (H eq_refl) as (Hd & Hmain & Hcalls).
  destruct (toy_main (toy_args "facebook/opt-125m" (Finite (1 # 2))
                        (Some "unstructured") None) [])
    as [[m|e|] tr'] eqn:Em.
  - exists l, tr1, m, tr'. split; [reflexivity|]. split; [exact Hd|].
    split; [reflexivity|]. split.
    + unfold toy_main in Em. rewrite Hmain in Em.
      vm_compute in E. injection E as <- <-.
      vm_compute in Em. injection Em as <- _. reflexivity.
    + exact (Hcalls _ _ Em).
  - vm_compute in Em. discriminate.
  - vm_compute in Em. discriminate.
Defined.

(** On the small instance the output head sits on device 3. An
    identifier with the marker in lower case selects it;
    [meta-llama/Meta-Llama-3-70B], with the marker in upper case, keeps
    the default device. *)
Lemma device_follows_size_marker_witness :
  (exists l tr,
      toy_main_setup (toy_args "meta-llama/Llama-2-70b-hf" (Finite 0)
                        (Some "unstructured") None) []
      = (Ret l, tr)
      /\ hf_device_map (l_model l) !! "lm_head" = Some 3
      /\ l_device l = MapDevice 3)
  /\ occurs_in "70B" "meta-llama/Meta-Llama-3-70B"
  /\ exists l tr,
      toy_main_setup (toy_args "meta-llama/Meta-Llama-3-70B" (Finite 0)
                        (Some "unstructured") None) []
      = (Ret l, tr)
      /\ hf_device_map (l_model l) !! "lm_head" = Some 3
      /\ l_device l = TorchDevice "cuda:0".
Proof.
  split; [|split].
  - destruct (toy_main_setup (toy_args "meta-llama/Llama-2-70b-hf" (Finite 0)
                                (Some "unstructured") None) [])
      as [[l|e|] tr] eqn:E;
      [|vm_compute in E; discriminate|vm_compute in E; discriminate].
    destruct (device_follows_size_marker (P := unit)
                toy_model_from_pretrained true (fun _ _ => tt)
                toy_tokenizer_from_pretrained _ _ _ _ E)
      as (id & Hid & Hyes & _).
    injection Hid as <-.
    destruct Hyes as (d & Hd & Hdev).
    { right. right. exists "meta-llama/Llama-2-", "-hf". reflexivity. }
    exists l, tr. split; [reflexivity|].
    assert (Hd3 : hf_device_map (l_model l) !! "lm_head" = Some 3).
    { vm_compute in E. injection E as <- _. reflexivity. }
    rewrite Hd3 in Hd. injection Hd as <-. auto.
  - exists "meta-llama/Meta-Llama-3-", "". reflexivity.
  - destruct (toy_main_setup (toy_args "meta-llama/Meta-Llama-3-70B" (Finite 0)
                                (Some "unstructured") None) [])
      as [[l|e|] tr] eqn:E;
      [|vm_compute in E; discriminate|vm_compute in E; discriminate].
    destruct (device_follows_size_marker (P := unit)
                toy_model_from_pretrained true (fun _ _ => tt)
                toy_tokenizer_from_pretrained _ _ _ _ E)
      as (id & Hid & _ & Hno).
    injection Hid as <-.
    exists l, tr. split; [reflexivity|]. split.
    + vm_compute in E. injection E as <- _. reflexivity.
    + apply Hno. intros [H|[H|H]]; apply contains_spec in H;
        vm_compute in H; discriminate.
Defined.

Lemma dataset_name_unused_witness :
  toy_main_run (toy_locals "c4") [] = toy_main_run (toy_locals "qwen2.5-vl") [].
Proof.
  apply (dataset_name_unused toy_prune toy_check_sparsity toy_eval_ppl toy_fmt4
           toy_path_exists toy_makedirs toy_write_file toy_save_model
           toy_save_tokenizer (toy_locals "c4") (toy_locals "qwen2.5-vl") []).
  repeat split.
Defined.

End MainProofs.

(* ===================================================================== *)
(** * Further properties of lib/data.py *)
(* ===================================================================== *)

Module DataExtra.
Import Py Data Main Contracts Behaviour DataProofs.

Lemma state_eta {G} (st : RandomState G) :
  {| gen := gen st; draws := draws st |} = st.
Proof. destruct st. reflexivity. Qed.

Section SamplerExtra.

Context {G : Type}.
Variable rng_seed : Z -> G.
Variable rng_draw : Z -> Z -> G -> Z * G.
Variables wikitext_train wikitext_test c4_train c4_validation : list string.

Local Notation randint := (randint rng_draw).
Local Notation sample_window := (sample_window rng_draw).
Local Notation c4_draw_record := (c4_draw_record rng_draw).
Local Notation get_wikitext2 :=
  (get_wikitext2 rng_seed rng_draw wikitext_train wikitext_test).
Local Notation get_c4 := (get_c4 rng_seed rng_draw c4_train c4_validation).
Local Notation get_loaders :=
  (get_loaders rng_seed rng_draw wikitext_train wikitext_test
     c4_train c4_validation).
Local Notation offsets_from := (offsets_from rng_draw).
Local Notation gen_after_offsets := (gen_after_offsets rng_draw).

Lemma offsets_from_length (hi : Z) (n : nat) (g : G) :
  length (offsets_from hi n g) = n.
Proof. revert g. induction n as [|n IH]; intros g; simpl; auto. Qed.

(** Over an encoding with more than [seqlen] tokens the sampling loop
    runs to its end: one draw and one window per iteration. *)
Lemma for_range_windows (enc : BatchEncoding) (seqlen : Z) (n : nat) :
  shape1 (input_ids enc) > seqlen ->
  forall acc st,
    for_range n (sample_window enc seqlen) acc st
    = (Ret (acc ++ map (window_at enc seqlen)
                     (offsets_from (shape1 (input_ids enc) - seqlen - 1) n (gen st))),
       {| gen := gen_after_offsets (shape1 (input_ids enc) - seqlen - 1) n (gen st);
          draws := draws st
                   ++ offsets_from (shape1 (input_ids enc) - seqlen - 1) n (gen st) |}).
Proof.
  intros HL. induction n as [|n IH]; intros acc st.
  - cbn. unfold ret. rewrite !app_nil_r, state_eta. reflexivity.
  - cbn [for_range]. unfold bind at 1.
    unfold Data.sample_window at 1. unfold bind at 1.
    rewrite randint_ok by lia. unfold ret at 1.
    rewrite IH. cbn [gen draws Behaviour.offsets_from Behaviour.gen_after_offsets map].
    rewrite <- !app_assoc. reflexivity.
Qed.

(** X1. When the encoded train split has more than [seqlen] tokens,
    [get_wikitext2] returns: its samples are the windows at
    [nsamples] successive draws of [randint(0, L - seqlen - 1)] from the
    reseeded generator, in the order drawn, those offsets are what it
    adds to the log of draws, and there are [nsamples] of them. *)
Theorem wikitext2_closed_form (nsamples seed seqlen : Z) (tokenizer : Tokenizer)
    (st : RandomState G) :
  let max_length := getattr_model_max_length tokenizer seqlen in
  let trainenc := tok_call tokenizer (join " " wikitext_train) max_length in
  let testenc :=
    tok_call tokenizer (join (String "010" (String "010" "")) wikitext_test)
      max_length in
  let hi := shape1 (input_ids trainenc) - seqlen - 1 in
  let offsets := offsets_from hi (Z.to_nat nsamples) (rng_seed seed) in
  shape1 (input_ids trainenc) > seqlen ->
  get_wikitext2 nsamples seed seqlen tokenizer st
  = (Ret (map (window_at trainenc seqlen) offsets, TestEnc testenc),
     {| gen := gen_after_offsets hi (Z.to_nat nsamples) (rng_seed seed);
        draws := draws st ++ offsets |})
  /\ length (map (window_at trainenc seqlen) offsets) = Z.to_nat nsamples.
Proof.
  intros max_length trainenc testenc hi offsets HL. split.
  - unfold Data.get_wikitext2. unfold bind at 1. unfold random_seed.
    unfold bind at 1. fold max_length. fold trainenc.
    rewrite (for_range_windows trainenc seqlen _ HL). reflexivity.
  - rewrite length_map. apply offsets_from_length.
Qed.

(** With at most [seqlen] tokens in the encoded train split the first
    draw of [get_wikitext2] is over an empty range. *)
Lemma wikitext2_first_draw_raises (nsamples seed seqlen : Z)
    (tokenizer : Tokenizer) (st : RandomState G) :
  shape1 (input_ids (tok_call tokenizer (join " " wikitext_train)
                       (getattr_model_max_length tokenizer seqlen))) <= seqlen ->
  1 <= nsamples ->
  get_wikitext2 nsamples seed seqlen tokenizer st
  = (Raise ValueError, {| gen := rng_seed seed; draws := draws st |}).
Proof.
  intros HL Hn. unfold Data.get_wikitext2. unfold bind at 1.
  unfold random_seed. unfold bind at 1.
  destruct (Z.to_nat nsamples) as [|n] eqn:En; [lia|].
  cbn [for_range]. unfold bind at 1. unfold Data.sample_window.
  unfold bind at 1. rewrite randint_empty by lia. reflexivity.
Qed.

(** X2. When the encoded train split has at most [seqlen] tokens and at
    least one sample is asked for, [get_wikitext2] raises [ValueError] at
    its first draw: the generator is reseeded, nothing is drawn. With
    [nsamples <= 0] it returns an empty set whatever the split holds. *)
Theorem wikitext2_short_corpus (nsamples seed seqlen : Z) (tokenizer : Tokenizer)
    (st : RandomState G) :
  let max_length := getattr_model_max_length tokenizer seqlen in
  let trainenc := tok_call tokenizer (join " " wikitext_train) max_length in
  let testenc :=
    tok_call tokenizer (join (String "010" (String "010" "")) wikitext_test)
      max_length in
  (shape1 (input_ids trainenc) <= seqlen -> 1 <= nsamples ->
   get_wikitext2 nsamples seed seqlen tokenizer st
   = (Raise ValueError, {| gen := rng_seed seed; draws := draws st |}))
  /\ (nsamples <= 0 ->
      get_wikitext2 nsamples seed seqlen tokenizer st
      = (Ret ([], TestEnc testenc), {| gen := rng_seed seed; draws := draws st |})).
Proof.
  intros max_length trainenc testenc. split.
  - intros HL Hn. apply wikitext2_first_draw_raises; assumption.
  - intros Hn. unfold Data.get_wikitext2. unfold bind at 1.
    unfold random_seed. unfold bind at 1.
    replace (Z.to_nat nsamples) with 0%nat by lia. reflexivity.
Qed.

(** X3. If the tokenizer keeps to its cap and the cap in force is at most
    [seqlen] (as it is when the tokenizer has no [model_max_length], the
    cap then being [seqlen] itself), no window of [seqlen] tokens plus
    one fits: [get_wikitext2] raises [ValueError] for every
    [nsamples >= 1]. *)
Theorem wikitext2_cap_defeats_sampling (nsamples seed seqlen : Z)
    (tokenizer : Tokenizer) (st : RandomState G) :
  honours_cap tokenizer ->
  0 <= getattr_model_max_length tokenizer seqlen <= seqlen ->
  1 <= nsamples ->
  get_wikitext2 nsamples seed seqlen tokenizer st
  = (Raise ValueError, {| gen := rng_seed seed; draws := draws st |}).
Proof.
  intros Hcap [Hlo Hhi] Hn.
  apply wikitext2_first_draw_raises; [|exact Hn].
  unfold shape1.
  pose proof (Hcap (join " " wikitext_train) _ Hlo). lia.
Qed.

(** X4. Under the same cap no record of the c4 train split is ever long
    enough: over a non-empty split and for [nsamples >= 1] the rejection
    loop of [get_c4] goes on for ever. *)
Theorem c4_cap_defeats_sampling (nsamples seed seqlen : Z)
    (tokenizer : Tokenizer) :
  randint_contract rng_draw ->
  c4_train <> [] ->
  honours_cap tokenizer ->
  0 <= getattr_model_max_length tokenizer seqlen <= seqlen ->
  1 <= nsamples ->
  forall fuel st,
    fst (get_c4 fuel nsamples seed seqlen tokenizer st) = OutOfFuel.
Proof.
  intros Hrng Hne Hcap [Hlo Hhi] Hn fuel st.
  assert (Hall : forall i,
             is_long c4_train tokenizer
               (getattr_model_max_length tokenizer seqlen) seqlen i = false).
  { intros i. unfold is_long, record_encoding.
    destruct (c4_train !! Z.to_nat i) as [text|]; [|reflexivity].
    pose proof (Hcap text _ Hlo). unfold shape1.
    destruct (Z.gtb_spec
                (len (input_ids (tok_call tokenizer text
                        (getattr_model_max_length tokenizer seqlen)))) seqlen);
      [lia|reflexivity]. }
  destruct (Z.to_nat nsamples) as [|n] eqn:En; [lia|].
  pose proof (iteration_starves rng_draw c4_train tokenizer _ seqlen Hrng Hne
                fuel n [] {| gen := rng_seed seed; draws := draws st |} Hall) as E.
  unfold Data.get_c4. unfold bind at 1. unfold random_seed.
  unfold bind at 1. rewrite En.
  match type of E with
  | fst ?t = _ => destruct t as [o st1]
  end.
  simpl in E. subst o. reflexivity.
Qed.

(** X5. Over an empty train split the first record draw of [get_c4] is
    [randint(0, -1)]: for [nsamples >= 1] it raises [ValueError] before
    anything is drawn. *)
Theorem c4_empty_train_raises (fuel : nat) (nsamples seed seqlen : Z)
    (tokenizer : Tokenizer) (st : RandomState G) :
  1 <= nsamples ->
  Data.get_c4 rng_seed rng_draw [] c4_validation (S fuel) nsamples seed seqlen
    tokenizer st
  = (Raise ValueError, {| gen := rng_seed seed; draws := draws st |}).
Proof.
  intros Hn. unfold Data.get_c4. unfold bind at 1. unfold random_seed.
  unfold bind at 1.
  destruct (Z.to_nat nsamples) as [|n] eqn:En; [lia|].
  cbn [for_range]. unfold bind at 1. unfold bind at 1.
  cbn [Data.c4_draw_record]. unfold bind at 1.
  rewrite randint_empty by (unfold len; simpl; lia). reflexivity.
Qed.

(** A slice inside a sequence is the segment at its lower bound. *)
Lemma slice_segment {A} (l : list A) (i n : Z) :
  0 <= i -> 0 <= n -> i + n <= len l ->
  segment_at l (slice l i (i + n)) i.
Proof.
  intros Hi Hn Hle.
  destruct (slice_inside l i n Hi Hn Hle) as [E _]. rewrite E.
  exists (take (Z.to_nat i) l), (drop (Z.to_nat n) (drop (Z.to_nat i) l)).
  split.
  - rewrite (take_drop (Z.to_nat n)), take_drop. reflexivity.
  - unfold len in *. rewrite length_take. lia.
Qed.

(** A window at an offset in range lies in the encoding: ids and mask
    at the same position. *)
Lemma window_segments (enc : BatchEncoding) (seqlen i : Z) (s : Sample) :
  0 <= seqlen ->
  length (attention_mask enc) = length (input_ids enc) ->
  offset_in_range enc seqlen i ->
  window_of enc seqlen i s ->
  segment_at (input_ids enc) (fst (fst s)) i
  /\ segment_at (attention_mask enc) (snd (fst s)) i.
Proof.
  intros Hs Hal [Hlo Hhi] ->. cbn [fst snd]. unfold shape1 in *. split.
  - apply slice_segment; lia.
  - apply slice_segment; unfold len in *; lia.
Qed.

(** X6. Every sample either loader returns is a contiguous piece of the
    encoding it was cut from: the input window and the attention window
    sit at one and the same position of the ids and of the mask. *)
Theorem samples_are_segments (nsamples seed seqlen : Z) (tokenizer : Tokenizer) :
  randint_contract rng_draw -> aligned tokenizer -> 0 <= seqlen ->
  let max_length := getattr_model_max_length tokenizer seqlen in
  (forall st st' loader ev,
      get_wikitext2 nsamples seed seqlen tokenizer st = (Ret (loader, ev), st') ->
      let trainenc := tok_call tokenizer (join " " wikitext_train) max_length in
      Forall (fun s => exists i,
                  segment_at (input_ids trainenc) (fst (fst s)) i
                  /\ segment_at (attention_mask trainenc) (snd (fst s)) i)
             loader)
  /\ (forall fuel st st' loader ev,
        get_c4 fuel nsamples seed seqlen tokenizer st = (Ret (loader, ev), st') ->
        Forall (fun s => exists (k : nat) text i,
                    c4_train !! k = Some text
                    /\ segment_at (input_ids (tok_call tokenizer text max_length))
                         (fst (fst s)) i
                    /\ segment_at (attention_mask (tok_call tokenizer text max_length))
                         (snd (fst s)) i)
               loader).
Proof.
  intros Hrng Hal Hs max_length. split.
  - intros st st' loader ev H trainenc.
    apply get_wikitext2_windows in H as [HF _]; [|exact Hrng].
    eapply Forall_impl; [exact HF|].
    intros s (i & Hi & Hw). exists i.
    eapply window_segments; eauto.
  - intros fuel st st' loader ev H.
    apply get_c4_windows in H as (HF & _); [|exact Hrng].
    eapply Forall_impl; [exact HF|].
    intros s (k & text & i & Hk & _ & Hi & Hw). exists k, text, i.
    split; [exact Hk|]. eapply window_segments; eauto.
Qed.

(** The evaluation encoding of the wikitext2 loader, whatever was drawn. *)
Lemma get_wikitext2_eval (nsamples seed seqlen : Z) (tokenizer : Tokenizer)
    (st st' : RandomState G) (loader : list Sample) (ev : EvalEncoding) :
  get_wikitext2 nsamples seed seqlen tokenizer st = (Ret (loader, ev), st') ->
  ev = TestEnc (tok_call tokenizer
                  (join (String "010" (String "010" "")) wikitext_test)
                  (getattr_model_max_length tokenizer seqlen)).
Proof.
  intros H. unfold Data.get_wikitext2 in H.
  unfold bind at 1 in H. unfold random_seed in H.
  unfold bind at 1 in H.
  match type of H with
  | context [for_range ?n ?b ?a ?s] =>
      destruct (for_range n b a s) as [[r|e|] st1]; try discriminate
  end.
  unfold ret in H. injection H as <- <- <-. reflexivity.
Qed.

(** What [get_loaders] returned came from the loader its name selects. *)
Lemma get_loaders_ret (fuel : nat) (name : string) (nsamples seed seqlen : Z)
    (tokenizer : Tokenizer) (st st' : RandomState G)
    (loader : list Sample) (ev : EvalEncoding) :
  get_loaders fuel name nsamples seed seqlen tokenizer st
  = (Ret (Some (loader, ev)), st') ->
  (contains "wikitext2" name = true
   /\ get_wikitext2 nsamples seed seqlen tokenizer st = (Ret (loader, ev), st'))
  \/ (contains "wikitext2" name = false /\ contains "c4" name = true
      /\ get_c4 fuel nsamples seed seqlen tokenizer st = (Ret (loader, ev), st')).
Proof.
  intros H. unfold Data.get_loaders in H.
  destruct (contains "wikitext2" name).
  - left. split; [reflexivity|]. unfold bind in H.
    destruct (get_wikitext2 _ _ _ _ st) as [[r|e|] st1]; try discriminate.
    unfold ret in H. injection H as -> ->. reflexivity.
  - destruct (contains "c4" name); [|discriminate].
    right. split; [reflexivity|]. split; [reflexivity|]. unfold bind in H.
    destruct (get_c4 _ _ _ _ _ st) as [[r|e|] st1]; try discriminate.
    unfold ret in H. injection H as -> ->. reflexivity.
Qed.

(** X7. The evaluation encoding a loader returns depends on the corpus
    name, [seqlen] and the tokenizer only: two runs of [get_loaders] that
    differ in [nsamples], in the seed, in the state of the generator and
    in the number of retries return the same evaluation encoding. *)
Theorem eval_encoding_independent_of_sampling (name : string) (seqlen : Z)
    (tokenizer : Tokenizer)
    (f1 f2 : nat) (n1 n2 seed1 seed2 : Z) (st1 st2 st1' st2' : RandomState G)
    (l1 l2 : list Sample) (ev1 ev2 : EvalEncoding) :
  get_loaders f1 name n1 seed1 seqlen tokenizer st1 = (Ret (Some (l1, ev1)), st1') ->
  get_loaders f2 name n2 seed2 seqlen tokenizer st2 = (Ret (Some (l2, ev2)), st2') ->
  ev1 = ev2.
Proof.
  intros H1 H2.
  apply get_loaders_ret in H1 as [[C1 H1]|(C1 & _ & H1)];
    apply get_loaders_ret in H2 as [[C2 H2]|(C2 & _ & H2)];
    try congruence.
  - apply get_wikitext2_eval in H1, H2. congruence.
  - apply get_c4_eval in H1, H2. congruence.
Qed.

(** X8. On the c4 path a validation split of at most 1100 records whose
    encoding has at most [256 * seqlen] tokens is kept whole: nothing is
    cut and nothing is padded. *)
Theorem c4_short_validation_kept_whole (fuel : nat) (nsamples seed seqlen : Z)
    (tokenizer : Tokenizer) (st st' : RandomState G)
    (loader : list Sample) (ev : EvalEncoding) :
  let valenc := tok_call tokenizer (join " " c4_validation)
                  (getattr_model_max_length tokenizer seqlen) in
  get_c4 fuel nsamples seed seqlen tokenizer st = (Ret (loader, ev), st') ->
  (length c4_validation <= 1100)%nat ->
  len (input_ids valenc) <= 256 * seqlen ->
  ev = ValEnc {| tw_input_ids := input_ids valenc |}.
Proof.
  intros valenc H Hrec Hlen. apply get_c4_eval in H. subst ev.
  pose proof (len_nonneg (input_ids valenc)).
  rewrite (slice_to_take c4_validation 1100) by lia.
  rewrite (take_ge c4_validation) by (change (Z.to_nat 1100) with 1100%nat; lia).
  fold valenc. rewrite slice_to_take by lia.
  rewrite take_ge by (unfold len in *; lia). reflexivity.
Qed.

(** X9. [get_loaders] selects by substring, wikitext2 first: a name that
    contains neither ["wikitext2"] nor ["c4"] returns [None] and leaves
    the generator as it was (no reseed, no draw); what is returned under
    a name containing ["wikitext2"] is the wikitext2 loader's result,
    also when the name contains ["c4"] as well. *)
Theorem loaders_selected_by_substring (fuel : nat) (name : string)
    (nsamples seed seqlen : Z) (tokenizer : Tokenizer) (st : RandomState G) :
  (~ occurs_in "wikitext2" name -> ~ occurs_in "c4" name ->
   get_loaders fuel name nsamples seed seqlen tokenizer st = (Ret None, st))
  /\ (forall loader ev st',
        get_loaders fuel name nsamples seed seqlen tokenizer st
        = (Ret (Some (loader, ev)), st') ->
        (occurs_in "wikitext2" name
         /\ get_wikitext2 nsamples seed seqlen tokenizer st = (Ret (loader, ev), st'))
        \/ (~ occurs_in "wikitext2" name /\ occurs_in "c4" name
            /\ get_c4 fuel nsamples seed seqlen tokenizer st
               = (Ret (loader, ev), st'))).
Proof.
  split.
  - intros Hw Hc. unfold Data.get_loaders.
    destruct (contains "wikitext2" name) eqn:Ew.
    { exfalso. apply Hw, MainProofs.contains_spec. exact Ew. }
    destruct (contains "c4" name) eqn:Ec.
    { exfalso. apply Hc, MainProofs.contains_spec. exact Ec. }
    reflexivity.
  - intros loader ev st' H.
    apply get_loaders_ret in H as [[C H]|(C & C' & H)].
    + left. split; [apply MainProofs.contains_spec; exact C|exact H].
    + right. split; [|split; [apply MainProofs.contains_spec; exact C'|exact H]].
      intros Ho. apply MainProofs.contains_spec in Ho. congruence.
Qed.

(** A loop whose body adds at least [k] to a measure of the state adds
    at least [n * k] over [n] iterations. *)
Lemma for_range_growth {S A} (f : S -> nat) (k : nat) (body : Py.M S A) :
  (forall st a st', body st = (Ret a, st') -> (f st + k <= f st')%nat) ->
  forall n acc st r st',
    for_range n body acc st = (Ret r, st') -> (f st + n * k <= f st')%nat.
Proof.
  intros Hb. induction n as [|n IH]; intros acc st r st' H.
  - cbn in H. injection H as _ <-. lia.
  - cbn [for_range] in H. unfold bind at 1 in H.
    destruct (body st) as [[a|e|] st1] eqn:Eb; try discriminate.
    apply Hb in Eb. apply IH in H. lia.
Qed.

(** A run of the rejection loop that returned drew at least once. *)
Lemma c4_draw_record_draws (fuel : nat) (traindata : list string)
    (tokenizer : Tokenizer) (max_length seqlen : Z) :
  forall st st' enc,
    c4_draw_record fuel traindata tokenizer max_length seqlen st = (Ret enc, st') ->
    (length (draws st) + 1 <= length (draws st'))%nat.
Proof.
  induction fuel as [|fuel IH]; intros st st' enc H.
  - discriminate.
  - cbn [Data.c4_draw_record] in H. unfold bind at 1 in H.
    destruct (randint _ _ st) as [[i|e|] st1] eqn:Er; try discriminate.
    apply randint_ret in Er as (_ & _ & _ & Hd).
    unfold bind at 1 in H. unfold lift in H.
    destruct (getitem traindata i) as [text|e|]; try discriminate.
    destruct (_ >? seqlen).
    + unfold ret in H. injection H as _ <-. rewrite Hd, length_app. simpl. lia.
    + apply IH in H. rewrite Hd, length_app in H. simpl in H. lia.
Qed.

(** X10. A run of [get_c4] that returned made at least two draws for
    each sample: one or more record draws and one offset draw. *)
Theorem c4_two_draws_per_sample (fuel : nat) (nsamples seed seqlen : Z)
    (tokenizer : Tokenizer) (st st' : RandomState G)
    (loader : list Sample) (ev : EvalEncoding) :
  get_c4 fuel nsamples seed seqlen tokenizer st = (Ret (loader, ev), st') ->
  (length (draws st) + 2 * Z.to_nat nsamples <= length (draws st'))%nat.
Proof.
  intros H. unfold Data.get_c4 in H.
  unfold bind at 1 in H. unfold random_seed in H.
  unfold bind at 1 in H.
  match type of H with
  | context [for_range ?n ?b ?a ?s] =>
      destruct (for_range n b a s) as [[r|e|] st1] eqn:Ef; try discriminate
  end.
  unfold ret in H. injection H as _ _ <-.
  apply (for_range_growth (fun s => length (draws s)) 2) in Ef;
    [cbn [draws] in Ef; lia|].
  intros st0 a st0' Hb. unfold bind at 1 in Hb.
  destruct (c4_draw_record _ _ _ _ _ st0) as [[enc|e|] st2] eqn:Ed;
    try discriminate.
  apply c4_draw_record_draws in Ed.
  unfold Data.sample_window, bind in Hb.
  destruct (randint _ _ st2) as [[i|e|] st3] eqn:Er; try discriminate.
  apply randint_ret in Er as (_ & _ & _ & Hd).
  unfold ret in Hb. injection Hb as _ <-.
  rewrite Hd, length_app. simpl. lia.
Qed.

End SamplerExtra.

(** ** The further properties at work on the small instance *)

Import Toy.

Lemma toy_honours_cap : honours_cap uncapped_tokenizer.
Proof.
  intros text m Hm. cbn. unfold toy_call, len. cbn [input_ids].
  rewrite length_take. lia.
Qed.

Lemma wikitext2_closed_form_witness :
  draws (snd (get_wikitext2 toy_seed toy_draw toy_wikitext_train
                toy_wikitext_test 3 7 4 toy_tokenizer
                {| gen := 99; draws := [] |}))
  = offsets_from toy_draw 38 3 7.
Proof.
  destruct (wikitext2_closed_form toy_seed toy_draw toy_wikitext_train
              toy_wikitext_test 3 7 4 toy_tokenizer
              {| gen := 99; draws := [] |}) as [E _].
  - vm_compute. reflexivity.
  - rewrite E. reflexivity.
Defined.

Lemma wikitext2_short_corpus_witness :
  get_wikitext2 toy_seed toy_draw toy_wikitext_train toy_wikitext_test
    3 7 100 toy_tokenizer {| gen := 99; draws := [] |}
  = (Raise ValueError, {| gen := 7; draws := [] |}).
Proof.
  apply (proj1 (wikitext2_short_corpus toy_seed toy_draw toy_wikitext_train
                  toy_wikitext_test 3 7 100 toy_tokenizer
                  {| gen := 99; draws := [] |})).
  - vm_compute. discriminate.
  - lia.
Defined.

Lemma wikitext2_cap_defeats_sampling_witness :
  get_wikitext2 toy_seed toy_draw toy_wikitext_train toy_wikitext_test
    3 7 4 uncapped_tokenizer {| gen := 99; draws := [] |}
  = (Raise ValueError, {| gen := 7; draws := [] |}).
Proof.
  apply (wikitext2_cap_defeats_sampling toy_seed toy_draw toy_wikitext_train
           toy_wikitext_test 3 7 4 uncapped_tokenizer
           {| gen := 99; draws := [] |} toy_honours_cap).
  - cbn. lia.
  - lia.
Defined.

Lemma c4_cap_defeats_sampling_witness :
  fst (get_c4 toy_seed toy_draw toy_c4_train toy_c4_validation
         1000 3 7 4 uncapped_tokenizer {| gen := 99; draws := [] |})
  = OutOfFuel.
Proof.
  apply (c4_cap_defeats_sampling toy_seed toy_draw toy_c4_train
           toy_c4_validation 3 7 4 uncapped_tokenizer toy_draw_contract).
  - discriminate.
  - exact toy_honours_cap.
  - cbn. lia.
  - lia.
Defined.

Lemma c4_empty_train_raises_witness :
  get_c4 toy_seed toy_draw [] toy_c4_validation 6 3 7 4 toy_tokenizer
    {| gen := 99; draws := [] |}
  = (Raise ValueError, {| gen := 7; draws := [] |}).
Proof.
  apply (c4_empty_train_raises toy_seed toy_draw toy_c4_validation 5 3 7 4
           toy_tokenizer {| gen := 99; draws := [] |}).
  lia.
Defined.

Lemma samples_are_segments_witness :
  Forall (fun s => exists i,
              segment_at (input_ids (toy_call (join " " toy_wikitext_train) 64))
                (fst (fst s)) i
              /\ segment_at (attention_mask
                              (toy_call (join " " toy_wikitext_train) 64))
                   (snd (fst s)) i)
         toy_wikitext_loader.
Proof.
  destruct (samples_are_segments toy_seed toy_draw toy_wikitext_train
              toy_wikitext_test toy_c4_train toy_c4_validation
              3 7 4 toy_tokenizer toy_draw_contract toy_aligned)
    as [Hw _]; [lia|].
  exact (Hw _ _ _ _ toy_wikitext_run).
Defined.

Lemma eval_encoding_independent_of_sampling_witness :
  match
    fst (get_loaders toy_seed toy_draw toy_wikitext_train toy_wikitext_test
           toy_c4_train toy_c4_validation 5 "c4" 3 7 4 toy_tokenizer
           {| gen := 99; draws := [] |}),
    fst (get_loaders toy_seed toy_draw toy_wikitext_train toy_wikitext_test
           toy_c4_train toy_c4_validation 9 "c4" 2 11 4 toy_tokenizer
           {| gen := 5; draws := [] |})
  with
  | Ret (Some (_, ev1)), Ret (Some (_, ev2)) => ev1 = ev2
  | _, _ => False
  end.
Proof.
  destruct (get_loaders toy_seed toy_draw toy_wikitext_train toy_wikitext_test
              toy_c4_train toy_c4_validation 5 "c4" 3 7 4 toy_tokenizer
              {| gen := 99; draws := [] |})
    as [[[[l1 ev1]|]|e1|] s1] eqn:E1;
    try (vm_compute in E1; discriminate).
  destruct (get_loaders toy_seed toy_draw toy_wikitext_train toy_wikitext_test
              toy_c4_train toy_c4_validation 9 "c4" 2 11 4 toy_tokenizer
              {| gen := 5; draws := [] |})
    as [[[[l2 ev2]|]|e2|] s2] eqn:E2;
    try (vm_compute in E2; discriminate).
  cbn [fst].
  exact (eval_encoding_independent_of_sampling toy_seed toy_draw
           toy_wikitext_train toy_wikitext_test toy_c4_train toy_c4_validation
           "c4" 4 toy_tokenizer _ _ _ _ _ _ _ _ _ _ _ _ _ _ E1 E2).
Defined.

Lemma c4_short_validation_kept_whole_witness :
  toy_c4_eval
  = ValEnc {| tw_input_ids :=
                input_ids (toy_call (join " " toy_c4_validation) 64) |}.
Proof.
  apply (c4_short_validation_kept_whole toy_seed toy_draw toy_c4_train
           toy_c4_validation 5 3 7 4 toy_tokenizer _ _ _ _ toy_c4_run).
  - simpl. lia.
  - vm_compute. discriminate.
Defined.

Lemma loaders_selected_by_substring_witness :
  get_loaders toy_seed toy_draw toy_wikitext_train toy_wikitext_test
    toy_c4_train toy_c4_validation 5 "ptb" 3 7 4 toy_tokenizer
    {| gen := 99; draws := [] |}
  = (Ret None, {| gen := 99; draws := [] |}).
Proof.
  apply (proj1 (loaders_selected_by_substring toy_seed toy_draw
                  toy_wikitext_train toy_wikitext_test toy_c4_train
                  toy_c4_validation 5 "ptb" 3 7 4 toy_tokenizer
                  {| gen := 99; draws := [] |})).
  - intros H. apply MainProofs.contains_spec in H. vm_compute in H. discriminate.
  - intros H. apply MainProofs.contains_spec in H. vm_compute in H. discriminate.
Defined.

Lemma c4_two_draws_per_sample_witness :
  (0 + 2 * Z.to_nat 3 <= length (draws (snd toy_c4_result)))%nat.
Proof.
  exact (c4_two_draws_per_sample toy_seed toy_draw toy_c4_train
           toy_c4_validation 5 3 7 4 toy_tokenizer _ _ _ _ toy_c4_run).
Defined.

End DataExtra.

(* ===================================================================== *)
(** * Further properties of main.py *)
(* ===================================================================== *)

Module MainExtra.
Import Py Main Behaviour MainProofs.

Lemma append_assoc (a b c : string) : (a +:+ b) +:+ c = a +:+ (b +:+ c).
Proof.
  induction a as [|x a IH]; [reflexivity|].
  rewrite !append_cons, IH. reflexivity.
Qed.

(** An identifier that contains ["qwen2.5-vl"] contains ["vl"]: the
    first test of lines 36 and 131 adds nothing to the second. *)
Lemma vl_test_redundant (s : string) :
  (contains "qwen2.5-vl" s || contains "vl" s)%bool = contains "vl" s.
Proof.
  destruct (contains "vl" s) eqn:Ev; [apply orb_true_r|].
  destruct (contains "qwen2.5-vl" s) eqn:Eq; [|reflexivity].
  apply contains_spec in Eq as (pre & post & ->).
  assert (contains "vl" (pre +:+ "qwen2.5-vl" +:+ post) = true); [|congruence].
  apply contains_spec. exists (pre +:+ "qwen2.5-"), post.
  rewrite append_assoc. reflexivity.
Qed.

Section DriverExtra.

Context {W D T P F : Type}.
Variable model_from_pretrained : ModelClass -> string -> string -> W * gmap string D.
Variable llava_importable : bool.
Variable processor_from_pretrained : string -> string -> P.
Variable tokenizer_from_pretrained : TokenizerClass -> string -> option T.
Variable prune :
  Criterion -> Args -> @Model W D -> T -> @Device D -> Z -> Z -> Z
  -> outcome (@Model W D).
Variable check_sparsity : @Model W D -> Args -> outcome F.
Variable eval_ppl : @Model W D -> T -> @Device D -> outcome F.
Variable fmt4 : F -> string.
Variable path_exists : string -> bool.
Variable makedirs : string -> outcome unit.
Variable write_file : string -> list string -> outcome unit.
Variable save_model_pretrained : @Model W D -> string -> outcome unit.
Variable save_tokenizer_pretrained : T -> string -> outcome unit.

Local Notation get_llm :=
  (get_llm model_from_pretrained llava_importable processor_from_pretrained).
Local Notation load_tokenizer :=
  (load_tokenizer (D := D) tokenizer_from_pretrained).
Local Notation main_setup :=
  (main_setup model_from_pretrained llava_importable processor_from_pretrained
     tokenizer_from_pretrained).
Local Notation dispatch := (dispatch prune).
Local Notation audit_evaluate_persist :=
  (audit_evaluate_persist check_sparsity eval_ppl fmt4 path_exists makedirs
     write_file save_model_pretrained save_tokenizer_pretrained).
Local Notation main_run :=
  (main_run prune check_sparsity eval_ppl fmt4 path_exists makedirs write_file
     save_model_pretrained save_tokenizer_pretrained).
Local Notation main :=
  (main model_from_pretrained llava_importable processor_from_pretrained
     tokenizer_from_pretrained prune check_sparsity eval_ppl fmt4 path_exists
     makedirs write_file save_model_pretrained save_tokenizer_pretrained).
Local Notation pruned := (pruned prune).

(** ** Blocks that make none of a kind of call *)

Section Silent.

Context {X : Type}.
Variable f : @Event D -> option X.

Lemma silent_ret {A} (a : A) : silent f (ret a).
Proof. intros tr o tr' [= <- <-]. reflexivity. Qed.

Lemma silent_raise {A} (e : exn) : silent (A := A) f (raise e).
Proof. intros tr o tr' [= <- <-]. reflexivity. Qed.

Lemma silent_lift {A} (o : outcome A) : silent f (lift o).
Proof. intros tr o' tr' [= <- <-]. reflexivity. Qed.

Lemma silent_emit (e : @Event D) : f e = None -> silent f (emit e).
Proof.
  intros He tr o tr' [= <- <-]. rewrite omap_app. cbn. rewrite He.
  apply app_nil_r.
Qed.

Lemma silent_bind {A B} (m : IO (D := D) A) (k : A -> IO (D := D) B) :
  silent f m -> (forall a, silent f (k a)) -> silent f (bind m k).
Proof.
  intros Hm Hk tr o tr' H. unfold bind in H.
  destruct (m tr) as [[a|e|] tr1] eqn:Em.
  - rewrite (Hk a _ _ _ H). exact (Hm _ _ _ Em).
  - injection H as <- <-. exact (Hm _ _ _ Em).
  - injection H as <- <-. exact (Hm _ _ _ Em).
Qed.

Lemma silent_try_except {A} (a b : IO (D := D) A) :
  silent f a -> silent f b -> silent f (try_except a b).
Proof.
  intros Ha Hb tr o tr' H. unfold try_except in H.
  destruct (a tr) as [[x|e|] tr1] eqn:Ea.
  - injection H as <- <-. exact (Ha _ _ _ Ea).
  - rewrite (Hb _ _ _ H). exact (Ha _ _ _ Ea).
  - injection H as <- <-. exact (Ha _ _ _ Ea).
Qed.

End Silent.

Ltac silent_step :=
  first
    [ apply silent_ret
    | apply silent_raise
    | apply silent_lift
    | apply silent_emit; reflexivity
    | apply silent_try_except
    | apply silent_bind; [|intros ?]
    | match goal with
      | |- silent _ (if ?c then _ else _) => destruct c
      | |- silent _ (match ?x with _ => _ end) => destruct x
      end ].

(** The setup writes no file, creates no directory and saves nothing. *)
Lemma setup_writes_nothing (args : Args) :
  silent (fun e => match e with WriteFile p _ => Some p | _ => None end)
    (main_setup args)
  /\ silent (fun e => match e with Makedirs p => Some p | _ => None end)
       (main_setup args)
  /\ silent (fun e => match e with
                      | SaveModel p => Some (true, p)
                      | SaveTokenizer p => Some (false, p)
                      | _ => None
                      end) (main_setup args).
Proof.
  repeat split;
    unfold Main.main_setup, np_random_seed, torch_manual_seed, Main.get_llm,
      Main.load_tokenizer;
    repeat silent_step.
Qed.

(** Nor does the dispatch. *)
Lemma dispatch_writes_nothing (l : Locals) :
  silent (fun e => match e with WriteFile p _ => Some p | _ => None end)
    (dispatch l)
  /\ silent (fun e => match e with Makedirs p => Some p | _ => None end)
       (dispatch l)
  /\ silent (fun e => match e with
                      | SaveModel p => Some (true, p)
                      | SaveTokenizer p => Some (false, p)
                      | _ => None
                      end) (dispatch l).
Proof.
  repeat split; unfold Main.dispatch, call_prune; repeat silent_step.
Qed.

(** The setup and the dispatch load no model and no tokenizer after
    line 120. *)
Lemma dispatch_loads_nothing (l : Locals) :
  silent (fun e => match e with
                   | ModelFromPretrained cls name _ => Some (cls, name)
                   | _ => None
                   end) (dispatch l)
  /\ silent (fun e => match e with
                      | TokenizerFromPretrained cls path => Some (cls, path)
                      | _ => None
                      end) (dispatch l).
Proof.
  split; unfold Main.dispatch, call_prune; repeat silent_step.
Qed.

(** Lines 148-165 load nothing. *)
Lemma finish_loads_nothing (l : Locals) (m : Model) :
  silent (fun e => match e with
                   | ModelFromPretrained cls name _ => Some (cls, name)
                   | _ => None
                   end) (audit_evaluate_persist l m)
  /\ silent (fun e => match e with
                      | TokenizerFromPretrained cls path => Some (cls, path)
                      | _ => None
                      end) (audit_evaluate_persist l m).
Proof.
  split; unfold Main.audit_evaluate_persist, os_path_exists, os_makedirs;
    repeat silent_step.
Qed.

(** Lines 133-165 load nothing. *)
Lemma run_loads_nothing (l : Locals) :
  silent (fun e => match e with
                   | ModelFromPretrained cls name _ => Some (cls, name)
                   | _ => None
                   end) (main_run l)
  /\ silent (fun e => match e with
                      | TokenizerFromPretrained cls path => Some (cls, path)
                      | _ => None
                      end) (main_run l).
Proof.
  destruct (dispatch_loads_nothing l) as [Hd1 Hd2].
  split; unfold Main.main_run; apply silent_bind; try assumption;
    intros m; apply finish_loads_nothing.
Qed.

(** How a run of [main] goes on after the setup: it ends there, or
    lines 133-165 run on the locals the setup left. *)
Lemma main_cases (args : Args) (tr : list Event) :
  (exists l tr1,
      main_setup args tr = (Ret l, tr1)
      /\ l_args l = args
      /\ main args tr = main_run l tr1)
  \/ ((forall l, fst (main_setup args tr) <> Ret l)
      /\ (forall m, fst (main args tr) <> Ret m)
      /\ snd (main args tr) = snd (main_setup args tr)).
Proof.
  destruct (main_setup args tr) as [[l|e|] tr1] eqn:Es.
  - left. exists l, tr1. split; [reflexivity|].
    exact (main_after_setup _ _ _ _ _ _ _ _ _ _ _ _ _ _ _ _ _ Es).
  - right. unfold Main.main, bind. rewrite Es. cbn.
    repeat split; intros ?; discriminate.
  - right. unfold Main.main, bind. rewrite Es. cbn.
    repeat split; intros ?; discriminate.
Qed.

(** ** Blocks only append to the trace *)

Lemma appends_ret {A} (a : A) : appends (D := D) (ret a).
Proof. intros tr o tr' [= <- <-]. exists []. symmetry. apply app_nil_r. Qed.

Lemma appends_raise {A} (e : exn) : appends (D := D) (A := A) (raise e).
Proof. intros tr o tr' [= <- <-]. exists []. symmetry. apply app_nil_r. Qed.

Lemma appends_lift {A} (o : outcome A) : appends (D := D) (lift o).
Proof. intros tr o' tr' [= <- <-]. exists []. symmetry. apply app_nil_r. Qed.

Lemma appends_emit (e : @Event D) : appends (emit e).
Proof. intros tr o tr' [= <- <-]. exists [e]. reflexivity. Qed.

Lemma appends_bind {A B} (m : IO (D := D) A) (k : A -> IO (D := D) B) :
  appends m -> (forall a, appends (k a)) -> appends (bind m k).
Proof.
  intros Hm Hk tr o tr' H. unfold bind in H.
  destruct (m tr) as [[a|e|] tr1] eqn:Em.
  - destruct (Hm _ _ _ Em) as [e1 ->]. destruct (Hk a _ _ _ H) as [e2 ->].
    exists (e1 ++ e2). symmetry. apply app_assoc.
  - injection H as <- <-. exact (Hm _ _ _ Em).
  - injection H as <- <-. exact (Hm _ _ _ Em).
Qed.

Lemma appends_try_except {A} (a b : IO (D := D) A) :
  appends a -> appends b -> appends (try_except a b).
Proof.
  intros Ha Hb tr o tr' H. unfold try_except in H.
  destruct (a tr) as [[x|e|] tr1] eqn:Ea.
  - injection H as <- <-. exact (Ha _ _ _ Ea).
  - destruct (Ha _ _ _ Ea) as [e1 ->]. destruct (Hb _ _ _ H) as [e2 ->].
    exists (e1 ++ e2). symmetry. apply app_assoc.
  - injection H as <- <-. exact (Ha _ _ _ Ea).
Qed.

Ltac appends_step :=
  first
    [ apply appends_ret
    | apply appends_raise
    | apply appends_lift
    | apply appends_emit
    | apply appends_try_except
    | apply appends_bind; [|intros ?]
    | match goal with
      | |- appends (if ?c then _ else _) => destruct c
      | |- appends (match ?x with _ => _ end) => destruct x
      end ].

Lemma setup_appends (args : Args) : appends (main_setup args).
Proof.
  unfold Main.main_setup, np_random_seed, torch_manual_seed, Main.get_llm,
    Main.load_tokenizer.
  repeat appends_step.
Qed.

Lemma dispatch_appends (l : Locals) : appends (dispatch l).
Proof. unfold Main.dispatch, call_prune. repeat appends_step. Qed.

Lemma finish_appends (l : Locals) (m : Model) :
  appends (audit_evaluate_persist l m).
Proof.
  unfold Main.audit_evaluate_persist, os_path_exists, os_makedirs.
  repeat appends_step.
Qed.

(** With a seed in range, whatever the setup does, it does after the two
    seed calls. *)
Lemma setup_starts_with_seeds (args : Args) (tr tr1 : list Event)
    (o : outcome Locals) :
  0 <= seed args <= 4294967295 ->
  main_setup args tr = (o, tr1) ->
  exists rest,
    tr1 = tr ++ [NpRandomSeed (seed args); TorchManualSeed (seed args)] ++ rest.
Proof.
  intros Hs H. unfold Main.main_setup in H.
  rewrite (bind_ret_step _ _ _ _ _ (np_random_seed_ret _ tr Hs)) in H.
  rewrite (bind_ret_step _ _ _ _ _ (torch_manual_seed_ret _ _ Hs)) in H.
  match type of H with
  | ?blk _ = _ =>
      assert (Happ : appends blk)
        by (unfold Main.get_llm, Main.load_tokenizer; repeat appends_step)
  end.
  destruct (Happ _ _ _ H) as [rest ->]. exists rest.
  rewrite <- !app_assoc. reflexivity.
Qed.

(** X11. Every run, however it ends, begins with exactly what
    [set_seed(args.seed)] of lib/data.py does, its failure included: with
    a seed numpy accepts (0 to 2**32 - 1) the numpy seed call, then the
    torch seed call, before any other call; with any other seed the
    numpy call alone, whose [ValueError] ends the run. *)
Theorem run_starts_with_set_seed (args : Args) (tr : list Event) :
  (exists rest, snd (main args tr) = snd (set_seed (seed args) tr) ++ rest)
  /\ (forall e,
        fst (set_seed (D := D) (seed args) tr) = Raise e ->
        main args tr = (Raise e, snd (set_seed (seed args) tr)))
  /\ (0 <= seed args <= 4294967295 ->
      set_seed (seed args) tr
      = (Ret tt, tr ++ [NpRandomSeed (seed args); TorchManualSeed (seed args)]))
  /\ (~ 0 <= seed args <= 4294967295 ->
      set_seed (seed args) tr
      = (Raise ValueError, tr ++ [NpRandomSeed (seed args)])).
Proof.
  assert (Hin : 0 <= seed args <= 4294967295 ->
                set_seed (D := D) (seed args) tr
                = (Ret tt,
                   tr ++ [NpRandomSeed (seed args); TorchManualSeed (seed args)])).
  { intros Hs. unfold set_seed.
    rewrite (bind_ret_step _ _ _ _ _ (np_random_seed_ret _ tr Hs)).
    rewrite torch_manual_seed_ret by exact Hs.
    rewrite <- app_assoc. reflexivity. }
  assert (Hout : ~ 0 <= seed args <= 4294967295 ->
                 set_seed (D := D) (seed args) tr
                 = (Raise ValueError, tr ++ [NpRandomSeed (seed args)])).
  { intros Hs. unfold set_seed.
    apply bind_raise_step, np_random_seed_raises, Hs. }
  split; [|split; [|split; assumption]].
  - destruct (seed_range_dec (seed args)) as [Hs|Hs].
    + rewrite (Hin Hs). cbn [snd].
      destruct (main_cases args tr)
        as [(l & tr1 & Es & _ & Em)|(_ & _ & Em)].
      * rewrite Em.
        apply (setup_starts_with_seeds _ _ _ _ Hs) in Es as [rest ->].
        destruct (main_run l _) as [o tr'] eqn:Er.
        unfold Main.main_run in Er.
        assert (Happ : appends (bind (dispatch l) (audit_evaluate_persist l))).
        { apply appends_bind; [apply dispatch_appends|].
          intros m. apply finish_appends. }
        destruct (Happ _ _ _ Er) as [evs ->]. cbn [snd].
        exists (rest ++ evs). rewrite <- !app_assoc. reflexivity.
      * rewrite Em. destruct (main_setup args tr) as [o tr1] eqn:Es.
        apply (setup_starts_with_seeds _ _ _ _ Hs) in Es as [rest ->].
        exists rest. cbn [snd]. rewrite <- !app_assoc. reflexivity.
    + rewrite (Hout Hs). cbn [snd]. exists [].
      rewrite main_bad_seed by exact Hs.
      cbn [snd]. symmetry. apply app_nil_r.
  - intros e He. destruct (seed_range_dec (seed args)) as [Hs|Hs].
    + rewrite (Hin Hs) in He. discriminate.
    + rewrite (Hout Hs) in *. injection He as <-.
      apply main_bad_seed. exact Hs.
Qed.

(** ** The files a run touches *)

(** What a block that makes none of the calls [f] selects appended. *)
Lemma silent_events {X A} (f : @Event D -> option X) (m : IO (D := D) A)
    (tr evs : list Event) (o : outcome A) :
  silent f m -> m tr = (o, tr ++ evs) -> omap f evs = [].
Proof.
  intros Hm H. apply Hm in H. rewrite omap_app in H.
  apply (app_inv_head (omap f tr)). rewrite app_nil_r. exact H.
Qed.

Ltac persist_cases H :=
  unfold Main.audit_evaluate_persist, os_path_exists, os_makedirs, bind, emit,
    lift, ret, raise in H;
  repeat match type of H with
         | context [String.eqb ?p ""] =>
             destruct (String.eqb_spec p ""); cbn [negb andb] in H
         | context [path_exists ?p] =>
             destruct (path_exists p) eqn:?; cbn [negb andb] in H
         | context [match ?x with _ => _ end] =>
             lazymatch x with
             | context [match _ with _ => _ end] => fail
             | _ => destruct x eqn:?
             end
         end.

(** The file-system calls of lines 155-164, however the block ends:
    [os.makedirs] is called at most once, on [--save], after
    [os.path.exists] said no; the log is written at most once, to
    [<save>/log.txt]; the model and the tokenizer are saved only to a
    non-empty [--save_model], the model first, after the log is written.
    A block that returned made each of these calls in full. *)
Lemma finish_files (l : Locals) (m : Model) (tr tr' : list Event)
    (o : outcome Model) :
  audit_evaluate_persist l m tr = (o, tr') ->
  exists evs,
    tr' = tr ++ evs
    /\ (makedirs_calls evs = []
        \/ exists p, save (l_args l) = Some p
                     /\ (p = "" \/ path_exists p = false)
                     /\ makedirs_calls evs = [p])
    /\ (log_writes evs = []
        \/ exists p, save (l_args l) = Some p /\ p <> ""
                     /\ log_writes evs = [path_join p "log.txt"])
    /\ (save_calls evs = []
        \/ exists q, save_model (l_args l) = Some q /\ q <> ""
                     /\ (save_calls evs = [(true, q)]
                         \/ save_calls evs = [(true, q); (false, q)])
                     /\ log_writes evs <> [])
    /\ (forall m', o = Ret m' ->
        exists p, save (l_args l) = Some p /\ p <> ""
                  /\ makedirs_calls evs = (if path_exists p then [] else [p])
                  /\ log_writes evs = [path_join p "log.txt"]
                  /\ save_calls evs
                     = match save_model (l_args l) with
                       | Some q => if String.eqb q "" then []
                                   else [(true, q); (false, q)]
                       | None => []
                       end).
Proof.
  intros H. persist_cases H; injection H as <- <-;
    rewrite <- ?app_assoc; cbn [app];
    (eexists; split; [first [reflexivity | symmetry; apply app_nil_r]|]).
  all: cbn.
  all: repeat match goal with
              | |- context [String.eqb ?q ""] =>
                  destruct (String.eqb_spec q ""); [congruence|]
              end.
  all: repeat split;
    try (intros ? [=]);
    first [ left; reflexivity
          | right; eexists; repeat split; eauto; congruence
          | eexists; (split; [reflexivity|]); (split; [assumption|]);
            match goal with
            | E : path_exists _ = _ |- _ => rewrite E
            end;
            repeat split; reflexivity ].
Qed.

(** The same for a whole run. *)
Lemma main_files (args : Args) (tr : list Event) :
  exists evs,
    snd (main args tr) = tr ++ evs
    /\ (makedirs_calls evs = []
        \/ exists p, save args = Some p
                     /\ (p = "" \/ path_exists p = false)
                     /\ makedirs_calls evs = [p])
    /\ (log_writes evs = []
        \/ exists p, save args = Some p /\ p <> ""
                     /\ log_writes evs = [path_join p "log.txt"])
    /\ (save_calls evs = []
        \/ exists q, save_model args = Some q /\ q <> ""
                     /\ (save_calls evs = [(true, q)]
                         \/ save_calls evs = [(true, q); (false, q)])
                     /\ log_writes evs <> [])
    /\ (forall m', fst (main args tr) = Ret m' ->
        exists p, save args = Some p /\ p <> ""
                  /\ makedirs_calls evs = (if path_exists p then [] else [p])
                  /\ log_writes evs = [path_join p "log.txt"]
                  /\ save_calls evs
                     = match save_model args with
                       | Some q => if String.eqb q "" then []
                                   else [(true, q); (false, q)]
                       | None => []
                       end).
Proof.
  destruct (setup_writes_nothing args) as (Hs1 & Hs2 & Hs3).
  destruct (main_cases args tr) as [(l & tr1 & Es & Ha & Em)|(_ & Hn & Em)].
  - rewrite Em. destruct (setup_appends _ _ _ _ Es) as [e1 ->].
    destruct (dispatch_writes_nothing l) as (Hd1 & Hd2 & Hd3).
    unfold Main.main_run, bind.
    destruct (dispatch l (tr ++ e1)) as [[m|e|] tr2] eqn:Ed;
      destruct (dispatch_appends _ _ _ _ Ed) as [e2 ->].
    + destruct (audit_evaluate_persist l m _) as [o tr'] eqn:Ef.
      destruct (finish_files _ _ _ _ _ Ef) as (e3 & -> & F1 & F2 & F3 & F4).
      exists (e1 ++ e2 ++ e3). cbn [fst snd].
      split; [rewrite <- !app_assoc; reflexivity|].
      unfold makedirs_calls, log_writes, save_calls in *.
      rewrite !omap_app.
      rewrite (silent_events _ _ _ _ _ Hs1 Es), (silent_events _ _ _ _ _ Hs2 Es),
        (silent_events _ _ _ _ _ Hs3 Es), (silent_events _ _ _ _ _ Hd1 Ed),
        (silent_events _ _ _ _ _ Hd2 Ed), (silent_events _ _ _ _ _ Hd3 Ed).
      cbn [app]. rewrite Ha in *. auto.
    + exists (e1 ++ e2). cbn [fst snd].
      split; [rewrite <- !app_assoc; reflexivity|].
      unfold makedirs_calls, log_writes, save_calls.
      rewrite !omap_app.
      rewrite (silent_events _ _ _ _ _ Hs1 Es), (silent_events _ _ _ _ _ Hs2 Es),
        (silent_events _ _ _ _ _ Hs3 Es), (silent_events _ _ _ _ _ Hd1 Ed),
        (silent_events _ _ _ _ _ Hd2 Ed), (silent_events _ _ _ _ _ Hd3 Ed).
      cbn [app]. repeat split; auto. intros ? [=].
    + exists (e1 ++ e2). cbn [fst snd].
      split; [rewrite <- !app_assoc; reflexivity|].
      unfold makedirs_calls, log_writes, save_calls.
      rewrite !omap_app.
      rewrite (silent_events _ _ _ _ _ Hs1 Es), (silent_events _ _ _ _ _ Hs2 Es),
        (silent_events _ _ _ _ _ Hs3 Es), (silent_events _ _ _ _ _ Hd1 Ed),
        (silent_events _ _ _ _ _ Hd2 Ed), (silent_events _ _ _ _ _ Hd3 Ed).
      cbn [app]. repeat split; auto. intros ? [=].
  - rewrite Em. destruct (main_setup args tr) as [o tr1] eqn:Es.
    destruct (setup_appends _ _ _ _ Es) as [e1 ->].
    exists e1. cbn [snd]. split; [reflexivity|].
    unfold makedirs_calls, log_writes, save_calls.
    rewrite (silent_events _ _ _ _ _ Hs1 Es), (silent_events _ _ _ _ _ Hs2 Es),
      (silent_events _ _ _ _ _ Hs3 Es).
    repeat split; auto. intros m' Hm. exfalso. exact (Hn _ Hm).
Qed.

(** X12. The log file is written at most once in a run, and only to
    [<save>/log.txt] for a non-empty [--save]. A run that returns wrote
    it; a run without [--save] wrote none. A run that raises may have
    written it already: the saving of the model comes after it. *)
Theorem log_written_at_most_once (args : Args) (tr : list Event) :
  exists logs,
    log_writes (snd (main args tr)) = log_writes tr ++ logs
    /\ (logs = []
        \/ exists p, save args = Some p /\ p <> ""
                     /\ logs = [path_join p "log.txt"])
    /\ (forall m, fst (main args tr) = Ret m -> logs <> [])
    /\ (save args = None -> logs = []).
Proof.
  destruct (main_files args tr) as (evs & He & _ & Hl & _ & Hr).
  exists (log_writes evs). rewrite He.
  split; [apply omap_app|]. split; [exact Hl|]. split.
  - intros m Hm. destruct (Hr m Hm) as (p & _ & _ & _ & -> & _). discriminate.
  - intros Hs. destruct Hl as [Hl|(p & Hp & _)]; [exact Hl|congruence].
Qed.

(** X13. [os.makedirs] is called at most once in a run, on [--save], and
    only after [os.path.exists] said no (the empty path never exists). A
    run that returns was given a non-empty [--save] and called it exactly
    if the directory was missing; with [--save ''] the call raises, so
    such a run never returns. *)
Theorem directory_created_only_if_missing (args : Args) (tr : list Event) :
  exists dirs,
    makedirs_calls (snd (main args tr)) = makedirs_calls tr ++ dirs
    /\ (dirs = []
        \/ exists p, save args = Some p
                     /\ (p = "" \/ path_exists p = false)
                     /\ dirs = [p])
    /\ (forall m,
          fst (main args tr) = Ret m ->
          exists p, save args = Some p /\ p <> ""
                    /\ dirs = (if path_exists p then [] else [p]))
    /\ (save args = Some "" -> forall m, fst (main args tr) <> Ret m).
Proof.
  destruct (main_files args tr) as (evs & He & Hd & _ & _ & Hr).
  exists (makedirs_calls evs). rewrite He.
  split; [apply omap_app|]. split; [exact Hd|]. split.
  - intros m Hm. destruct (Hr m Hm) as (p & Hp & Hne & Hdirs & _). eauto.
  - intros Hs m Hm. destruct (Hr m Hm) as (p & Hp & Hne & _). congruence.
Qed.

(** X14. The model and the tokenizer are saved only when a non-empty
    [--save_model] was given, to that one path, the model first, and
    only after the log was written. A run that returns made both calls
    when the option was given and none otherwise; a run that raises in
    one of them made that call and those before it. *)
Theorem model_saved_only_on_request (args : Args) (tr : list Event) :
  exists saves,
    save_calls (snd (main args tr)) = save_calls tr ++ saves
    /\ (saves = []
        \/ exists q, save_model args = Some q /\ q <> ""
                     /\ (saves = [(true, q)] \/ saves = [(true, q); (false, q)])
                     /\ log_writes (snd (main args tr)) <> log_writes tr)
    /\ (forall m,
          fst (main args tr) = Ret m ->
          saves = match save_model args with
                  | Some q => if String.eqb q "" then []
                              else [(true, q); (false, q)]
                  | None => []
                  end).
Proof.
  destruct (main_files args tr) as (evs & He & _ & _ & Hs & Hr).
  exists (save_calls evs). rewrite He.
  split; [apply omap_app|]. split.
  - destruct Hs as [Hs|(q & Hq & Hne & Hcalls & Hlog)]; [left; exact Hs|].
    right. exists q. repeat split; try assumption.
    unfold log_writes in *. rewrite omap_app. intros Heq.
    apply Hlog. eapply app_inv_head. rewrite app_nil_r. exact Heq.
  - intros m Hm. destruct (Hr m Hm) as (p & _ & _ & _ & _ & Hsaves).
    exact Hsaves.
Qed.

(** X15. A run without [--sparsity_type], with a seed numpy accepts
    (0 to 2**32 - 1, the default 0 included), never gets past the
    configuration step: it raises [AssertionError] when the ratio is not
    0.5 (so also with every default) and [AttributeError] when it is,
    in both cases right after the seed calls and before any load. *)
Theorem missing_sparsity_type_aborts (args : Args) (tr : list Event) :
  0 <= seed args <= 4294967295 ->
  sparsity_type args = None ->
  main args tr
  = (Raise (if float_eqb (sparsity_ratio args) (Finite (1 # 2))
            then AttributeError else AssertionError),
     tr ++ [NpRandomSeed (seed args); TorchManualSeed (seed args)]).
Proof.
  intros Hseed Ht. apply main_aborts_in_config; [exact Hseed|].
  unfold handle_nm. rewrite Ht. cbn [opt_eqb negb].
  destruct (float_eqb _ _); reflexivity.
Qed.

(** X16. A run without [--model], with a seed numpy accepts (0 to
    2**32 - 1), whose sparsity options pass the configuration step
    raises [AttributeError] at line 96, after the seed calls and before
    any load. *)
Theorem missing_model_aborts (args : Args) (tr : list Event) (nm : Z * Z) :
  0 <= seed args <= 4294967295 ->
  model args = None ->
  handle_nm args = Ret nm ->
  main args tr
  = (Raise AttributeError,
     tr ++ [NpRandomSeed (seed args); TorchManualSeed (seed args)]).
Proof.
  intros Hseed Hm Hnm. unfold Main.main. apply bind_raise_step.
  unfold Main.main_setup.
  rewrite (bind_ret_step _ _ _ _ _ (np_random_seed_ret _ tr Hseed)).
  rewrite (bind_ret_step _ _ _ _ _ (torch_manual_seed_ret _ _ Hseed)).
  unfold bind, lift. rewrite Hnm, Hm.
  destruct nm. rewrite <- app_assoc. reflexivity.
Qed.

(** X17. The corpus name chosen at lines 130-132 is ["qwen2.5-vl"]
    exactly when the identifier, in lower case, contains ["vl"], and
    ["c4"] otherwise: the test for ["qwen2.5-vl"] adds nothing, and an
    identifier of the Llava family that contains ["vl"] gets the
    vision-language corpus name as well. *)
Theorem corpus_name_follows_vl (args : Args) (tr tr' : list Event) (l : Locals) :
  main_setup args tr = (Ret l, tr') ->
  exists id,
    model args = Some id
    /\ (occurs_in "vl" (lower id) -> l_dataset_name l = "qwen2.5-vl")
    /\ (~ occurs_in "vl" (lower id) -> l_dataset_name l = "c4").
Proof.
  clear prune check_sparsity eval_ppl fmt4 path_exists makedirs write_file
    save_model_pretrained save_tokenizer_pretrained.
  intros H. apply main_setup_ret in H as (id & Hid & _ & _ & _ & _ & Hname).
  exists id. split; [exact Hid|]. rewrite vl_test_redundant in Hname.
  rewrite Hname. destruct (contains "vl" (lower id)) eqn:Ev.
  - split; [reflexivity|]. intros Hn. exfalso. apply Hn, contains_spec, Ev.
  - split; [|reflexivity]. intros Ho. apply contains_spec in Ho. congruence.
Qed.

(** ** The loader and the tokenizer chain *)

(** [get_llm] in one piece. *)
Lemma get_llm_closed (id cache : string) (tr : list Event) :
  get_llm id cache tr
  = if (contains "llava" (lower id) && negb llava_importable)%bool
    then (Raise ImportError, tr)
    else
      (Ret ({| weights := fst (model_from_pretrained (model_class_of id) id cache);
               hf_device_map :=
                 snd (model_from_pretrained (model_class_of id) id cache);
               seqlen := Some 2048;
               training := true |},
            match model_class_of id with
            | AutoModelForVision2Seq => Some (processor_from_pretrained id cache)
            | _ => None
            end),
       tr ++ ModelFromPretrained (model_class_of id) id cache
             :: match model_class_of id with
                | AutoModelForVision2Seq => [ProcessorFromPretrained id cache]
                | _ => []
                end).
Proof.
  unfold Main.get_llm, model_class_of. rewrite vl_test_redundant.
  destruct (contains "llava" (lower id)); [destruct llava_importable|];
    cbn [andb negb]; try reflexivity.
  - unfold bind, emit, ret.
    destruct (model_from_pretrained LlavaForConditionalGeneration id cache).
    reflexivity.
  - destruct (contains "vl" (lower id)); unfold bind, emit, ret.
    + destruct (model_from_pretrained AutoModelForVision2Seq id cache).
      cbn [fst snd]. rewrite <- app_assoc. reflexivity.
    + destruct (model_from_pretrained AutoModelForCausalLM id cache).
      reflexivity.
Qed.

(** X18. [get_llm] chooses the class from the identifier in lower case,
    Llava first: an identifier containing ["llava"] is loaded as a Llava
    model, without a processor, also when it contains ["vl"]; one that
    contains ["vl"] and not ["llava"] is loaded as a vision-to-sequence
    model with its processor; any other as a causal language model. One
    model is loaded, its nominal [seqlen] is 2048 whatever the class, and
    when the Llava class cannot be imported the call raises before
    loading anything. *)
Theorem get_llm_by_family (id cache : string) (tr : list Event) :
  (model_class_of id = LlavaForConditionalGeneration
   <-> occurs_in "llava" (lower id))
  /\ (model_class_of id = AutoModelForVision2Seq
      <-> ~ occurs_in "llava" (lower id) /\ occurs_in "vl" (lower id))
  /\ (occurs_in "llava" (lower id) -> llava_importable = false ->
      get_llm id cache tr = (Raise ImportError, tr))
  /\ (forall m proc tr',
        get_llm id cache tr = (Ret (m, proc), tr') ->
        tr' = tr ++ ModelFromPretrained (model_class_of id) id cache
                   :: match proc with
                      | Some _ => [ProcessorFromPretrained id cache]
                      | None => []
                      end
        /\ (weights m, hf_device_map m)
           = model_from_pretrained (model_class_of id) id cache
        /\ seqlen m = Some 2048
        /\ (is_Some proc <-> model_class_of id = AutoModelForVision2Seq)).
Proof.
  clear tokenizer_from_pretrained prune check_sparsity eval_ppl fmt4 path_exists
    makedirs write_file save_model_pretrained save_tokenizer_pretrained.
  assert (Hl : contains "llava" (lower id) = true <-> occurs_in "llava" (lower id))
    by apply contains_spec.
  assert (Hv : contains "vl" (lower id) = true <-> occurs_in "vl" (lower id))
    by apply contains_spec.
  split; [|split; [|split]].
  - unfold model_class_of. rewrite <- Hl.
    destruct (contains "llava" (lower id)); [tauto|].
    destruct (contains "vl" (lower id)); split; discriminate.
  - unfold model_class_of. rewrite <- Hl, <- Hv.
    destruct (contains "llava" (lower id)).
    + split; [discriminate|]. intros [Hn _]. exfalso. apply Hn. reflexivity.
    + destruct (contains "vl" (lower id)).
      * split; [|reflexivity]. intros _. split; [discriminate|reflexivity].
      * split; [discriminate|]. intros [_ Hn]. discriminate.
  - intros Ho Hi. apply Hl in Ho. rewrite get_llm_closed, Ho, Hi. reflexivity.
  - intros m proc tr' H. rewrite get_llm_closed in H.
    destruct (contains "llava" (lower id) && negb llava_importable)%bool;
      [discriminate|].
    injection H as <- <- <-. cbn [weights hf_device_map seqlen].
    split; [destruct (model_class_of id); reflexivity|].
    split; [destruct (model_from_pretrained _ _ _); reflexivity|].
    split; [reflexivity|].
    destruct (model_class_of id); split;
      first [reflexivity | discriminate | intros [? ?]; discriminate | eauto].
Qed.

(** What the setup did, step by step. *)
Lemma main_setup_parts (args : Args) (tr tr' : list Event) (l : Locals) :
  main_setup args tr = (Ret l, tr') ->
  exists id m0 proc tr6,
    model args = Some id
    /\ get_llm id (cache_dir args)
         (tr ++ [NpRandomSeed (seed args); TorchManualSeed (seed args)])
       = (Ret (m0, proc), tr6)
    /\ l_model l = model_eval m0
    /\ match proc with
       | Some _ =>
           try_except
             (load_tokenizer AutoTokenizer (path_join id "language_model"))
             (load_tokenizer AutoTokenizer id)
       | None =>
           if contains "llava" (lower id) then
             try_except (load_tokenizer LlamaTokenizer id)
                        (load_tokenizer AutoTokenizer id)
           else load_tokenizer AutoTokenizer id
       end tr6 = (Ret (l_tokenizer l), tr').
Proof.
  intros H. unfold Main.main_setup in H.
  apply bind_ret_inv in H as ([] & tr1 & H1 & H).
  apply np_random_seed_inv in H1 as [Hseed ->].
  apply bind_ret_inv in H as ([] & tr2 & H2 & H).
  rewrite torch_manual_seed_ret in H2 by exact Hseed. injection H2 as <-.
  apply bind_ret_inv in H as ([n m] & tr3 & Hnm & H).
  apply lift_ret_inv in Hnm as [_ ->].
  apply bind_ret_inv in H as (id & tr4 & Hid & H).
  apply lift_ret_inv in Hid as [Hid ->].
  apply bind_ret_inv in H as (name & tr5 & Hname & H).
  apply lift_ret_inv in Hname as [_ ->].
  apply bind_ret_inv in H as ([m0 proc] & tr6 & Hllm & H).
  apply bind_ret_inv in H as (tok & tr7 & Htok & H).
  apply bind_ret_inv in H as (dev & tr8 & Hdev & H).
  unfold ret in H. injection H as <- <-.
  assert (tr8 = tr7) as ->.
  { destruct (_ || _)%bool in Hdev.
    - destruct (_ !! _) in Hdev; [|discriminate].
      unfold ret in Hdev. injection Hdev as _ <-. reflexivity.
    - unfold ret in Hdev. injection Hdev as _ <-. reflexivity. }
  exists id, m0, proc, tr6. cbn [l_model l_tokenizer].
  split; [destruct (model args); congruence|].
  split; [rewrite <- app_assoc in Hllm; exact Hllm|].
  split; [reflexivity|exact Htok].
Qed.

(** X19. After the setup the model is in evaluation mode and carries
    the nominal [seqlen] 2048; its weights and its device map are those
    the class chosen for the identifier loaded: nothing before the
    dispatch touches them. *)
Theorem setup_leaves_loaded_model (args : Args) (tr tr' : list Event)
    (l : Locals) :
  main_setup args tr = (Ret l, tr') ->
  exists id,
    model args = Some id
    /\ training (l_model l) = false
    /\ seqlen (l_model l) = Some 2048
    /\ (weights (l_model l), hf_device_map (l_model l))
       = model_from_pretrained (model_class_of id) id (cache_dir args).
Proof.
  clear prune check_sparsity eval_ppl fmt4 path_exists makedirs write_file
    save_model_pretrained save_tokenizer_pretrained.
  intros H. apply main_setup_parts in H as (id & m0 & proc & tr6 & Hid & Hllm & -> & _).
  exists id. split; [exact Hid|]. split; [reflexivity|].
  rewrite get_llm_closed in Hllm.
  destruct (_ && _)%bool in Hllm; [discriminate|].
  injection Hllm as <- _ _. cbn.
  split; [reflexivity|]. destruct (model_from_pretrained _ _ _); reflexivity.
Qed.

(** X20. The tokenizer of a run is the first of its chain that loads:
    for a vision-to-sequence model the [language_model] sub-folder and
    then the model path, for a Llava model the Llama tokenizer and then
    the generic one, otherwise the generic one alone. The tokenizer
    loads of the run are the attempts up to that one, each made once. *)
Theorem tokenizer_is_first_success (args : Args) (tr tr' : list Event)
    (l : Locals) :
  main_setup args tr = (Ret l, tr') ->
  exists id tried,
    model args = Some id
    /\ first_success tokenizer_from_pretrained (tokenizer_chain id)
       = (Some (l_tokenizer l), tried)
    /\ tokenizer_loads tr' = tokenizer_loads tr ++ tried.
Proof.
  clear prune check_sparsity eval_ppl fmt4 path_exists makedirs write_file
    save_model_pretrained save_tokenizer_pretrained.
  intros H.
  apply main_setup_parts in H as (id & m0 & proc & tr6 & Hid & Hllm & _ & Htok).
  exists id. rewrite get_llm_closed in Hllm.
  destruct (contains "llava" (lower id) && negb llava_importable)%bool eqn:Ei;
    [discriminate|].
  injection Hllm as _ <- <-.
  unfold tokenizer_chain. unfold model_class_of in *.
  unfold try_except, Main.load_tokenizer, bind, emit, ret, raise in Htok.
  unfold tokenizer_loads.
  destruct (contains "llava" (lower id)); [|destruct (contains "vl" (lower id))];
    cbn [first_success];
    repeat match type of Htok with
           | context [match tokenizer_from_pretrained ?c ?q with _ => _ end] =>
               destruct (tokenizer_from_pretrained c q) eqn:?
           end;
    try discriminate;
    injection Htok as <- <-;
    eexists; (split; [exact Hid|]); (split; [reflexivity|]);
    rewrite <- ?app_assoc; rewrite !omap_app; cbn; rewrite ?app_nil_r;
    reflexivity.
Qed.

(** ** How many loads a run makes *)

(** The setup, however it ends, loads at most one model and at most two
    tokenizers. *)
Lemma setup_load_bounds (args : Args) (tr tr' : list Event) (o : outcome Locals) :
  main_setup args tr = (o, tr') ->
  exists evs,
    tr' = tr ++ evs
    /\ (length (load_calls evs) <= 1)%nat
    /\ (length (tokenizer_loads evs) <= 2)%nat.
Proof.
  clear prune check_sparsity eval_ppl fmt4 path_exists makedirs write_file
    save_model_pretrained save_tokenizer_pretrained.
  intros H. destruct (seed_range_dec (seed args)) as [Hseed|Hseed];
    [|rewrite setup_bad_seed in H by exact Hseed; injection H as <- <-;
      eexists; (split; [reflexivity|]); cbn; lia].
  unfold Main.main_setup in H.
  rewrite (bind_ret_step _ _ _ _ _ (np_random_seed_ret _ tr Hseed)) in H.
  rewrite (bind_ret_step _ _ _ _ _ (torch_manual_seed_ret _ _ Hseed)) in H.
  unfold Main.load_tokenizer, try_except, bind, emit, lift, ret, raise in H.
  destruct (handle_nm args) as [[n m]|e|];
    [|injection H as <- <-; eexists; (split; [rewrite <- ?app_assoc; reflexivity|]);
      cbn; lia..].
  destruct (model args) as [id|];
    [|injection H as <- <-; eexists; (split; [rewrite <- ?app_assoc; reflexivity|]);
      cbn; lia].
  destruct (last_item (split "/" id));
    [|injection H as <- <-; eexists; (split; [rewrite <- ?app_assoc; reflexivity|]);
      cbn; lia..].
  rewrite get_llm_closed in H.
  repeat match type of H with
         | context [match ?x with _ => _ end] =>
             lazymatch x with
             | context [match _ with _ => _ end] => fail
             | _ => destruct x
             end
         end;
    injection H as <- <-; eexists;
    (split; [rewrite <- ?app_assoc; reflexivity|]); cbn; lia.
Qed.

(** X21. A run loads at most one model and makes at most two tokenizer
    loads, however it ends: each fallback of the tokenizer chain is tried
    once, and nothing is loaded again after the setup. *)
Theorem loads_are_bounded (args : Args) (tr : list Event) :
  (length (load_calls (snd (main args tr))) <= length (load_calls tr) + 1)%nat
  /\ (length (tokenizer_loads (snd (main args tr)))
      <= length (tokenizer_loads tr) + 2)%nat.
Proof.
  destruct (main_cases args tr) as [(l & tr1 & Es & _ & Em)|(_ & _ & Em)].
  - rewrite Em. apply setup_load_bounds in Es as (evs & -> & H1 & H2).
    destruct (main_run l (tr ++ evs)) as [o tr'] eqn:Er. cbn [snd].
    destruct (run_loads_nothing l) as [Hl Ht].
    unfold load_calls, tokenizer_loads in *.
    rewrite (Hl _ _ _ Er), (Ht _ _ _ Er), !omap_app, !length_app. lia.
  - rewrite Em. destruct (main_setup args tr) as [o tr1] eqn:Es. cbn [snd].
    apply setup_load_bounds in Es as (evs & -> & H1 & H2).
    unfold load_calls, tokenizer_loads in *.
    rewrite !omap_app, !length_app. lia.
Qed.

(** ** A size marker without an entry for the output head *)

Lemma split_nonempty (sep : ascii) (s : string) : split sep s <> [].
Proof.
  destruct s as [|c s]; cbn; [discriminate|].
  destruct (Ascii.eqb c sep); [discriminate|].
  destruct (split sep s); discriminate.
Qed.

(** [l[-1]] of a non-empty list returns. *)
Lemma last_item_returns {A} (l : list A) :
  l <> [] -> exists x, last_item l = Ret x.
Proof.
  intros Hne. unfold last_item, getitem.
  change (-1 <? 0) with true. cbv iota.
  assert (Hlen : 1 <= len l).
  { unfold len. destruct l; [congruence|]. simpl length. lia. }
  destruct (Z.ltb_spec (-1 + len l) 0) as [?|_]; [lia|].
  destruct (lookup_lt_is_Some_2 l (Z.to_nat (-1 + len l))) as [x Hx].
  { unfold len in *. lia. }
  rewrite Hx. eauto.
Qed.

(** X22. When the identifier carries a size marker and the device map of
    the loaded model has no entry for ["lm_head"] (a model placed whole
    on one device), a run with a seed numpy accepts (0 to 2**32 - 1)
    raises [KeyError] at line 124: the model and the tokenizer have been
    loaded, no criterion is invoked and no log is written. *)
Theorem size_marker_without_head_entry (args : Args) (tr : list Event)
    (id : string) (nm : Z * Z) :
  0 <= seed args <= 4294967295 ->
  model args = Some id ->
  handle_nm args = Ret nm ->
  occurs_in "30b" id \/ occurs_in "65b" id \/ occurs_in "70b" id ->
  (forall cls, snd (model_from_pretrained cls id (cache_dir args)) !! "lm_head"
               = None) ->
  (occurs_in "llava" (lower id) -> llava_importable = true) ->
  (forall cls path, is_Some (tokenizer_from_pretrained cls path)) ->
  exists tr',
    main args tr = (Raise KeyError, tr')
    /\ load_calls tr' = load_calls tr ++ [(model_class_of id, id)]
    /\ prune_calls tr' = prune_calls tr
    /\ log_writes tr' = log_writes tr.
Proof.
  intros Hseed Hm Hnm Hmark Hmap Himp Htok.
  assert (Hmark' : (contains "30b" id || contains "65b" id || contains "70b" id)%bool
                   = true).
  { rewrite !orb_true_iff, !contains_spec. tauto. }
  assert (Himp' : (contains "llava" (lower id) && negb llava_importable)%bool
                  = false).
  { destruct (contains "llava" (lower id)) eqn:El; [|reflexivity].
    rewrite Himp by (apply contains_spec; exact El). reflexivity. }
  destruct (last_item_returns (split "/" id) (split_nonempty _ _)) as [name Hname].
  assert (Hs : exists tr1,
             main_setup args tr = (Raise KeyError, tr1)
             /\ load_calls tr1 = load_calls tr ++ [(model_class_of id, id)]).
  { unfold Main.main_setup.
    rewrite (bind_ret_step _ _ _ _ _ (np_random_seed_ret _ tr Hseed)).
    rewrite (bind_ret_step _ _ _ _ _ (torch_manual_seed_ret _ _ Hseed)).
    unfold bind, emit, lift.
    rewrite Hnm. destruct nm as [n m]. rewrite Hm, Hname.
    rewrite get_llm_closed, Himp', Hmark'.
    cbn [model_eval hf_device_map]. rewrite Hmap.
    unfold try_except, Main.load_tokenizer, bind, emit, ret, raise.
    destruct (model_class_of id); destruct (contains "llava" (lower id));
      repeat match goal with
             | |- context [tokenizer_from_pretrained ?c ?q] =>
                 let t := fresh "t" in
                 let Ht := fresh "Ht" in
                 destruct (Htok c q) as [t Ht]; rewrite Ht
             end;
      eexists; (split; [reflexivity|]);
      unfold load_calls; rewrite <- ?app_assoc; rewrite !omap_app; cbn;
      rewrite ?app_nil_r; reflexivity. }
  destruct Hs as (tr1 & Hs & Hloads).
  exists tr1. split; [unfold Main.main, bind; rewrite Hs; reflexivity|].
  split; [exact Hloads|]. split.
  - exact (quiet_main_setup _ _ _ _ _ _ _ _ Hs).
  - destruct (setup_writes_nothing args) as (Hw & _). exact (Hw _ _ _ Hs).
Qed.

(** ** From the configuration to the criterion *)

(** X23. The criterion a run invokes is called with what the earlier
    steps settled: the pair parsed from the sparsity pattern, the layer
    restriction of the command line, the device selected at lines
    122-124, and the model and the tokenizer the setup left. The dispatch
    ends as that call ends. *)
Theorem criterion_receives_configuration (args : Args) (tr tr1 : list Event)
    (l : Locals) (name : string) (c : Criterion) :
  main_setup args tr = (Ret l, tr1) ->
  float_eqb (sparsity_ratio args) (Finite 0) = false ->
  prune_method args = Some name ->
  criterion_named name = Some c ->
  exists n m,
    handle_nm args = Ret (n, m)
    /\ dispatch l tr1
       = (prune c args (l_model l) (l_tokenizer l) (l_device l) n m
            (layer_no args),
          tr1 ++ [Prune c n m (layer_no args) (l_device l)]).
Proof.
  clear check_sparsity eval_ppl fmt4 path_exists makedirs write_file
    save_model_pretrained save_tokenizer_pretrained.
  intros Hs Hr Hm Hc.
  pose proof (main_setup_ret _ _ _ _ _ _ _ _ Hs) as (id & _ & Ha & Hnm & Hidx & _).
  exists (l_prune_n l), (l_prune_m l). split; [exact Hnm|].
  rewrite <- Hidx, <- Ha.
  apply (dispatch_named _ _ _ name c); rewrite ?Ha; assumption.
Qed.

(** X24. A run with a structured pattern that passes the configuration
    step has ratio 0.5, which is not 0: it always enters the dispatch, an
    N:M run is never an evaluation-only run. *)
Theorem structured_run_enters_dispatch (args : Args) (tr tr' : list Event)
    (l : Locals) :
  main_setup args tr = (Ret l, tr') ->
  opt_eqb (sparsity_type args) "unstructured" = false ->
  float_eqb (sparsity_ratio args) (Finite (1 # 2)) = true
  /\ float_eqb (sparsity_ratio args) (Finite 0) = false.
Proof.
  clear prune check_sparsity eval_ppl fmt4 path_exists makedirs write_file
    save_model_pretrained save_tokenizer_pretrained.
  intros Hs Ht.
  pose proof (main_setup_ret _ _ _ _ _ _ _ _ Hs) as (id & _ & _ & Hnm & _).
  unfold handle_nm in Hnm. rewrite Ht in Hnm. cbn [negb] in Hnm.
  destruct (float_eqb (sparsity_ratio args) (Finite (1 # 2))) eqn:Eh;
    [|discriminate].
  split; [reflexivity|].
  destruct (sparsity_ratio args) as [q| |]; try discriminate.
  cbn [float_eqb] in *. apply Qeq_bool_iff in Eh.
  destruct (Qeq_bool q 0) eqn:E0; [|reflexivity].
  apply Qeq_bool_iff in E0. rewrite E0 in Eh. discriminate.
Qed.

End DriverExtra.

(** ** The further properties at work on the small instance *)

Import Toy.

Lemma run_starts_with_set_seed_witness :
  toy_main large_seed_args [] = (Raise ValueError, [NpRandomSeed 4294967296]).
Proof.
  destruct (run_starts_with_set_seed (P := unit)
              toy_model_from_pretrained true (fun _ _ => tt)
              toy_tokenizer_from_pretrained toy_prune toy_check_sparsity
              toy_eval_ppl toy_fmt4 toy_path_exists toy_makedirs
              toy_write_file toy_save_model toy_save_tokenizer
              large_seed_args []) as (_ & Hfail & _ & Hout).
  unfold toy_main. rewrite (Hfail ValueError).
  - rewrite Hout; [reflexivity|cbn; lia].
  - rewrite Hout; [reflexivity|cbn; lia].
Defined.

Lemma log_written_at_most_once_witness :
  log_writes
    (snd (toy_main (toy_args "facebook/opt-125m" (Finite 0)
                      (Some "unstructured") None) []))
  = ["out/log.txt"].
Proof.
  destruct (log_written_at_most_once (P := unit)
              toy_model_from_pretrained true (fun _ _ => tt)
              toy_tokenizer_from_pretrained toy_prune toy_check_sparsity
              toy_eval_ppl toy_fmt4 toy_path_exists toy_makedirs
              toy_write_file toy_save_model toy_save_tokenizer
              (toy_args "facebook/opt-125m" (Finite 0)
                 (Some "unstructured") None) [])
    as (logs & Hl & Hc & Hr & _).
  unfold toy_main. rewrite Hl.
  destruct Hc as [->|(p & Hp & _ & ->)].
  - exfalso.
    destruct (Main.main _ _ _ _ _ _ _ _ _ _ _ _ _ _ _) as [[m|e|] tr'] eqn:E;
      [|vm_compute in E; discriminate|vm_compute in E; discriminate].
    exact (Hr m eq_refl eq_refl).
  - injection Hp as <-. reflexivity.
Defined.

Lemma directory_created_only_if_missing_witness :
  makedirs_calls
    (snd (toy_main (toy_args "facebook/opt-125m" (Finite 0)
                      (Some "unstructured") None) []))
  = ["out"].
Proof.
  destruct (directory_created_only_if_missing (P := unit)
              toy_model_from_pretrained true (fun _ _ => tt)
              toy_tokenizer_from_pretrained toy_prune toy_check_sparsity
              toy_eval_ppl toy_fmt4 toy_path_exists toy_makedirs
              toy_write_file toy_save_model toy_save_tokenizer
              (toy_args "facebook/opt-125m" (Finite 0)
                 (Some "unstructured") None) [])
    as (dirs & Hd & _ & Hr & _).
  unfold toy_main. rewrite Hd.
  destruct (Main.main _ _ _ _ _ _ _ _ _ _ _ _ _ _ _) as [[m|e|] tr'] eqn:E;
    [|vm_compute in E; discriminate|vm_compute in E; discriminate].
  destruct (Hr m eq_refl) as (p & Hp & _ & ->).
  injection Hp as <-. reflexivity.
Defined.

Lemma model_saved_only_on_request_witness :
  save_calls (snd (toy_main save_model_args []))
  = [(true, "pruned"); (false, "pruned")].
Proof.
  destruct (model_saved_only_on_request (P := unit)
              toy_model_from_pretrained true (fun _ _ => tt)
              toy_tokenizer_from_pretrained toy_prune toy_check_sparsity
              toy_eval_ppl toy_fmt4 toy_path_exists toy_makedirs
              toy_write_file toy_save_model toy_save_tokenizer
              save_model_args [])
    as (saves & Hs & _ & Hr).
  unfold toy_main. rewrite Hs.
  destruct (Main.main _ _ _ _ _ _ _ _ _ _ _ _ _ _ _) as [[m|e|] tr'] eqn:E;
    [|vm_compute in E; discriminate|vm_compute in E; discriminate].
  rewrite (Hr m eq_refl). reflexivity.
Defined.

Lemma criterion_receives_configuration_witness :
  exists l tr1,
    toy_main_setup (toy_args "facebook/opt-125m" (Finite (1 # 2)) (Some "2:4")
                      (Some "wanda")) []
    = (Ret l, tr1)
    /\ Main.dispatch toy_prune l tr1
       = (toy_prune prune_wanda (l_args l) (l_model l) (l_tokenizer l)
            (l_device l) 2 4 (-1),
          tr1 ++ [Prune prune_wanda 2 4 (-1) (l_device l)]).
Proof.
  destruct (toy_main_setup _ _) as [[l|e|] tr1] eqn:E;
    [|vm_compute in E; discriminate|vm_compute in E; discriminate].
  destruct (criterion_receives_configuration (P := unit)
              toy_model_from_pretrained true (fun _ _ => tt)
              toy_tokenizer_from_pretrained toy_prune _ _ _ _
              "wanda" prune_wanda E eq_refl eq_refl eq_refl)
    as (n & m & Hnm & Hd).
  vm_compute in Hnm. injection Hnm as <- <-.
  exists l, tr1. split; [reflexivity|].
  replace (l_args l)
    with (toy_args "facebook/opt-125m" (Finite (1 # 2)) (Some "2:4")
            (Some "wanda"))
    by (vm_compute in E; injection E as <- _; reflexivity).
  exact Hd.
Defined.

Lemma structured_run_enters_dispatch_witness :
  float_eqb (Finite (2 # 4)) (Finite (1 # 2)) = true
  /\ float_eqb (Finite (2 # 4)) (Finite 0) = false.
Proof.
  destruct (toy_main_setup (toy_args "facebook/opt-125m" (Finite (2 # 4))
                              (Some "2:4") (Some "wanda")) [])
    as [[l|e|] tr1] eqn:E;
    [|vm_compute in E; discriminate|vm_compute in E; discriminate].
  exact (structured_run_enters_dispatch (P := unit)
           toy_model_from_pretrained true (fun _ _ => tt)
           toy_tokenizer_from_pretrained _ _ _ _ E eq_refl).
Defined.

Lemma missing_sparsity_type_aborts_witness :
  toy_main (toy_args "facebook/opt-125m" (Finite 0) None (Some "wanda")) []
  = (Raise AssertionError, [NpRandomSeed 0; TorchManualSeed 0]).
Proof.
  apply (missing_sparsity_type_aborts (P := unit)
           toy_model_from_pretrained true (fun _ _ => tt)
           toy_tokenizer_from_pretrained toy_prune toy_check_sparsity
           toy_eval_ppl toy_fmt4 toy_path_exists toy_makedirs toy_write_file
           toy_save_model toy_save_tokenizer
           (toy_args "facebook/opt-125m" (Finite 0) None (Some "wanda")) []).
  - cbn. lia.
  - reflexivity.
Defined.

Lemma missing_model_aborts_witness :
  toy_main no_model_args []
  = (Raise AttributeError, [NpRandomSeed 0; TorchManualSeed 0]).
Proof.
  apply (missing_model_aborts (P := unit)
           toy_model_from_pretrained true (fun _ _ => tt)
           toy_tokenizer_from_pretrained toy_prune toy_check_sparsity
           toy_eval_ppl toy_fmt4 toy_path_exists toy_makedirs toy_write_file
           toy_save_model toy_save_tokenizer
           no_model_args [] (0, 0)).
  - cbn. lia.
  - reflexivity.
  - reflexivity.
Defined.

Lemma corpus_name_follows_vl_witness :
  exists l tr,
    toy_main_setup (toy_args "llava-hf/llava-vl-7b" (Finite 0)
                      (Some "unstructured") None) []
    = (Ret l, tr)
    /\ l_dataset_name l = "qwen2.5-vl".
Proof.
  destruct (toy_main_setup _ _) as [[l|e|] tr] eqn:E;
    [|vm_compute in E; discriminate|vm_compute in E; discriminate].
  destruct (corpus_name_follows_vl (P := unit)
              toy_model_from_pretrained true (fun _ _ => tt)
              toy_tokenizer_from_pretrained _ _ _ _ E)
    as (id & Hid & Hyes & _).
  injection Hid as <-.
  exists l, tr. split; [reflexivity|]. apply Hyes.
  exists "llava-hf/llava-", "-7b". reflexivity.
Defined.

Lemma get_llm_by_family_witness :
  get_llm (P := unit) toy_model_from_pretrained false (fun _ _ => tt)
    "llava-hf/LLaVA-1.5-7b-hf" "./llm_weights" ([] : list (@Event Z))
  = (Raise ImportError, []).
Proof.
  apply (get_llm_by_family (P := unit) toy_model_from_pretrained false
           (fun _ _ => tt) "llava-hf/LLaVA-1.5-7b-hf" "./llm_weights" []).
  - exists "", "-hf/llava-1.5-7b-hf". reflexivity.
  - reflexivity.
Defined.

Lemma setup_leaves_loaded_model_witness :
  exists l tr,
    toy_main_setup (toy_args "facebook/opt-125m" (Finite 0)
                      (Some "unstructured") None) []
    = (Ret l, tr)
    /\ training (l_model l) = false
    /\ seqlen (l_model l) = Some 2048.
Proof.
  destruct (toy_main_setup _ _) as [[l|e|] tr] eqn:E;
    [|vm_compute in E; discriminate|vm_compute in E; discriminate].
  destruct (setup_leaves_loaded_model (P := unit)
              toy_model_from_pretrained true (fun _ _ => tt)
              toy_tokenizer_from_pretrained _ _ _ _ E)
    as (id & _ & Ht & Hs & _).
  exists l, tr. auto.
Defined.

Lemma tokenizer_is_first_success_witness :
  exists l tr,
    main_setup (P := unit) toy_model_from_pretrained true (fun _ _ => tt)
      no_subfolder_tokenizer
      (toy_args "Qwen/Qwen2.5-VL-7B" (Finite 0) (Some "unstructured") None) []
    = (Ret l, tr)
    /\ l_tokenizer l = "Qwen/Qwen2.5-VL-7B"
    /\ tokenizer_loads tr
       = [(AutoTokenizer, "Qwen/Qwen2.5-VL-7B/language_model");
          (AutoTokenizer, "Qwen/Qwen2.5-VL-7B")].
Proof.
  destruct (main_setup _ _ _ _ _ _) as [[l|e|] tr] eqn:E;
    [|vm_compute in E; discriminate|vm_compute in E; discriminate].
  destruct (tokenizer_is_first_success (P := unit)
              toy_model_from_pretrained true (fun _ _ => tt)
              no_subfolder_tokenizer _ _ _ _ E)
    as (id & tried & Hid & Hfs & Hloads).
  injection Hid as <-. vm_compute in Hfs. injection Hfs as Ht <-.
  exists l, tr. split; [reflexivity|]. split; [symmetry; exact Ht|exact Hloads].
Defined.

Lemma size_marker_without_head_entry_witness :
  exists tr',
    main (P := unit) single_device_model true (fun _ _ => tt)
      toy_tokenizer_from_pretrained toy_prune toy_check_sparsity toy_eval_ppl
      toy_fmt4 toy_path_exists toy_makedirs toy_write_file toy_save_model
      toy_save_tokenizer
      (toy_args "meta-llama/Llama-2-70b-hf" (Finite 0) (Some "unstructured")
         None) []
    = (Raise KeyError, tr')
    /\ load_calls tr'
       = load_calls (D := Z) []
         ++ [(model_class_of "meta-llama/Llama-2-70b-hf",
              "meta-llama/Llama-2-70b-hf")]
    /\ prune_calls tr' = prune_calls (D := Z) []
    /\ log_writes tr' = log_writes (D := Z) [].
Proof.
  apply (size_marker_without_head_entry (P := unit) single_device_model true
           (fun _ _ => tt) toy_tokenizer_from_pretrained toy_prune
           toy_check_sparsity toy_eval_ppl toy_fmt4 toy_path_exists
           toy_makedirs toy_write_file toy_save_model toy_save_tokenizer
           (toy_args "meta-llama/Llama-2-70b-hf" (Finite 0)
              (Some "unstructured") None)
           [] "meta-llama/Llama-2-70b-hf" (0, 0)).
  - cbn. lia.
  - reflexivity.
  - reflexivity.
  - right. right. exists "meta-llama/Llama-2-", "-hf". reflexivity.
  - intros cls. vm_compute. reflexivity.
  - intros _. reflexivity.
  - intros cls path. eexists. reflexivity.
Defined.

End MainExtra.
